(** * Profile cards: metric normalisation and SVG rendering

    A shallow embedding of the two scripts of the repository,
    [scripts/github-cards.mjs] and [scripts/wakatime-cards.mjs], followed by
    the properties of their aggregation and rendering code.

    Conventions of the embedding.
    - A JavaScript string is the [string] of its UTF-8 bytes, which is what
      [fs.writeFileSync(_, _, "utf8")] puts on disk.  The five characters
      [escapeXml] looks for are ASCII, and no byte of a multi-byte UTF-8
      sequence is ASCII, so searching bytes and searching code units agree.
    - A JavaScript number is a [number]: [NaN], an infinity, or a finite
      rational.  Arithmetic on finite numbers is exact: the rounding of
      IEEE-754 doubles (and the negative zero) is not modelled.  Every
      operation returns its rational in lowest terms, so that two equal
      results are equal terms.
    - Counts and sizes that the code only adds and compares are integers
      ([Z]); layout coordinates are integers too.
    - [Math.log1p] has no rational model: [computeGrade] is stated over the
      real numbers [R].
    - What the host does when it turns a number into text
      ([Number::toString], [toFixed], [toLocaleString]) is an interface,
      [Host]; the properties hold for every host.  [refHost] is one
      executable host.
    - The module-level [theme] object of each script is passed explicitly. *)

From Stdlib Require Import ZArith QArith Qround Qreduction Reals Lqa Lra Lia.
From Stdlib Require Import List String Ascii Bool DecimalString Sorted Permutation.
Import ListNotations.

Close Scope Q_scope.
Local Open Scope string_scope.
Local Open Scope Z_scope.

(* ================================================================== *)
(** * Part I: the embedding *)
(* ================================================================== *)

(** ** JavaScript strings *)

Module JsString.

(** The double quote, the apostrophe and the line feed. *)
Definition dquote : ascii := "034"%char.
Definition squote : ascii := "039"%char.
Definition dq : string := String dquote EmptyString.
Definition nl : string := String "010"%char EmptyString.

(** Concatenation of the pieces of a template literal. *)
Fixpoint cat (l : list string) : string :=
  match l with
  | [] => EmptyString
  | s :: r => s ++ cat r
  end.

(** [Array.prototype.join]. *)
Fixpoint join (sep : string) (l : list string) : string :=
  match l with
  | [] => EmptyString
  | [s] => s
  | s :: r => s ++ sep ++ join sep r
  end.

(** [arr.map((x, i) => f(x, i))], the index counted from [i]. *)
Fixpoint mapi_from {A B : Type} (i : Z) (f : A -> Z -> B) (l : list A) : list B :=
  match l with
  | [] => []
  | x :: r => f x i :: mapi_from (i + 1) f r
  end.

Definition mapi {A B : Type} (f : A -> Z -> B) (l : list A) : list B :=
  mapi_from 0 f l.

(** [s.replace(/c/g, by)] for a one-character pattern [c] and a
    replacement [by] without [$]. *)
Fixpoint replaceAll (c : ascii) (by_ : string) (s : string) : string :=
  match s with
  | EmptyString => EmptyString
  | String a r =>
      if Ascii.eqb a c then by_ ++ replaceAll c by_ r
      else String a (replaceAll c by_ r)
  end.

(** Number of occurrences of a character. *)
Fixpoint count (c : ascii) (s : string) : nat :=
  match s with
  | EmptyString => O
  | String a r => ((if Ascii.eqb a c then 1 else 0) + count c r)%nat
  end.

(** [x] occurs in [s] as a contiguous piece. *)
Definition infix (x s : string) : Prop :=
  exists pre post, s = pre ++ x ++ post.

(** An attribute [k="v"] of the markup. *)
Definition attr (k v : string) : string := k ++ "=" ++ dq ++ v ++ dq.

End JsString.

(** ** JavaScript values used as text *)

Module JsValue.

(** A value found where text is expected: a string, or a missing one. *)
Inductive jsval : Type :=
| VUndefined
| VNull
| VStr (s : string).

(** [String(v)]. *)
Definition ToString (v : jsval) : string :=
  match v with
  | VUndefined => "undefined"
  | VNull => "null"
  | VStr s => s
  end.

(** [v ?? d]. *)
Definition nullish (v d : jsval) : jsval :=
  match v with
  | VUndefined | VNull => d
  | VStr _ => v
  end.

(** [Boolean(v)]: a string is truthy when it is not empty. *)
Definition truthy (v : jsval) : bool :=
  match v with
  | VUndefined | VNull => false
  | VStr s => negb (String.eqb s "")
  end.

(** [v || d]. *)
Definition orElse (v d : jsval) : jsval := if truthy v then v else d.

(** [v === "lit"]. *)
Definition strictEq (v : jsval) (lit : string) : bool :=
  match v with
  | VStr s => String.eqb s lit
  | _ => false
  end.

End JsValue.

(** ** JavaScript numbers *)

Module JsNumber.

Inductive number : Type :=
| NaN
| PInf
| NInf
| Fin (q : Q).

Definition ofQ (q : Q) : number := Fin (Qred q).
Definition ofZ (z : Z) : number := Fin (inject_Z z).

Definition Qzero (q : Q) : bool := (Qnum q =? 0)%Z.
Definition Qltb (a b : Q) : bool := negb (Qle_bool b a).

(** Sign of a number that is not [NaN]: [-1], [0] or [1]. *)
Definition sign (x : number) : Z :=
  match x with
  | NaN => 0
  | PInf => 1
  | NInf => -1
  | Fin q => Z.sgn (Qnum q)
  end.

Definition inf_of_sign (s : Z) : number :=
  if (0 <? s)%Z then PInf else if (s <? 0)%Z then NInf else NaN.

(** [x + y]. *)
Definition add (x y : number) : number :=
  match x, y with
  | NaN, _ | _, NaN => NaN
  | PInf, NInf | NInf, PInf => NaN
  | PInf, _ | _, PInf => PInf
  | NInf, _ | _, NInf => NInf
  | Fin a, Fin b => ofQ (a + b)
  end.

(** [x - y]. *)
Definition sub (x y : number) : number :=
  match x, y with
  | NaN, _ | _, NaN => NaN
  | PInf, PInf | NInf, NInf => NaN
  | PInf, _ | _, NInf => PInf
  | NInf, _ | _, PInf => NInf
  | Fin a, Fin b => ofQ (a - b)
  end.

(** [x * y]: an infinity times zero is [NaN]. *)
Definition mul (x y : number) : number :=
  match x, y with
  | NaN, _ | _, NaN => NaN
  | Fin a, Fin b => ofQ (a * b)
  | _, _ => inf_of_sign (sign x * sign y)
  end.

(** [x / y]: zero over zero and infinity over infinity are [NaN], a
    non-zero number over zero is an infinity. *)
Definition div (x y : number) : number :=
  match x, y with
  | NaN, _ | _, NaN => NaN
  | Fin a, Fin b =>
      if Qzero b then inf_of_sign (sign x) else ofQ (a / b)
  | Fin _, _ => Fin 0
  | _, Fin b => inf_of_sign (sign x * (if Qzero b then 1 else sign y))
  | _, _ => NaN
  end.

(** [x <= y], [x < y], [x === y]: false when an operand is [NaN]. *)
Definition leb (x y : number) : bool :=
  match x, y with
  | NaN, _ | _, NaN => false
  | NInf, _ | _, PInf => true
  | PInf, _ | _, NInf => false
  | Fin a, Fin b => Qle_bool a b
  end.

Definition ltb (x y : number) : bool :=
  match x, y with
  | NaN, _ | _, NaN => false
  | PInf, _ | _, NInf => false
  | NInf, _ | _, PInf => true
  | Fin a, Fin b => Qltb a b
  end.

Definition eqb (x y : number) : bool :=
  match x, y with
  | PInf, PInf | NInf, NInf => true
  | Fin a, Fin b => Qeq_bool a b
  | _, _ => false
  end.

(** [Math.max(x, y)] and [Math.min(x, y)]: [NaN] when an operand is. *)
Definition max (x y : number) : number :=
  match x, y with
  | NaN, _ | _, NaN => NaN
  | _, _ => if leb x y then y else x
  end.

Definition min (x y : number) : number :=
  match x, y with
  | NaN, _ | _, NaN => NaN
  | _, _ => if leb x y then x else y
  end.

(** [Math.floor(x)] and [Math.round(x)]; the latter rounds a half up. *)
Definition floor (x : number) : number :=
  match x with
  | Fin q => ofZ (Qfloor q)
  | _ => x
  end.

Definition Qround (q : Q) : Z := Qfloor (q + (1 # 2))%Q.

Definition round (x : number) : number :=
  match x with
  | Fin q => ofZ (Qround q)
  | _ => x
  end.

(** [x % y] for a finite non-zero [y]: the remainder has the sign of [x]. *)
Definition Qtrunc (q : Q) : Z :=
  if Qle_bool 0 q then Qfloor q else Qceiling q.

Definition rem (x y : number) : number :=
  match x, y with
  | Fin a, Fin b =>
      if Qzero b then NaN
      else ofQ (a - b * inject_Z (Qtrunc (a / b)))%Q
  | Fin _, PInf | Fin _, NInf => x
  | _, _ => NaN
  end.

(** [Boolean(x)]: zero and [NaN] are falsy. *)
Definition toBoolean (x : number) : bool :=
  match x with
  | NaN => false
  | Fin q => negb (Qzero q)
  | _ => true
  end.

(** [x || d] for a field [x] that may be missing. *)
Definition orNum (x : option number) (d : number) : number :=
  match x with
  | Some v => if toBoolean v then v else d
  | None => d
  end.

(** [Number.isFinite(x)]. *)
Definition isFinite (x : number) : bool :=
  match x with
  | Fin _ => true
  | _ => false
  end.

(** [Math.PI], the double nearest to pi. *)
Definition PI : Q := (884279719003555 # 281474976710656)%Q.

End JsNumber.

(** ** The host's number formatting *)

Module JsHost.
Import JsNumber.

(** What the runtime does when a number becomes text. *)
Class Host : Type := {
  (** [Number::toString], as applied by a template literal. *)
  numToString : number -> string;
  (** [Number.prototype.toFixed(digits)]. *)
  toFixed : number -> nat -> string;
  (** [Number.prototype.toLocaleString("en-US")]. *)
  toLocaleString : number -> string
}.

(** An integer inside a template literal. *)
Definition str `{Host} (z : Z) : string := numToString (ofZ z).

(** *** A reference host

    Exact on integers below 10^21 in magnitude and, for [toFixed], on
    every finite number below 10^21; a finite non-integer is printed by
    [numToString] with sixteen decimals at most, which is close to, but
    not always, the shortest form that JavaScript prints. *)

Definition showZ (z : Z) : string := NilEmpty.string_of_int (Z.to_int z).

Fixpoint zeros (n : nat) : string :=
  match n with
  | O => EmptyString
  | S k => String "0"%char (zeros k)
  end.

Definition padLeft0 (d : nat) (s : string) : string :=
  zeros (d - String.length s) ++ s.

Fixpoint trimZeros (s : string) : string :=
  match s with
  | EmptyString => EmptyString
  | String c r =>
      let r' := trimZeros r in
      if andb (String.eqb r' "") (Ascii.eqb c "0"%char) then EmptyString
      else String c r'
  end.

Fixpoint group3 (s : string) : string :=
  match s with
  | EmptyString => EmptyString
  | String c r =>
      let n := String.length r in
      String c ((if andb (Nat.eqb (n mod 3) 0) (negb (Nat.eqb n 0))
                 then "," else "") ++ group3 r)
  end.

Definition Qabs' (q : Q) : Q := if Qle_bool 0 q then q else Qopp q.

(** Integer and fraction digits of a non-negative rational rounded to
    [d] decimals, a half rounded up. *)
Definition fixedParts (q : Q) (d : nat) : string * string :=
  let p := (10 ^ Z.of_nat d)%Z in
  let n := Qround (q * inject_Z p)%Q in
  (showZ (n / p), padLeft0 d (showZ (n mod p))).

Definition minus (q : Q) : string := if Qltb q 0 then "-" else "".

Definition refToFixed (x : number) (d : nat) : string :=
  match x with
  | NaN => "NaN"
  | PInf => "Infinity"
  | NInf => "-Infinity"
  | Fin q =>
      let '(i, f) := fixedParts (Qabs' q) d in
      minus q ++ i ++ (if Nat.eqb d 0 then "" else "." ++ f)
  end.

Definition withFraction (i f : string) : string :=
  if String.eqb f "" then i else i ++ "." ++ f.

Definition refNumToString (x : number) : string :=
  match x with
  | NaN => "NaN"
  | PInf => "Infinity"
  | NInf => "-Infinity"
  | Fin q =>
      let '(i, f) := fixedParts (Qabs' q) 16 in
      minus q ++ withFraction i (trimZeros f)
  end.

Definition refToLocaleString (x : number) : string :=
  match x with
  | NaN => "NaN"
  | PInf => String "226" (String "136" (String "158" ""))
  | NInf => "-" ++ String "226" (String "136" (String "158" ""))
  | Fin q =>
      let '(i, f) := fixedParts (Qabs' q) 3 in
      minus q ++ withFraction (group3 i) (trimZeros f)
  end.

Definition refHost : Host := {|
  numToString := refNumToString;
  toFixed := refToFixed;
  toLocaleString := refToLocaleString
|}.

End JsHost.

(** ** Calendar arithmetic of [Date] *)

Module JsDate.

Definition msPerDay : Z := 86400000.

(** Day number of the first day of year [y] (ECMAScript [DayFromYear]). *)
Definition DayFromYear (y : Z) : Z :=
  365 * (y - 1970) + (y - 1969) / 4 - (y - 1901) / 100 + (y - 1601) / 400.

(** [Date.UTC(y, 0, 1, 0, 0, 0)] for a four-digit year: the instant, in
    milliseconds since the epoch, at which year [y] starts. *)
Definition TimeFromYear (y : Z) : Z := msPerDay * DayFromYear y.

(** Climb from a year that starts no later than [t] to the last such year. *)
Fixpoint climb (fuel : nat) (y t : Z) : Z :=
  match fuel with
  | O => y
  | S f => if TimeFromYear (y + 1) <=? t then climb f (y + 1) t else y
  end.

(** [date.getUTCFullYear()] of the instant [t] (ECMAScript [YearFromTime]):
    the largest year that starts no later than [t]. *)
Definition getUTCFullYear (t : Z) : Z :=
  let k := t / (365 * msPerDay) in
  climb (Z.to_nat (Z.abs k) + 1) (1970 + Z.min 0 k) t.

End JsDate.

(* ================================================================== *)
(** ** [scripts/github-cards.mjs] *)
(* ================================================================== *)

Module Github.
Import JsString JsValue JsNumber JsHost JsDate.

(** Fixed range start. *)
Definition FROM_YEAR : Z := 2021.

Module Theme.
Record t : Type := {
  bg1 : string;
  bg2 : string;
  title : string;
  text : string;
  muted : string;
  barBg : string;
  stroke : string;
  accent : string;
  bars : list string
}.
End Theme.

Definition theme : Theme.t := {|
  Theme.bg1 := "#0B1220";
  Theme.bg2 := "#111827";
  Theme.title := "#E5E7EB";
  Theme.text := "#E5E7EB";
  Theme.muted := "#94A3B8";
  Theme.barBg := "#1F2937";
  Theme.stroke := "#334155";
  Theme.accent := "#0EA5E9";
  Theme.bars :=
    ["#0EA5E9"; "#22C55E"; "#A78BFA"; "#F59E0B"; "#38BDF8"; "#14B8A6"; "#EAB308"]
|}.

(** [theme.bars[i]]; a template literal prints a missing entry as
    [undefined]. *)
Definition barAt (th : Theme.t) (i : Z) : string :=
  match nth_error (Theme.bars th) (Z.to_nat i) with
  | Some c => c
  | None => "undefined"
  end.

(** [theme.bars[i % theme.bars.length]]; with an empty list the index is
    [NaN] and the entry is missing. *)
Definition barCycle (th : Theme.t) (i : Z) : string :=
  match Theme.bars th with
  | [] => "undefined"
  | _ => barAt th (i mod Z.of_nat (List.length (Theme.bars th)))
  end.

(** *** Formatting utilities *)

Definition escapeXml (str : jsval) : string :=
  replaceAll squote "&apos;"
    (replaceAll dquote "&quot;"
      (replaceAll ">" "&gt;"
        (replaceAll "<" "&lt;"
          (replaceAll "&" "&amp;" (ToString (nullish str (VStr ""))))))).

(** [Number(n || 0)] of an integer is the integer. *)
Definition numberOr0 (n : Z) : Z := if n =? 0 then 0 else n.

Definition fmtNumber `{Host} (n : Z) : string :=
  let x := numberOr0 n in
  toLocaleString (ofZ x).

Definition humanBytes `{Host} (bytes : Z) : string :=
  let b := numberOr0 bytes in
  let mb := 1024 * 1024 in
  let kb := 1024 in
  if mb <=? b then toFixed (div (ofZ b) (ofZ mb)) 1 ++ " MB"
  else if kb <=? b then toFixed (div (ofZ b) (ofZ kb)) 1 ++ " KB"
  else str b ++ " B".

(** *** Grade (combined) using log normalisation *)

Module Signals.
Record t : Type := {
  commits : R;
  prs : R;
  issues : R;
  reviews : R;
  stars : R;
  repos : R
}.
End Signals.

Record Grade : Type := { score : R; pct : Z; letter : string }.

(** [Math.log1p(Math.max(0, Number(x || 0)))]: log(1+x) for diminishing
    returns. *)
Definition L (x : R) : R := ln (1 + Rmax 0 x).

(** Targets are soft caps. *)
Definition targets : Signals.t := {|
  Signals.commits := 4000;
  Signals.prs := 200;
  Signals.issues := 200;
  Signals.reviews := 250;
  Signals.stars := 300;
  Signals.repos := 60
|}.

Definition norm (val target : R) : R :=
  let a := L val in
  let b := L target in
  if Req_dec_T b 0 then 0%R else Rmin 1 (a / b).

(** [Number.isFinite(x) ? x : 0]: every real is finite. *)
Definition constOrZero (x : R) : R := x.

(** Weights (sum = 1). *)
Definition w : Signals.t := {|
  Signals.commits := 0.35;
  Signals.prs := 0.20;
  Signals.issues := constOrZero 0.10;
  Signals.reviews := 0.10;
  Signals.stars := 0.15;
  Signals.repos := 0.10
|}.

(** [Math.round] of a real: the nearest integer, a half rounded up. *)
Definition Math_round (x : R) : Z := Zfloor (x + / 2).

(** The letter of a percentage. *)
Definition letterOf (pct : Z) : string :=
  if 85 <=? pct then "S"
  else if 70 <=? pct then "A"
  else if 55 <=? pct then "B"
  else if 40 <=? pct then "C"
  else "D".

Definition computeGrade (commits prs issues reviews starsTotal reposTotal : R)
  : Grade :=
  let score :=
    (Signals.commits w * norm commits (Signals.commits targets) +
     Signals.prs w * norm prs (Signals.prs targets) +
     Signals.issues w * norm issues (Signals.issues targets) +
     Signals.reviews w * norm reviews (Signals.reviews targets) +
     Signals.stars w * norm starsTotal (Signals.stars targets) +
     Signals.repos w * norm reposTotal (Signals.repos targets))%R in
  let pct := Math_round (score * 100) in
  {| score := score; pct := pct; letter := letterOf pct |}.

(** *** Rendering *)

Record MetricRow : Type := {
  name : jsval;
  valueText : jsval;
  percent : number
}.

Record GridItem : Type := { label : jsval; value : jsval }.

Section Render.
Context `{Host}.
Variable th : Theme.t.

Definition ringSvg (cx cy r strokeWidth pct : Z) (color : string)
    (label : jsval) : string :=
  let clamped := Z.max 0 (Z.min 100 pct) in
  let C := mul (mul (ofZ 2) (Fin PI)) (ofZ r) in
  let dash := div (mul C (ofZ clamped)) (ofZ 100) in
  let gap := sub C dash in
  cat [
    nl;
    "    <g>"; nl;
    "      <circle "; attr "cx" (str cx); " "; attr "cy" (str cy); " "; attr "r" (str r);
      " "; attr "fill" "none"; " "; attr "stroke" (Theme.stroke th); " ";
      attr "stroke-width" (str strokeWidth); " "; attr "opacity" "0.65"; "/>"; nl;
    "      <circle "; attr "cx" (str cx); " "; attr "cy" (str cy); " "; attr "r" (str r);
      " "; attr "fill" "none"; " "; attr "stroke" color; " ";
      attr "stroke-width" (str strokeWidth); nl;
    "              "; attr "stroke-linecap" "round"; nl;
    "              ";
      attr "stroke-dasharray" ((numToString dash) ++ " " ++ (numToString gap)); nl;
    "              ";
      attr "transform" ("rotate(-90 " ++ (str cx) ++ " " ++ (str cy) ++ ")"); nl;
    "              "; attr "filter" "url(#barGlow)"; "/>"; nl;
    "      <text "; attr "x" (str cx); " "; attr "y" (str (cy + 7)); " ";
      attr "text-anchor" "middle"; nl;
    "            "; attr "fill" (Theme.text th); " "; attr "font-size" "22"; " ";
      attr "font-weight" "900"; nl;
    "            "; attr "font-family" "ui-sans-serif, system-ui"; ">"; (escapeXml label);
      "</text>"; nl;
    "      <text "; attr "x" (str cx); " "; attr "y" (str (cy + 28)); " ";
      attr "text-anchor" "middle"; nl;
    "            "; attr "fill" (Theme.muted th); " "; attr "font-size" "11"; " ";
      attr "font-weight" "700"; nl;
    "            "; attr "font-family" "ui-sans-serif, system-ui"; ">"; (str clamped);
      "%</text>"; nl;
    "    </g>"; nl;
    "  "
  ].

Definition svgDefs : string :=
  cat [
    nl;
    "  <defs>"; nl;
    "    <linearGradient "; attr "id" "bgGrad"; " "; attr "x1" "0"; " "; attr "y1" "0"; " ";
      attr "x2" "1"; " "; attr "y2" "1"; ">"; nl;
    "      <stop "; attr "offset" "0%"; " "; attr "stop-color" (Theme.bg1 th); "/>"; nl;
    "      <stop "; attr "offset" "100%"; " "; attr "stop-color" (Theme.bg2 th); "/>"; nl;
    "    </linearGradient>"; nl;
    nl;
    "    <filter "; attr "id" "shadow"; " "; attr "x" "-20%"; " "; attr "y" "-20%"; " ";
      attr "width" "140%"; " "; attr "height" "140%"; ">"; nl;
    "      <feDropShadow "; attr "dx" "0"; " "; attr "dy" "10"; " ";
      attr "stdDeviation" "18"; " "; attr "flood-color" "#000000"; " ";
      attr "flood-opacity" "0.35"; "/>"; nl;
    "    </filter>"; nl;
    nl;
    "    <filter "; attr "id" "barGlow"; " "; attr "x" "-20%"; " "; attr "y" "-50%"; " ";
      attr "width" "140%"; " "; attr "height" "200%"; ">"; nl;
    "      <feDropShadow "; attr "dx" "0"; " "; attr "dy" "0"; " "; attr "stdDeviation" "2";
      " "; attr "flood-color" "#ffffff"; " "; attr "flood-opacity" "0.06"; "/>"; nl;
    "      <feDropShadow "; attr "dx" "0"; " "; attr "dy" "4"; " "; attr "stdDeviation" "6";
      " "; attr "flood-color" "#000000"; " "; attr "flood-opacity" "0.22"; "/>"; nl;
    "    </filter>"; nl;
    "  </defs>"; nl
  ].

Definition baseCard (width height : Z) : string :=
  cat [
    "<rect "; attr "x" "0"; " "; attr "y" "0"; " "; attr "width" (str width); " ";
      attr "height" (str height); " "; attr "rx" "18"; " "; attr "ry" "18"; " ";
      attr "fill" "url(#bgGrad)"; " "; attr "filter" "url(#shadow)"; " />"
  ].

(** One tile of the grid: the body of the [items.map] callback. *)
Definition gridBox (padding headerH cols cardGap boxH boxW : Z)
    (it : GridItem) (idx : Z) : string :=
  let rr := idx / cols in
  let cc := idx mod cols in
  let x := padding + cc * (boxW + cardGap) in
  let y := headerH + rr * (boxH + cardGap) in
  let accent := barCycle th idx in
  cat [
    nl;
    "        <rect "; attr "x" (str x); " "; attr "y" (str y); " "; attr "rx" "14"; " ";
      attr "ry" "14"; " "; attr "width" (str boxW); " "; attr "height" (str boxH); nl;
    "              "; attr "fill" (Theme.barBg th); " "; attr "opacity" "0.92"; " />"; nl;
    "        <rect "; attr "x" (str x); " "; attr "y" (str y); " "; attr "rx" "14"; " ";
      attr "ry" "14"; " "; attr "width" "6"; " "; attr "height" (str boxH); nl;
    "              "; attr "fill" accent; " "; attr "opacity" "0.95"; " />"; nl;
    nl;
    "        <text "; attr "x" (str (x + 18)); " "; attr "y" (str (y + 28)); " ";
      attr "fill" (Theme.muted th); " "; attr "font-size" "12"; " ";
      attr "font-weight" "700"; nl;
    "              "; attr "font-family" "ui-sans-serif, system-ui"; ">";
      (escapeXml (label it)); "</text>"; nl;
    nl;
    "        <text "; attr "x" (str (x + 18)); " "; attr "y" (str (y + 54)); " ";
      attr "fill" (Theme.text th); " "; attr "font-size" "22"; " ";
      attr "font-weight" "900"; nl;
    "              "; attr "font-family" "ui-sans-serif, system-ui"; ">";
      (escapeXml (value it)); "</text>"; nl;
    "      "
  ].

(** The [ringColor] of [renderGridStatsCard]: the colour of the arc,
    chosen by the letter of the grade. *)
Definition ringColorOf (letter : string) : string :=
  if String.eqb letter "S" then barAt th 1
  else if String.eqb letter "A" then barAt th 0
  else if String.eqb letter "B" then barAt th 2
  else if String.eqb letter "C" then barAt th 3
  else Theme.muted th.

(** Card 1: grid stats + grade ring. *)
Definition renderGridStatsCard (title subtitleLeft totalText topText : jsval)
    (items : list GridItem) (grade : Grade) : string :=
  let width := 900 in
  let padding := 28 in
  let headerH := 124 in
  let cols := 3 in
  let rows := (Z.of_nat (List.length items) + cols - 1) / cols in
  let cardGap := 14 in
  let boxH := 74 in
  let boxW := (width - padding * 2 - cardGap * (cols - 1)) / cols in
  let height := headerH + rows * (boxH + cardGap) + 30 in
  let ringCx := width - padding - 46 in
  let ringCy := 58 in
  let ringColor := ringColorOf (letter grade) in
  let boxes :=
    join nl (mapi (gridBox padding headerH cols cardGap boxH boxW) items) in
  cat [
    "<?xml "; attr "version" "1.0"; " "; attr "encoding" "UTF-8"; "?>"; nl;
    "<svg "; attr "width" (str width); " "; attr "height" (str height); " ";
      attr "viewBox" ("0 0 " ++ (str width) ++ " " ++ (str height)); nl;
    "     "; attr "xmlns" "http://www.w3.org/2000/svg"; " "; attr "role" "img"; " ";
      attr "aria-label" (escapeXml title); ">"; nl;
    "  "; svgDefs; nl;
    "  "; (baseCard width height); nl;
    nl;
    "  <text "; attr "x" (str padding); " "; attr "y" "46"; " ";
      attr "fill" (Theme.title th); " "; attr "font-size" "22"; " ";
      attr "font-weight" "900"; nl;
    "        "; attr "font-family" "ui-sans-serif, system-ui"; ">"; (escapeXml title);
      "</text>"; nl;
    nl;
    "  <text "; attr "x" (str padding); " "; attr "y" "72"; " ";
      attr "fill" (Theme.muted th); " "; attr "font-size" "12"; " ";
      attr "font-weight" "650"; nl;
    "        "; attr "font-family" "ui-sans-serif, system-ui"; ">";
      (escapeXml subtitleLeft); "</text>"; nl;
    nl;
    "  <text "; attr "x" (str padding); " "; attr "y" "94"; " ";
      attr "fill" (Theme.muted th); " "; attr "font-size" "12"; " ";
      attr "font-weight" "650"; nl;
    "        "; attr "font-family" "ui-sans-serif, system-ui"; ">"; (escapeXml totalText);
      "</text>"; nl;
    nl;
    "  <text "; attr "x" (str (width - padding - 110)); " "; attr "y" "94"; " ";
      attr "text-anchor" "end"; " "; attr "fill" (Theme.muted th); " ";
      attr "font-size" "12"; " "; attr "font-weight" "650"; nl;
    "        "; attr "font-family" "ui-sans-serif, system-ui"; ">"; (escapeXml topText);
      "</text>"; nl;
    nl;
    "  "; (ringSvg ringCx ringCy 26 7 (pct grade) ringColor (VStr (letter grade))); nl;
    nl;
    "  <line "; attr "x1" (str padding); " "; attr "y1" "108"; " ";
      attr "x2" (str (width - padding)); " "; attr "y2" "108"; nl;
    "        "; attr "stroke" (Theme.stroke th); " "; attr "stroke-width" "1"; " ";
      attr "opacity" "0.75"; " />"; nl;
    nl;
    "  "; boxes; nl;
    "</svg>"
  ].

(** Width of the filled bar of a row whose bar is [barW] wide. *)
Definition fillWidth (barW : Z) (r : MetricRow) : number :=
  let pct := max (ofZ 0) (min (ofZ 1) (div (percent r) (ofZ 100))) in
  round (mul (ofZ barW) pct).

(** One row of a bar card: the body of the [rows.map] callback. *)
Definition barsRow (width padding headerH rowH nameX barX barW barH : Z)
    (r : MetricRow) (i : Z) : string :=
  let y := headerH + i * rowH in
  let color := barCycle th i in
  let fillW := fillWidth barW r in
  let dotCx := padding + 28 in
  let dotCy := y - 6 in
  cat [
    nl;
    "        <circle "; attr "cx" (str dotCx); " "; attr "cy" (str dotCy); " ";
      attr "r" "5"; " "; attr "fill" color; " "; attr "opacity" "0.95"; "/>"; nl;
    "        <text "; attr "x" (str padding); " "; attr "y" (str y); " ";
      attr "fill" (Theme.muted th); " "; attr "font-size" "12"; " ";
      attr "font-weight" "750"; nl;
    "              "; attr "font-family" "ui-sans-serif, system-ui"; ">#"; (str (i + 1));
      "</text>"; nl;
    nl;
    "        <text "; attr "x" (str nameX); " "; attr "y" (str y); " ";
      attr "fill" (Theme.text th); " "; attr "font-size" "14"; " ";
      attr "font-weight" "650"; nl;
    "              "; attr "font-family" "ui-sans-serif, system-ui"; ">";
      (escapeXml (name r)); "</text>"; nl;
    nl;
    "        <text "; attr "x" (str (barX - 16)); " "; attr "y" (str y); " ";
      attr "text-anchor" "end"; " "; attr "fill" (Theme.muted th); " ";
      attr "font-size" "13"; " "; attr "font-weight" "650"; nl;
    "              "; attr "font-family" "ui-sans-serif, system-ui"; ">";
      (escapeXml (valueText r)); "</text>"; nl;
    nl;
    "        <rect "; attr "x" (str barX); " "; attr "y" (str (y - 12)); " "; attr "rx" "6";
      " "; attr "ry" "6"; " "; attr "width" (str barW); " "; attr "height" (str barH); " ";
      attr "fill" (Theme.barBg th); " "; attr "opacity" "0.95"; "/>"; nl;
    "        <rect "; attr "x" (str barX); " "; attr "y" (str (y - 12)); " "; attr "rx" "6";
      " "; attr "ry" "6"; " "; attr "width" (numToString fillW); " ";
      attr "height" (str barH); " "; attr "fill" color; " "; attr "filter" "url(#barGlow)";
      " />"; nl;
    nl;
    "        <text "; attr "x" (str (width - padding)); " "; attr "y" (str y); " ";
      attr "text-anchor" "end"; " "; attr "fill" (Theme.muted th); " ";
      attr "font-size" "13"; " "; attr "font-weight" "700"; nl;
    "              "; attr "font-family" "ui-sans-serif, system-ui"; ">";
      (toFixed (percent r) 2); "%</text>"; nl;
    "      "
  ].

(** Card 2/3: bars with rank + top. *)
Definition renderBarsCard (title subtitleLeft totalText topText : jsval)
    (rows : list MetricRow) : string :=
  let width := 900 in
  let padding := 28 in
  let headerH := 124 in
  let rowH := 34 in
  let rankW := 46 in
  let nameX := padding + rankW in
  let barX := 380 in
  let pctColW := 82 in
  let barW := width - barX - padding - pctColW in
  let barH := 10 in
  let height := headerH + Z.of_nat (List.length rows) * rowH + 30 in
  let svgRows :=
    join nl
      (mapi (barsRow width padding headerH rowH nameX barX barW barH) rows) in
  cat [
    "<?xml "; attr "version" "1.0"; " "; attr "encoding" "UTF-8"; "?>"; nl;
    "<svg "; attr "width" (str width); " "; attr "height" (str height); " ";
      attr "viewBox" ("0 0 " ++ (str width) ++ " " ++ (str height)); nl;
    "     "; attr "xmlns" "http://www.w3.org/2000/svg"; " "; attr "role" "img"; " ";
      attr "aria-label" (escapeXml title); ">"; nl;
    "  "; svgDefs; nl;
    "  "; (baseCard width height); nl;
    nl;
    "  <text "; attr "x" (str padding); " "; attr "y" "46"; " ";
      attr "fill" (Theme.title th); " "; attr "font-size" "22"; " ";
      attr "font-weight" "900"; nl;
    "        "; attr "font-family" "ui-sans-serif, system-ui"; ">"; (escapeXml title);
      "</text>"; nl;
    nl;
    "  <text "; attr "x" (str padding); " "; attr "y" "72"; " ";
      attr "fill" (Theme.muted th); " "; attr "font-size" "12"; " ";
      attr "font-weight" "650"; nl;
    "        "; attr "font-family" "ui-sans-serif, system-ui"; ">";
      (escapeXml subtitleLeft); "</text>"; nl;
    nl;
    "  <text "; attr "x" (str (width - padding)); " "; attr "y" "46"; " ";
      attr "text-anchor" "end"; " "; attr "fill" (Theme.text th); " ";
      attr "font-size" "14"; " "; attr "font-weight" "900"; nl;
    "        "; attr "font-family" "ui-sans-serif, system-ui"; ">"; (escapeXml totalText);
      "</text>"; nl;
    nl;
    "  <text "; attr "x" (str (width - padding)); " "; attr "y" "72"; " ";
      attr "text-anchor" "end"; " "; attr "fill" (Theme.muted th); " ";
      attr "font-size" "12"; " "; attr "font-weight" "650"; nl;
    "        "; attr "font-family" "ui-sans-serif, system-ui"; ">"; (escapeXml topText);
      "</text>"; nl;
    nl;
    "  <line "; attr "x1" (str padding); " "; attr "y1" "98"; " ";
      attr "x2" (str (width - padding)); " "; attr "y2" "98"; nl;
    "        "; attr "stroke" (Theme.stroke th); " "; attr "stroke-width" "1"; " ";
      attr "opacity" "0.75"; " />"; nl;
    nl;
    "  "; svgRows; nl;
    "</svg>"

  ].

End Render.

(** *** Data *)

Module Contrib.
(** One [contributionsCollection] of the API; a count may be missing. *)
Record collection : Type := {
  totalCommitContributions : option Z;
  totalIssueContributions : option Z;
  totalPullRequestContributions : option Z;
  totalPullRequestReviewContributions : option Z
}.

Record totals : Type := { commits : Z; prs : Z; issues : Z; reviews : Z }.
End Contrib.

(** [Number(v || 0)] of a count that may be missing. *)
Definition countOr0 (v : option Z) : Z :=
  match v with
  | Some n => n
  | None => 0
  end.

(** The values [y, y + 1, ...] of a loop variable, [n] of them. *)
Fixpoint yearsFrom (y : Z) (n : nat) : list Z :=
  match n with
  | O => []
  | S k => y :: yearsFrom (y + 1) k
  end.

(** The years visited by [for (let y = FROM_YEAR; y <= endYear; y++)]. *)
Definition loopYears (endYear : Z) : list Z :=
  yearsFrom FROM_YEAR (Z.to_nat (endYear - FROM_YEAR + 1)).

(** The pair [(from, to)] queried for year [y], as instants; the code
    sends their [toISOString()], which determines the instant. *)
Definition window (now endYear y : Z) : Z * Z :=
  let from := TimeFromYear y in
  let to := if y =? endYear then now else TimeFromYear (y + 1) in
  (from, to).

Definition contribWindows (now : Z) : list (Z * Z) :=
  let endYear := getUTCFullYear now in
  map (window now endYear) (loopYears endYear).

Section Fetch.
(** The answer of the API to the contributions query over [from, to]. *)
Variable ghGraphQL : Z -> Z -> Contrib.collection.

(** One pass through the body of the loop. *)
Definition addWindow (acc : Contrib.totals) (fromTo : Z * Z) : Contrib.totals :=
  let c := ghGraphQL (fst fromTo) (snd fromTo) in
  {| Contrib.commits :=
       Contrib.commits acc + countOr0 (Contrib.totalCommitContributions c);
     Contrib.prs :=
       Contrib.prs acc + countOr0 (Contrib.totalPullRequestContributions c);
     Contrib.issues :=
       Contrib.issues acc + countOr0 (Contrib.totalIssueContributions c);
     Contrib.reviews :=
       Contrib.reviews acc
       + countOr0 (Contrib.totalPullRequestReviewContributions c) |}.

(** [now] is the instant read by [new Date()]. *)
Definition fetchContribSince2021 (now : Z) : Contrib.totals :=
  fold_left addWindow (contribWindows now)
    {| Contrib.commits := 0; Contrib.prs := 0;
       Contrib.issues := 0; Contrib.reviews := 0 |}.
End Fetch.

(** [entries.sort((a, b) => b[1] - a[1])]: the sort is stable, so its
    result is the one of inserting each entry before the first entry
    that is not larger. *)
Fixpoint insertDesc (e : string * Z) (l : list (string * Z)) : list (string * Z) :=
  match l with
  | [] => [e]
  | h :: t => if snd e <? snd h then h :: insertDesc e t else e :: l
  end.

Fixpoint sortDesc (l : list (string * Z)) : list (string * Z) :=
  match l with
  | [] => []
  | h :: t => insertDesc h (sortDesc t)
  end.

(** The end of [fetchData]: from the entries of [langMap], in insertion
    order, to the rows of the language card. *)
Definition langEntries (langMap : list (string * Z)) : list (string * Z) :=
  firstn 10 (sortDesc langMap).

Definition langTotalSize (entries : list (string * Z)) : Z :=
  let sum := fold_left (fun acc e => acc + snd e) entries 0 in
  if sum =? 0 then 1 else sum.

Definition langRows `{Host} (langMap : list (string * Z)) : list MetricRow :=
  let entries := langEntries langMap in
  let total := langTotalSize entries in
  map (fun e =>
         {| name := VStr (fst e);
            valueText := VStr (humanBytes (snd e));
            percent := mul (div (ofZ (snd e)) (ofZ total)) (ofZ 100) |})
      entries.

Definition makeActivityRows `{Host} (commits prs issues reviews contribTotal : Z)
  : list MetricRow :=
  let total := if contribTotal =? 0 then 1 else contribTotal in
  let rows :=
    [ ("Commits", commits); ("Pull Requests", prs);
      ("Issues", issues); ("Reviews", reviews) ] in
  map (fun r =>
         {| name := VStr (fst r);
            valueText := VStr (fmtNumber (snd r));
            percent := mul (div (ofZ (snd r)) (ofZ total)) (ofZ 100) |})
      rows.

(** *** Repositories: pages, stars and languages *)

Module Repo.
(** One language of a repository; the size or the name may be
    missing. *)
Record edge : Type := { size : option Z; name : option string }.

Record node : Type := {
  isFork : bool;
  stargazerCount : option Z;
  languages : option (list edge)
}.

Record page : Type := {
  nodes : option (list node);
  hasNextPage : bool;
  endCursor : option string
}.
End Repo.

(** [langMap.get(k)] on a [Map] kept as its entries in insertion order. *)
Fixpoint mapGet (m : list (string * Z)) (k : string) : option Z :=
  match m with
  | [] => None
  | (k', v) :: r => if String.eqb k' k then Some v else mapGet r k
  end.

(** [langMap.set(k, v)]: a key that is there keeps its place, a new key
    goes last. *)
Fixpoint mapSet (m : list (string * Z)) (k : string) (v : Z)
  : list (string * Z) :=
  match m with
  | [] => [(k, v)]
  | (k', v') :: r =>
      if String.eqb k' k then (k, v) :: r else (k', v') :: mapSet r k v
  end.

(** The body of the loop over the languages of a repository. *)
Definition addEdge (langMap : list (string * Z)) (e : Repo.edge)
  : list (string * Z) :=
  let name := Repo.name e in
  let size := countOr0 (Repo.size e) in
  match name with
  | None => langMap
  | Some n =>
      if String.eqb n "" then langMap
      else mapSet langMap n (countOr0 (mapGet langMap n) + size)
  end.

(** The body of the loop over the repositories of a page, on the pair
    of [starsTotal] and [langMap]. *)
Definition addNode (acc : Z * list (string * Z)) (r : Repo.node)
  : Z * list (string * Z) :=
  if Repo.isFork r then acc
  else
    let starsTotal := fst acc + countOr0 (Repo.stargazerCount r) in
    let edges :=
      match Repo.languages r with
      | Some es => es
      | None => []
      end in
    (starsTotal, fold_left addEdge edges (snd acc)).

Section Pages.
(** The answer of the API to the repositories query after [cursor]. *)
Variable reposPage : option string -> Repo.page.

(** The [while (true)] loop of [fetchData]; [None] when it has not
    left the loop after [fuel] pages. *)
Fixpoint pagesLoop (fuel : nat) (cursor : option string)
    (acc : Z * list (string * Z)) : option (Z * list (string * Z)) :=
  match fuel with
  | O => None
  | S f =>
      let page := reposPage cursor in
      let nodes :=
        match Repo.nodes page with
        | Some ns => ns
        | None => []
        end in
      let acc' := fold_left addNode nodes acc in
      if negb (Repo.hasNextPage page) then Some acc'
      else pagesLoop f (Repo.endCursor page) acc'
  end.

(** [starsTotal] and the entries of [langMap] after the loop. *)
Definition fetchRepos (fuel : nat) : option (Z * list (string * Z)) :=
  pagesLoop fuel None (0, []).
End Pages.

(** *** UX helpers *)

(** [arr[0]] is there: the array has four entries. *)
Definition pickTopActivity `{Host} (commits prs issues reviews : Z) : string :=
  let arr :=
    sortDesc [ ("Commits", commits); ("PRs", prs);
               ("Issues", issues); ("Reviews", reviews) ] in
  match arr with
  | (name, value) :: _ => name ++ ": " ++ fmtNumber value
  | [] => ""
  end.

(** *** What [main] makes of the data *)

Module Data.
Record t : Type := {
  followers : Z;
  reposTotal : Z;
  starsTotal : Z;
  commits : Z;
  prs : Z;
  issues : Z;
  reviews : Z;
  contribTotal : Z;
  langRows : list MetricRow
}.
End Data.


(** The dash of a card without languages, in UTF-8. *)
Definition emDash : string :=
  String "226"%char (String "128"%char (String "148"%char EmptyString)).

(** [topLang] and the [totalText] of the language card in [main]. *)
Definition topLang `{Host} (rows : list MetricRow) : string :=
  match rows with
  | r :: _ => ToString (name r) ++ " (" ++ toFixed (percent r) 2 ++ "%)"
  | [] => emDash
  end.

Definition langsTotalText `{Host} (rows : list MetricRow) : string :=
  "Total: " ++ fmtNumber (Z.of_nat (List.length rows)) ++ " langs".


Definition topActivityOf `{Host} (d : Data.t) : string :=
  pickTopActivity (Data.commits d) (Data.prs d) (Data.issues d)
    (Data.reviews d).

End Github.

(* ================================================================== *)
(** ** [scripts/wakatime-cards.mjs] *)
(* ================================================================== *)

Module Wakatime.
Import JsString JsValue JsNumber JsHost.

Module Theme.
Record t : Type := {
  bg1 : string;
  bg2 : string;
  title : string;
  text : string;
  muted : string;
  barBg : string;
  otherColor : string;
  bars : list string
}.
End Theme.

Definition theme : Theme.t := {|
  Theme.bg1 := "#141321";
  Theme.bg2 := "#1a1b27";
  Theme.title := "#ff4d6d";
  Theme.text := "#e4e4e7";
  Theme.muted := "#9aa4bf";
  Theme.barBg := "#2a2b3d";
  Theme.otherColor := "#ff4d6d";
  Theme.bars :=
    ["#ff4d6d"; "#f1fa8c"; "#8be9fd"; "#50fa7b"; "#bd93f9"; "#ffb86c"; "#ff79c6"]
|}.

(** [theme.bars[i % theme.bars.length]]; a template literal prints a
    missing entry as [undefined]. *)
Definition barCycle (th : Theme.t) (i : Z) : string :=
  match Theme.bars th with
  | [] => "undefined"
  | _ =>
      match nth_error (Theme.bars th)
              (Z.to_nat (i mod Z.of_nat (List.length (Theme.bars th)))) with
      | Some c => c
      | None => "undefined"
      end
  end.

Definition escapeXml (str : jsval) : string :=
  replaceAll squote "&apos;"
    (replaceAll dquote "&quot;"
      (replaceAll ">" "&gt;"
        (replaceAll "<" "&lt;"
          (replaceAll "&" "&amp;" (ToString str))))).

Definition fmtMinutes `{Host} (mins : number) : string :=
  let h := floor (div mins (ofZ 60)) in
  let m := rem mins (ofZ 60) in
  if leb h (ofZ 0) then numToString m ++ "m"
  else if eqb m (ofZ 0) then numToString h ++ "h"
  else numToString h ++ "h " ++ numToString m ++ "m".

(** An entry of the service's answer; a field may be missing. *)
Module Entry.
Record t : Type := {
  name : jsval;
  text : jsval;
  total_seconds : option number;
  percent : option number
}.
End Entry.

Record Row : Type := {
  name : jsval;
  time : jsval;
  percent : number;
  seconds : number
}.

Definition toRows `{Host} (list_ : list Entry.t) (limit : nat) : list Row :=
  map (fun x =>
         {| name := Entry.name x;
            time :=
              orElse (Entry.text x)
                (VStr (fmtMinutes
                         (round (div (orNum (Entry.total_seconds x) (ofZ 0))
                                     (ofZ 60)))));
            percent := orNum (Entry.percent x) (ofZ 0);
            seconds := orNum (Entry.total_seconds x) (ofZ 0) |})
      (firstn limit list_).

Section Render.
Context `{Host}.
Variable th : Theme.t.

(** Width of the filled bar of a row whose bar is [barW] wide. *)
Definition fillWidth (barW : Z) (r : Row) : number :=
  let pct := max (ofZ 0) (min (ofZ 1) (div (percent r) (ofZ 100))) in
  round (mul (ofZ barW) pct).

(** Colour of the marker and of the filled bar of row [i]. *)
Definition baseColorOf (r : Row) (i : Z) : string :=
  let isOther := strictEq (name r) "Other" in
  if isOther then Theme.otherColor th else barCycle th i.

(** One row: the body of the [rows.map] callback. *)
Definition svgRow (width padding headerH rowH nameX barX barW barH : Z)
    (r : Row) (i : Z) : string :=
  let y := headerH + i * rowH in
  let isOther := strictEq (name r) "Other" in
  let baseColor := baseColorOf r i in
  let barOpacity := if isOther then ofQ (85 # 100) else ofZ 1 in
  let fillW := fillWidth barW r in
  let rankText := "#" ++ str (i + 1) in
  let dotCx := padding + 28 in
  let dotCy := y - 6 in
  let isTiny := ltb (percent r) (ofZ 1) in
  let nameColor := if isTiny then "#cbd5e1" else Theme.text th in
  let nameOpacity := if isTiny then ofQ (92 # 100) else ofZ 1 in
  cat [
    nl;
    "        <circle "; attr "cx" (str dotCx); " "; attr "cy" (str dotCy); " ";
      attr "r" "5"; " "; attr "fill" baseColor; " ";
      attr "opacity" (numToString barOpacity); "/>"; nl;
    nl;
    "        <text "; attr "x" (str padding); " "; attr "y" (str y); " ";
      attr "fill" (Theme.muted th); " "; attr "font-size" "12"; " ";
      attr "font-weight" "700"; nl;
    "              "; attr "font-family" "ui-sans-serif, system-ui"; ">";
      (escapeXml (VStr rankText)); "</text>"; nl;
    nl;
    "        <text "; attr "x" (str nameX); " "; attr "y" (str y); " ";
      attr "fill" nameColor; " "; attr "opacity" (numToString nameOpacity); " ";
      attr "font-size" "14"; nl;
    "              ";
      attr "font-family" "ui-sans-serif, system-ui, -apple-system, Segoe UI, Roboto"; ">";
      (escapeXml (name r)); "</text>"; nl;
    nl;
    "        <text "; attr "x" (str (barX - 16)); " "; attr "y" (str y); " ";
      attr "text-anchor" "end"; " "; attr "fill" (Theme.muted th); " ";
      attr "font-size" "13"; nl;
    "              "; attr "font-family" "ui-sans-serif, system-ui"; ">";
      (escapeXml (time r)); "</text>"; nl;
    nl;
    "        <rect "; attr "x" (str barX); " "; attr "y" (str (y - 12)); " "; attr "rx" "6";
      " "; attr "ry" "6"; " "; attr "width" (str barW); " "; attr "height" (str barH); " ";
      attr "fill" (Theme.barBg th); " />"; nl;
    nl;
    "        <rect "; attr "x" (str barX); " "; attr "y" (str (y - 12)); " "; attr "rx" "6";
      " "; attr "ry" "6"; " "; attr "width" (numToString fillW); " ";
      attr "height" (str barH); nl;
    "              "; attr "fill" baseColor; " "; attr "opacity" (numToString barOpacity);
      " "; attr "filter" "url(#barGlow)"; " />"; nl;
    nl;
    "        <text "; attr "x" (str (width - padding)); " "; attr "y" (str y); " ";
      attr "text-anchor" "end"; " "; attr "fill" (Theme.muted th); " ";
      attr "font-size" "13"; nl;
    "              "; attr "font-family" "ui-sans-serif, system-ui"; ">";
      (toFixed (percent r) 2); "%</text>"; nl;
    "      "
  ].

Definition renderSvg (icon title totalText topText : jsval) (rows : list Row)
  : string :=
  let width := 900 in
  let padding := 28 in
  let rowH := 34 in
  let headerH := 112 in
  let dividerY := 88 in
  let rankW := 46 in
  let nameX := padding + rankW in
  let barX := 380 in
  let pctColW := 82 in
  let barW := width - barX - padding - pctColW in
  let barH := 10 in
  let height := headerH + Z.of_nat (List.length rows) * rowH + 30 in
  let svgRows :=
    join nl (mapi (svgRow width padding headerH rowH nameX barX barW barH) rows) in
  let headerTitle := ToString icon ++ " " ++ ToString title in
  cat [
    "<?xml "; attr "version" "1.0"; " "; attr "encoding" "UTF-8"; "?>"; nl;
    "<svg "; attr "width" (str width); " "; attr "height" (str height); " ";
      attr "viewBox" ("0 0 " ++ (str width) ++ " " ++ (str height)); " ";
      attr "xmlns" "http://www.w3.org/2000/svg"; " "; attr "role" "img"; " ";
      attr "aria-label" (escapeXml title); ">"; nl;
    "  <defs>"; nl;
    "    <linearGradient "; attr "id" "bgGrad"; " "; attr "x1" "0"; " "; attr "y1" "0"; " ";
      attr "x2" "1"; " "; attr "y2" "1"; ">"; nl;
    "      <stop "; attr "offset" "0%"; " "; attr "stop-color" (Theme.bg1 th); "/>"; nl;
    "      <stop "; attr "offset" "100%"; " "; attr "stop-color" (Theme.bg2 th); "/>"; nl;
    "    </linearGradient>"; nl;
    nl;
    "    <filter "; attr "id" "barGlow"; " "; attr "x" "-20%"; " "; attr "y" "-50%"; " ";
      attr "width" "140%"; " "; attr "height" "200%"; ">"; nl;
    "      <feDropShadow "; attr "dx" "0"; " "; attr "dy" "0"; " "; attr "stdDeviation" "2";
      " "; attr "flood-color" "#ffffff"; " "; attr "flood-opacity" "0.08"; "/>"; nl;
    "      <feDropShadow "; attr "dx" "0"; " "; attr "dy" "4"; " "; attr "stdDeviation" "6";
      " "; attr "flood-color" "#000000"; " "; attr "flood-opacity" "0.22"; "/>"; nl;
    "    </filter>"; nl;
    nl;
    "    <filter "; attr "id" "shadow"; " "; attr "x" "-20%"; " "; attr "y" "-20%"; " ";
      attr "width" "140%"; " "; attr "height" "140%"; ">"; nl;
    "      <feDropShadow "; attr "dx" "0"; " "; attr "dy" "10"; " ";
      attr "stdDeviation" "18"; " "; attr "flood-color" "#000000"; " ";
      attr "flood-opacity" "0.35"; "/>"; nl;
    "    </filter>"; nl;
    "  </defs>"; nl;
    nl;
    "  <rect "; attr "x" "0"; " "; attr "y" "0"; " "; attr "width" (str width); " ";
      attr "height" (str height); " "; attr "rx" "18"; " "; attr "ry" "18"; " ";
      attr "fill" "url(#bgGrad)"; " "; attr "filter" "url(#shadow)"; " />"; nl;
    nl;
    "  <text "; attr "x" (str padding); " "; attr "y" "46"; " ";
      attr "fill" (Theme.title th); " "; attr "font-size" "22"; " ";
      attr "font-weight" "900"; nl;
    "        "; attr "font-family" "ui-sans-serif, system-ui"; ">";
      (escapeXml (VStr headerTitle)); "</text>"; nl;
    nl;
    "  <text "; attr "x" (str padding); " "; attr "y" "72"; " ";
      attr "fill" (Theme.muted th); " "; attr "font-size" "12"; " ";
      attr "font-weight" "600"; nl;
    "        "; attr "font-family" "ui-sans-serif, system-ui"; ">Updated hourly</text>"; nl;
    nl;
    "  <text "; attr "x" (str (width - padding)); " "; attr "y" "46"; " ";
      attr "text-anchor" "end"; " "; attr "fill" (Theme.text th); " ";
      attr "font-size" "14"; " "; attr "font-weight" "800"; nl;
    "        "; attr "font-family" "ui-sans-serif, system-ui"; ">"; (escapeXml totalText);
      "</text>"; nl;
    nl;
    "  <text "; attr "x" (str (width - padding)); " "; attr "y" "72"; " ";
      attr "text-anchor" "end"; " "; attr "fill" (Theme.muted th); " ";
      attr "font-size" "12"; " "; attr "font-weight" "700"; nl;
    "        "; attr "font-family" "ui-sans-serif, system-ui"; ">";
      (escapeXml (orElse topText (VStr ""))); "</text>"; nl;
    nl;
    "  <line "; attr "x1" (str padding); " "; attr "y1" (str dividerY); " ";
      attr "x2" (str (width - padding)); " "; attr "y2" (str dividerY); nl;
    "        "; attr "stroke" "#334155"; " "; attr "stroke-width" "1"; " ";
      attr "opacity" "0.65"; " />"; nl;
    nl;
    "  "; svgRows; nl;
    "</svg>"

  ].

End Render.

Definition sumSeconds (list_ : list Entry.t) : number :=
  fold_left (fun acc x => add acc (orNum (Entry.total_seconds x) (ofZ 0)))
    list_ (ofZ 0).

Definition pickTopLabel `{Host} (rows : list Row) : string :=
  match rows with
  | [] => ""
  | top :: _ =>
      let pct :=
        if isFinite (percent top) then toFixed (percent top) 2 else "0.00" in
      "Top: " ++ ToString (name top) ++ " (" ++ pct ++ "%)"
  end.

(** The [totalText] of [main], from the languages and the total of the
    answer of the service. *)
Definition totalText `{Host} (languages : list Entry.t)
    (total_seconds : option number) : string :=
  let totalSecondsFromLangs := sumSeconds languages in
  let totalSeconds :=
    if ltb (ofZ 0) totalSecondsFromLangs then totalSecondsFromLangs
    else orNum total_seconds (ofZ 0) in
  "Total: " ++ fmtMinutes (round (div totalSeconds (ofZ 60))).

End Wakatime.

(* ================================================================== *)
(** ** Vocabulary of the properties *)
(* ================================================================== *)

Module EscapeSpec.
Import JsString JsValue.

(** The five reserved characters. *)
Definition reserved (a : ascii) : bool :=
  Ascii.eqb a "&" || Ascii.eqb a "<" || Ascii.eqb a ">"
  || Ascii.eqb a dquote || Ascii.eqb a squote.

(** The four of them that no entity contains. *)
Definition markup (a : ascii) : bool :=
  Ascii.eqb a "<" || Ascii.eqb a ">" || Ascii.eqb a dquote || Ascii.eqb a squote.

(** The entity of a reserved character; any other character stands for
    itself. *)
Definition entity (a : ascii) : string :=
  if Ascii.eqb a "&" then "&amp;"
  else if Ascii.eqb a "<" then "&lt;"
  else if Ascii.eqb a ">" then "&gt;"
  else if Ascii.eqb a dquote then "&quot;"
  else if Ascii.eqb a squote then "&apos;"
  else String a EmptyString.

(** Every character replaced by its entity, from left to right. *)
Fixpoint escaped (s : string) : string :=
  match s with
  | EmptyString => EmptyString
  | String a r => entity a ++ escaped r
  end.

(** Number of reserved characters. *)
Fixpoint reservedCount (s : string) : nat :=
  match s with
  | EmptyString => O
  | String a r => ((if reserved a then 1 else 0) + reservedCount r)%nat
  end.

(** The five replacements of [escapeXml], in its order. *)
Definition fiveReplacements (s : string) : string :=
  replaceAll squote "&apos;"
    (replaceAll dquote "&quot;"
      (replaceAll ">" "&gt;"
        (replaceAll "<" "&lt;" (replaceAll "&" "&amp;" s)))).

(** Two documents with as many [<], [>], double quotes and apostrophes. *)
Definition sameMarkup (d1 d2 : string) : Prop :=
  forall c, markup c = true -> count c d1 = count c d2.

(** A script tag followed by an ampersand, a double quote and an
    apostrophe: the five reserved characters in one text. *)
Definition scriptText : string := "<script>&" ++ dq ++ "'".

End EscapeSpec.

Module GithubSpec.
Import JsString JsValue JsNumber JsHost Github EscapeSpec.

(** Occurrences of [c] in the escaped forms of the texts of a card. *)
Definition embedded (c : ascii) (texts : list jsval) : nat :=
  list_sum (map (fun t => count c (escapeXml t)) texts).

(** Reserved characters in the texts of a card, missing texts read as
    empty. *)
Definition reservedIn (texts : list jsval) : nat :=
  list_sum (map (fun t => reservedCount (ToString (nullish t (VStr "")))) texts).

(** The texts of a row and of a tile. *)
Definition rowTexts (r : MetricRow) : list jsval := [name r; valueText r].
Definition itemTexts (it : GridItem) : list jsval := [label it; value it].

(** The texts a bar card embeds, each as often as it is embedded. *)
Definition barsTexts (title subtitleLeft totalText topText : jsval)
    (rows : list MetricRow) : list jsval :=
  [title; title; subtitleLeft; totalText; topText] ++ flat_map rowTexts rows.

(** The texts a grid card embeds; the letter of the grade is one. *)
Definition gridTexts (title subtitleLeft totalText topText : jsval)
    (items : list GridItem) (grade : Grade) : list jsval :=
  [title; title; subtitleLeft; totalText; topText; VStr (letter grade)]
  ++ flat_map itemTexts items.

(** Two rows with the same number. *)
Definition samePercent (r1 r2 : MetricRow) : Prop := percent r1 = percent r2.

(** Two grades drawn alike: same percentage, same colour of the arc. *)
Definition sameRing (th : Theme.t) (g1 g2 : Grade) : Prop :=
  pct g1 = pct g2 /\ ringColorOf th (letter g1) = ringColorOf th (letter g2).

End GithubSpec.

Module WakatimeSpec.
Import JsString JsValue JsNumber JsHost Wakatime EscapeSpec.

(** Occurrences of [c] in the escaped forms of the texts of a card. *)
Definition embedded (c : ascii) (texts : list jsval) : nat :=
  list_sum (map (fun t => count c (escapeXml t)) texts).

(** Reserved characters in the texts of a card, as [String] reads them. *)
Definition reservedIn (texts : list jsval) : nat :=
  list_sum (map (fun t => reservedCount (ToString t)) texts).

Definition rowTexts (r : Row) : list jsval := [name r; time r].

(** The texts a card embeds: the title, the title behind its icon, the
    total, the top entry when there is one, and the texts of the rows. *)
Definition svgTexts (icon title totalText topText : jsval) (rows : list Row)
  : list jsval :=
  [title; VStr (ToString icon ++ " " ++ ToString title); totalText;
   orElse topText (VStr "")]
  ++ flat_map rowTexts rows.

(** Two rows drawn alike: same number, and both or neither the bucket
    named [Other]. *)
Definition sameDrawing (r1 r2 : Row) : Prop :=
  percent r1 = percent r2
  /\ strictEq (name r1) "Other" = strictEq (name r2) "Other".

End WakatimeSpec.

Module BarSpec.
Import JsString JsValue JsNumber JsHost.

(** [clamp(x, lo, hi)]. *)
Definition Qclamp (x lo hi : Q) : Q :=
  if Qltb x lo then lo else if Qltb hi x then hi else x.

(** [round(totalBarWidth * clamp(percent / 100, 0, 1))]; an infinite
    percentage is clamped like a finite one beyond the range. *)
Definition clampedFill (totalBarWidth : Z) (percent : number) : Z :=
  match percent with
  | Fin q => Qround (inject_Z totalBarWidth * Qclamp (q / 100) 0 1)%Q
  | PInf => totalBarWidth
  | _ => 0
  end.

(** The entry of an accent list at position [i] modulo its length. *)
Definition accentAt (accents : list string) (i : Z) : option string :=
  nth_error accents (Z.to_nat (i mod Z.of_nat (List.length accents))).

Section Markup.
Context `{Host}.

(** The marker of a row of [renderBarsCard]. *)
Definition githubDot (cx cy : Z) (color : string) : string :=
  cat [ "<circle "; attr "cx" (str cx); " "; attr "cy" (str cy); " ";
        attr "r" "5"; " "; attr "fill" color; " "; attr "opacity" "0.95";
        "/>" ].

(** The filled bar of a row of [renderBarsCard]. *)
Definition githubFill (x y : Z) (w : number) (h : Z) (color : string)
  : string :=
  cat [ "<rect "; attr "x" (str x); " "; attr "y" (str y); " ";
        attr "rx" "6"; " "; attr "ry" "6"; " ";
        attr "width" (numToString w); " "; attr "height" (str h); " ";
        attr "fill" color; " "; attr "filter" "url(#barGlow)"; " />" ].

(** The marker of a row of [renderSvg]. *)
Definition wakatimeDot (cx cy : Z) (color : string) (opacity : number)
  : string :=
  cat [ "<circle "; attr "cx" (str cx); " "; attr "cy" (str cy); " ";
        attr "r" "5"; " "; attr "fill" color; " ";
        attr "opacity" (numToString opacity); "/>" ].

(** The filled bar of a row of [renderSvg]. *)
Definition wakatimeFill (x y : Z) (w : number) (h : Z) (color : string)
    (opacity : number) : string :=
  cat [ "<rect "; attr "x" (str x); " "; attr "y" (str y); " ";
        attr "rx" "6"; " "; attr "ry" "6"; " ";
        attr "width" (numToString w); " "; attr "height" (str h); nl;
        "              "; attr "fill" color; " ";
        attr "opacity" (numToString opacity); " ";
        attr "filter" "url(#barGlow)"; " />" ].
End Markup.

End BarSpec.

Module DataSpec.
Import JsString JsValue JsNumber JsHost.

(** Sum of the weights of a list of entries. *)
Definition sumSizes (l : list (string * Z)) : Z :=
  fold_right (fun e acc => snd e + acc) 0 l.

(** Entries in descending order of weight. *)
Definition descending (l : list (string * Z)) : Prop :=
  StronglySorted (fun a b => snd b <= snd a) l.

(** Numbers in descending order. *)
Definition descendingNumbers (l : list number) : Prop :=
  StronglySorted (fun a b => leb b a = true) l.

(** [100 * weight / totalWeight], in lowest terms. *)
Definition share (weight totalWeight : Z) : number :=
  ofQ (100 * inject_Z weight / inject_Z totalWeight)%Q.

(** The denominator of the language card: the sum over the entries that
    are shown, or one when that sum is zero. *)
Definition shownTotal (shown : list (string * Z)) : Z :=
  if sumSizes shown =? 0 then 1 else sumSizes shown.

(** The percentage [toRows] reports for an entry: its own, or zero when
    the field is missing, zero or not a number. *)
Definition ownPercent (x : Wakatime.Entry.t) : number :=
  match Wakatime.Entry.percent x with
  | Some v => if toBoolean v then v else ofZ 0
  | None => ofZ 0
  end.

(** Eleven languages of one byte each. *)
Definition elevenLanguages : list (string * Z) :=
  map (fun k => (String (ascii_of_nat (65 + k)) EmptyString, 1)) (seq 0 11).

(** Two entries of the time-tracking service, the smaller one first. *)
Definition ascendingEntries : list Wakatime.Entry.t :=
  [ {| Wakatime.Entry.name := VStr "A"; Wakatime.Entry.text := VStr "1 min";
       Wakatime.Entry.total_seconds := Some (ofZ 60);
       Wakatime.Entry.percent := Some (ofZ 25) |};
    {| Wakatime.Entry.name := VStr "B"; Wakatime.Entry.text := VStr "2 mins";
       Wakatime.Entry.total_seconds := Some (ofZ 120);
       Wakatime.Entry.percent := Some (ofZ 50) |} ].

End DataSpec.

Module WindowSpec.
Import JsDate.

(** The windows tile the span from [a] to [b]: the first starts at [a],
    each next one starts at the instant the one before ends, every window
    but the last has a positive length, and the last ends at [b]. *)
Fixpoint tiles (a b : Z) (ws : list (Z * Z)) : Prop :=
  match ws with
  | [] => False
  | [w] => fst w = a /\ a <= snd w /\ snd w = b
  | w :: rest => fst w = a /\ a < snd w /\ tiles (snd w) b rest
  end.

(** The instant [t] falls in window [w]. *)
Definition within (t : Z) (w : Z * Z) : Prop := fst w <= t <= snd w.

(** The windows are year-long, the year [y] first, but for the last one,
    which starts with year [endYear] and ends at [now] before that year
    does. *)
Fixpoint yearly (y endYear now : Z) (ws : list (Z * Z)) : Prop :=
  match ws with
  | [] => False
  | [w] => y = endYear /\ w = (TimeFromYear y, now)
           /\ now < TimeFromYear (y + 1)
  | w :: rest => w = (TimeFromYear y, TimeFromYear (y + 1))
                 /\ yearly (y + 1) endYear now rest
  end.

(** The answer of the API for a window. *)
Definition answer (ghGraphQL : Z -> Z -> Github.Contrib.collection)
    (w : Z * Z) : Github.Contrib.collection :=
  ghGraphQL (fst w) (snd w).

(** Sum of a count over the windows. *)
Definition sumOver (count : Z * Z -> Z) (ws : list (Z * Z)) : Z :=
  fold_right (fun w acc => count w + acc) 0 ws.

End WindowSpec.

Module GradeSpec.

(** [norm(x) = min(1, log(1+x) / log(1+t))], and [0] when the target [t]
    is [0]. *)
Definition normOf (x t : R) : R :=
  if Req_dec_T t 0 then 0%R else Rmin 1 (ln (1 + x) / ln (1 + t)).

(** The weighted sum of the six normalised signals. *)
Definition scoreOf (commits prs issues reviews stars repos : R) : R :=
  (0.35 * normOf commits 4000 + 0.20 * normOf prs 200
   + 0.10 * normOf issues 200 + 0.10 * normOf reviews 250
   + 0.15 * normOf stars 300 + 0.10 * normOf repos 60)%R.

(** [z] is [x] rounded to the nearest integer, a half rounded up. *)
Definition rounds (x : R) (z : Z) : Prop :=
  (IZR z - / 2 <= x < IZR z + / 2)%R.

(** The letters from the lowest to the highest. *)
Definition letterRank (letter : string) : nat :=
  if String.eqb letter "S" then 4
  else if String.eqb letter "A" then 3
  else if String.eqb letter "B" then 2
  else if String.eqb letter "C" then 1
  else 0.

(** The letter the thresholds give to a percentage. *)
Definition stepLetter (pct : Z) (letter : string) : Prop :=
  (85 <= pct -> letter = "S")
  /\ (70 <= pct < 85 -> letter = "A")
  /\ (55 <= pct < 70 -> letter = "B")
  /\ (40 <= pct < 55 -> letter = "C")
  /\ (pct < 40 -> letter = "D").

End GradeSpec.

Module MissingSpec.
Import JsString JsValue JsNumber JsHost Github.

(** A missing text read as the empty text. *)
Definition emptyIfMissing (v : jsval) : jsval := nullish v (VStr "").

Definition rowEmptyIfMissing (r : MetricRow) : MetricRow :=
  {| name := emptyIfMissing (name r);
     valueText := emptyIfMissing (valueText r);
     percent := percent r |}.

Definition itemEmptyIfMissing (it : GridItem) : GridItem :=
  {| label := emptyIfMissing (label it); value := emptyIfMissing (value it) |}.

End MissingSpec.

Module Samples.
Import JsString JsValue JsNumber JsHost EscapeSpec.

(** A row of the language card named by the script text, and the same
    row without text. *)
Definition scriptRow : Github.MetricRow :=
  {| Github.name := VStr scriptText; Github.valueText := VStr "1.0 KB";
     Github.percent := ofZ 50 |}.

Definition plainRow : Github.MetricRow :=
  {| Github.name := VStr ""; Github.valueText := VStr "";
     Github.percent := ofZ 50 |}.

Definition scriptItem : Github.GridItem :=
  {| Github.label := VStr scriptText; Github.value := VStr "12" |}.

Definition plainItem : Github.GridItem :=
  {| Github.label := VStr ""; Github.value := VStr "" |}.

Definition gradeB : Github.Grade :=
  {| Github.score := 0.55; Github.pct := 55; Github.letter := "B" |}.

(** A row of a time-tracking card named by the script text, and the same
    row without text. *)
Definition scriptTime : Wakatime.Row :=
  {| Wakatime.name := VStr scriptText; Wakatime.time := VStr "1h";
     Wakatime.percent := ofZ 50; Wakatime.seconds := ofZ 3600 |}.

Definition plainTime : Wakatime.Row :=
  {| Wakatime.name := VStr ""; Wakatime.time := VStr "";
     Wakatime.percent := ofZ 50; Wakatime.seconds := ofZ 3600 |}.

(** The bucket of the remaining entries, second in its card. *)
Definition otherTime : Wakatime.Row :=
  {| Wakatime.name := VStr "Other"; Wakatime.time := VStr "5m";
     Wakatime.percent := ofZ 2; Wakatime.seconds := ofZ 300 |}.

(** A row whose percentage is beyond the range. *)
Definition overfullRow : Github.MetricRow :=
  {| Github.name := VStr "C"; Github.valueText := VStr "9 B";
     Github.percent := ofZ 250 |}.

Definition overfullTime : Wakatime.Row :=
  {| Wakatime.name := VStr "C"; Wakatime.time := VStr "9m";
     Wakatime.percent := ofZ (-3); Wakatime.seconds := ofZ 540 |}.

(** Two languages without a byte. *)
Definition emptyLanguages : list (string * Z) := [("A", 0); ("B", 0)].

(** Noon of 3 November 2026, in milliseconds since the epoch. *)
Definition someNow : Z := 1793707200000.

(** An API that reports one commit per day of the window and nothing
    else. *)
Definition dailyCommit (from to : Z) : Github.Contrib.collection :=
  {| Github.Contrib.totalCommitContributions := Some ((to - from) / 86400000);
     Github.Contrib.totalIssueContributions := None;
     Github.Contrib.totalPullRequestContributions := Some 0;
     Github.Contrib.totalPullRequestReviewContributions := None |}.

End Samples.

Module RepoSpec.
Import Github.

(** The repositories of a page, and the languages of a repository. *)
Definition nodesOf (p : Repo.page) : list Repo.node :=
  match Repo.nodes p with
  | Some ns => ns
  | None => []
  end.

Definition edgesOf (r : Repo.node) : list Repo.edge :=
  match Repo.languages r with
  | Some es => es
  | None => []
  end.

(** The repositories of the pages that are not forks, in their order. *)
Definition ownNodes (ps : list Repo.page) : list Repo.node :=
  filter (fun r => negb (Repo.isFork r)) (flat_map nodesOf ps).

(** Sum of the stars of repositories. *)
Definition starsOf (rs : list Repo.node) : Z :=
  fold_right (fun r acc => countOr0 (Repo.stargazerCount r) + acc) 0 rs.

(** The name of a language entry when it has one that is not empty. *)
Definition named (e : Repo.edge) : option string :=
  match Repo.name e with
  | Some n => if String.eqb n "" then None else Some n
  | None => None
  end.

Definition isNamed (name : string) (e : Repo.edge) : bool :=
  match named e with
  | Some n => String.eqb n name
  | None => false
  end.

(** Whether a language occurs among the entries, and the sum of its
    sizes there. *)
Definition mentions (name : string) (es : list Repo.edge) : bool :=
  existsb (isNamed name) es.

Definition sizeOf (name : string) (es : list Repo.edge) : Z :=
  fold_right (fun e acc => (if isNamed name e then countOr0 (Repo.size e) else 0) + acc)
             0 es.

(** The names in the order in which they are first seen. *)
Definition seeName (seen : list string) (e : Repo.edge) : list string :=
  match named e with
  | Some n => if existsb (String.eqb n) seen then seen else (seen ++ [n])%list
  | None => seen
  end.

Definition firstSeen (es : list Repo.edge) : list string :=
  fold_left seeName es [].

(** The pages the API serves from a cursor on, up to the one that
    reports no further page. *)
Inductive serves (reposPage : option string -> Repo.page)
  : option string -> list Repo.page -> Prop :=
| serves_last (c : option string) :
    Repo.hasNextPage (reposPage c) = false ->
    serves reposPage c [reposPage c]
| serves_next (c : option string) (ps : list Repo.page) :
    Repo.hasNextPage (reposPage c) = true ->
    serves reposPage (Repo.endCursor (reposPage c)) ps ->
    serves reposPage c (reposPage c :: ps).

(** Scenario B of the specification: a fork with 100 stars on the first
    page, a repository with 50 stars on the second and last. *)
Definition forkPage : Repo.page :=
  {| Repo.nodes :=
       Some [ {| Repo.isFork := true; Repo.stargazerCount := Some 100;
                 Repo.languages :=
                   Some [ {| Repo.size := Some 700; Repo.name := Some "Go" |} ] |} ];
     Repo.hasNextPage := true;
     Repo.endCursor := Some "c1" |}.

Definition ownPage : Repo.page :=
  {| Repo.nodes :=
       Some [ {| Repo.isFork := false; Repo.stargazerCount := Some 50;
                 Repo.languages :=
                   Some [ {| Repo.size := Some 300; Repo.name := Some "Rust" |};
                          {| Repo.size := Some 20; Repo.name := Some "C" |};
                          {| Repo.size := None; Repo.name := Some "Rust" |};
                          {| Repo.size := Some 9; Repo.name := None |} ] |} ];
     Repo.hasNextPage := false;
     Repo.endCursor := None |}.

Definition twoPages (cursor : option string) : Repo.page :=
  match cursor with
  | None => forkPage
  | Some _ => ownPage
  end.

End RepoSpec.

Module CardSpec.
Import JsString JsValue JsNumber JsHost.

(** A text as [String] spells it: a missing one becomes a word. *)
Definition spelled (v : jsval) : jsval := VStr (ToString v).

Definition rowSpelled (r : Wakatime.Row) : Wakatime.Row :=
  {| Wakatime.name := spelled (Wakatime.name r);
     Wakatime.time := spelled (Wakatime.time r);
     Wakatime.percent := Wakatime.percent r;
     Wakatime.seconds := Wakatime.seconds r |}.

(** The rational a finite number is, zero for the others. *)
Definition valueQ (x : number) : Q :=
  match x with
  | Fin q => q
  | _ => 0%Q
  end.

(** Sum of the percentages of rows. *)
Definition percentSum (ps : list number) : Q :=
  fold_right (fun x acc => (valueQ x + acc)%Q) 0%Q ps.

(** Entries of the time-tracking service that report whole seconds. *)
Definition wholeSeconds (l : list Wakatime.Entry.t) (ss : list Z) : Prop :=
  map Wakatime.Entry.total_seconds l = map (fun s => Some (ofZ s)) ss.

Definition sumZ (ss : list Z) : Z := fold_right Z.add 0 ss.

(** A language without name or text, and one hour and a half of Rust. *)
Definition namelessEntry : Wakatime.Entry.t :=
  {| Wakatime.Entry.name := VUndefined; Wakatime.Entry.text := VUndefined;
     Wakatime.Entry.total_seconds := Some (ofZ 1830);
     Wakatime.Entry.percent := Some (ofZ 25) |}.

Definition rustEntry : Wakatime.Entry.t :=
  {| Wakatime.Entry.name := VStr "Rust"; Wakatime.Entry.text := VStr "";
     Wakatime.Entry.total_seconds := Some (ofZ 5400);
     Wakatime.Entry.percent := Some (ofZ 75) |}.

Section Markup.
Context `{Host}.

(** The start of the [svg] element of a card [w] wide and [h] high. *)
Definition canvas (w h : Z) : string :=
  cat [ "<svg "; attr "width" (str w); " "; attr "height" (str h); " ";
        attr "viewBox" ("0 0 " ++ str w ++ " " ++ str h) ].

(** The start of the rectangle of a tile of the grid card. *)
Definition gridTile (x y w h : Z) : string :=
  cat [ "<rect "; attr "x" (str x); " "; attr "y" (str y); " ";
        attr "rx" "14"; " "; attr "ry" "14"; " ";
        attr "width" (str w); " "; attr "height" (str h) ].


(** The arc of the ring and the percentage under its letter. *)
Definition ringArc (dash gap : number) : string :=
  attr "stroke-dasharray" (numToString dash ++ " " ++ numToString gap).

Definition ringPercent (pct : Z) : string := cat [ ">"; str pct; "%</text>" ].
End Markup.

(** Place of tile [n] of the grid card: its left and top sides. *)
Definition tileX (n : nat) : Z := 28 + (Z.of_nat n mod 3) * 286.
Definition tileY (n : nat) : Z := 124 + (Z.of_nat n / 3) * 88.

(** Two rectangles of the same size that share no point. *)
Definition apart (w h x1 y1 x2 y2 : Z) : Prop :=
  x1 + w <= x2 \/ x2 + w <= x1 \/ y1 + h <= y2 \/ y2 + h <= y1.

End CardSpec.

Module TextSpec.
Import JsString JsValue EscapeSpec.

(** A text as each pipeline embeds it: every reserved character by its
    entity; the code-hosting cards read a missing text as empty, the
    time-tracking card as [String] spells it. *)
Definition githubShown (v : jsval) : string :=
  escaped (ToString (nullish v (VStr ""))).

Definition wakatimeShown (v : jsval) : string := escaped (ToString v).

(** The content of a text element that holds [s], the label attribute
    that holds it, and the content of the element of a percentage. *)
Definition textElement (s : string) : string := cat [ ">"; s; "</text>" ].
Definition labelled (s : string) : string := attr "aria-label" s.
Definition percentText (s : string) : string := cat [ ">"; s; "%</text>" ].

(** The texts each card draws in text elements. *)
Definition barsElements (title subtitleLeft totalText topText : jsval)
    (rows : list Github.MetricRow) : list jsval :=
  [title; subtitleLeft; totalText; topText]
  ++ flat_map GithubSpec.rowTexts rows.

Definition gridElements (title subtitleLeft totalText topText : jsval)
    (items : list Github.GridItem) (grade : Github.Grade) : list jsval :=
  [title; subtitleLeft; totalText; topText; VStr (Github.letter grade)]
  ++ flat_map GithubSpec.itemTexts items.

Definition svgElements (icon title totalText topText : jsval)
    (rows : list Wakatime.Row) : list jsval :=
  [VStr (ToString icon ++ " " ++ ToString title); totalText;
   orElse topText (VStr "")]
  ++ flat_map WakatimeSpec.rowTexts rows.

(** A row of a bar card at zero percent. *)
Definition zeroRow (name valueText : string) : Github.MetricRow :=
  {| Github.name := VStr name; Github.valueText := VStr valueText;
     Github.percent := JsNumber.Fin 0 |}.

End TextSpec.

Module YearSpec.

(** The years from [a] to [b], both included. *)
Definition yearsBetween (a b : Z) : list Z :=
  map (fun k => a + Z.of_nat k) (seq 0 (Z.to_nat (b - a + 1))).

End YearSpec.
(* ================================================================== *)
(** * Part II: properties *)
(* ================================================================== *)

(** ** Strings *)

Module StringFacts.
Import JsString EscapeSpec.

Lemma append_assoc (s t u : string) : (s ++ t) ++ u = s ++ (t ++ u).
Proof. induction s as [|a s IH]; simpl; [reflexivity|now rewrite IH]. Qed.

Lemma append_nil_r (s : string) : s ++ "" = s.
Proof. induction s as [|a s IH]; simpl; [reflexivity|now rewrite IH]. Qed.

Lemma count_app (c : ascii) (s t : string) :
  count c (s ++ t) = (count c s + count c t)%nat.
Proof.
  induction s as [|a s IH]; simpl; [reflexivity|].
  rewrite IH. lia.
Qed.

Lemma count_cat (c : ascii) (l : list string) :
  count c (cat l) = list_sum (map (count c) l).
Proof.
  induction l as [|s l IH]; simpl; [reflexivity|].
  now rewrite count_app, IH.
Qed.

Lemma count_attr (c : ascii) (k v : string) :
  count c (attr k v)
  = (count c k + count c "=" + count c dq + count c v + count c dq)%nat.
Proof. unfold attr. rewrite !count_app. lia. Qed.

Lemma join_cons (sep s : string) (l : list string) :
  join sep (s :: l) = match l with [] => s | _ => s ++ sep ++ join sep l end.
Proof. destruct l; reflexivity. Qed.

Lemma replaceAll_app (c : ascii) (b s t : string) :
  replaceAll c b (s ++ t) = replaceAll c b s ++ replaceAll c b t.
Proof.
  induction s as [|a s IH]; simpl; [reflexivity|].
  destruct (Ascii.eqb a c); rewrite IH; [|reflexivity].
  now rewrite append_assoc.
Qed.

Lemma fiveReplacements_app (s t : string) :
  fiveReplacements (s ++ t) = fiveReplacements s ++ fiveReplacements t.
Proof. unfold fiveReplacements. now rewrite !replaceAll_app. Qed.

Lemma fiveReplacements_char (a : ascii) :
  fiveReplacements (String a EmptyString) = entity a.
Proof.
  unfold fiveReplacements, entity.
  destruct (Ascii.eqb a "&") eqn:E1.
  { apply Ascii.eqb_eq in E1. subst a. reflexivity. }
  destruct (Ascii.eqb a "<") eqn:E2.
  { apply Ascii.eqb_eq in E2. subst a. reflexivity. }
  destruct (Ascii.eqb a ">") eqn:E3.
  { apply Ascii.eqb_eq in E3. subst a. reflexivity. }
  destruct (Ascii.eqb a dquote) eqn:E4.
  { apply Ascii.eqb_eq in E4. subst a. reflexivity. }
  destruct (Ascii.eqb a squote) eqn:E5.
  { apply Ascii.eqb_eq in E5. subst a. reflexivity. }
  simpl. rewrite E1. simpl. rewrite E2. simpl. rewrite E3. simpl.
  rewrite E4. simpl. rewrite E5. reflexivity.
Qed.

(** The successive global replacements amount to one pass that replaces
    each character by its entity: no replacement sees the output of an
    earlier one as something to replace. *)
Lemma fiveReplacements_escaped (s : string) : fiveReplacements s = escaped s.
Proof.
  induction s as [|a s IH]; [reflexivity|].
  change (String a s) with (String a EmptyString ++ s).
  rewrite fiveReplacements_app, fiveReplacements_char, IH. reflexivity.
Qed.

Lemma count_entity_markup (c a : ascii) :
  markup c = true -> count c (entity a) = O.
Proof.
  unfold markup, entity. intros Hc.
  destruct (Ascii.eqb a "&") eqn:E1; [|
  destruct (Ascii.eqb a "<") eqn:E2; [|
  destruct (Ascii.eqb a ">") eqn:E3; [|
  destruct (Ascii.eqb a dquote) eqn:E4; [|
  destruct (Ascii.eqb a squote) eqn:E5]]]].
  1-5: repeat (apply orb_prop in Hc; destruct Hc as [Hc|Hc]);
       apply Ascii.eqb_eq in Hc; subst c; reflexivity.
  simpl.
  destruct (Ascii.eqb a c) eqn:E; [|reflexivity].
  apply Ascii.eqb_eq in E. subst c.
  rewrite E2, E3, E4, E5 in Hc. discriminate.
Qed.

Lemma count_entity_amp (a : ascii) :
  count "&" (entity a) = if reserved a then 1%nat else 0%nat.
Proof.
  unfold reserved, entity.
  destruct (Ascii.eqb a "&") eqn:E1; [reflexivity|].
  destruct (Ascii.eqb a "<") eqn:E2; [reflexivity|].
  destruct (Ascii.eqb a ">") eqn:E3; [reflexivity|].
  destruct (Ascii.eqb a dquote) eqn:E4; [reflexivity|].
  destruct (Ascii.eqb a squote) eqn:E5; [reflexivity|].
  simpl. rewrite E1. reflexivity.
Qed.

Lemma count_escaped_markup (c : ascii) (s : string) :
  markup c = true -> count c (escaped s) = O.
Proof.
  intros Hc. induction s as [|a s IH]; [reflexivity|].
  simpl. now rewrite count_app, count_entity_markup, IH.
Qed.

Lemma count_escaped_amp (s : string) :
  count "&" (escaped s) = reservedCount s.
Proof.
  induction s as [|a s IH]; [reflexivity|].
  simpl escaped. simpl reservedCount.
  now rewrite count_app, count_entity_amp, IH.
Qed.

End StringFacts.

(** ** Counting the characters of a document *)

Module CountFacts.
Import JsString EscapeSpec StringFacts.

Lemma list_sum_cons (a : nat) (l : list nat) :
  list_sum (a :: l) = (a + list_sum l)%nat.
Proof. reflexivity. Qed.

(** Counting through [rows.map(f).join(sep)] for two lists of rows that
    differ in their texts only: [e] counts what the texts of a row
    give. *)
Lemma count_join_mapi {A : Type} (c : ascii) (sep : string)
    (f : A -> Z -> string) (R : A -> A -> Prop) (e : A -> nat) :
  (forall x y i, R x y ->
     (count c (f x i) + e y = count c (f y i) + e x)%nat) ->
  forall l1 l2 i, Forall2 R l1 l2 ->
    (count c (join sep (mapi_from i f l1)) + list_sum (map e l2)
     = count c (join sep (mapi_from i f l2)) + list_sum (map e l1))%nat.
Proof.
  intros Hf l1 l2 i HR. revert i.
  induction HR as [|x y l1 l2 Hxy HR IH]; intros i; [reflexivity|].
  cbn [map mapi_from]. rewrite !list_sum_cons, !join_cons.
  specialize (IH (i + 1)). specialize (Hf x y i Hxy).
  destruct HR as [|x' y' l1 l2 _ _].
  - cbn [map mapi_from] in *. unfold list_sum; cbn [fold_right]. lia.
  - cbn [map mapi_from] in *. rewrite !count_app. lia.
Qed.

Lemma infix_refl (s : string) : infix s s.
Proof. exists "", "". now rewrite append_nil_r. Qed.

Lemma infix_trans (s t u : string) : infix s t -> infix t u -> infix s u.
Proof.
  intros (p1 & q1 & ->) (p2 & q2 & ->).
  exists (p2 ++ p1), (q1 ++ q2). now rewrite !append_assoc.
Qed.

Lemma infix_cat (x : string) (l : list string) : In x l -> infix x (cat l).
Proof.
  induction l as [|s l IH]; [intros []|].
  intros [->|Hin].
  - exists "", (cat l). reflexivity.
  - destruct (IH Hin) as (p & q & E).
    exists (s ++ p), q. simpl. now rewrite E, append_assoc.
Qed.

Lemma infix_attr (k v : string) : infix v (attr k v).
Proof. exists (k ++ "=" ++ dq), dq. unfold attr. now rewrite !append_assoc. Qed.

Lemma infix_join {A : Type} (sep : string) (f : A -> Z -> string)
    (x : A) (l : list A) (k : Z) :
  In x l -> exists i, k <= i /\ infix (f x i) (join sep (mapi_from k f l)).
Proof.
  revert k. induction l as [|y l IH]; intros k; [intros []|].
  cbn [mapi_from]. rewrite join_cons. intros [->|Hin].
  - exists k. split; [lia|].
    destruct (mapi_from (k + 1) f l).
    + apply infix_refl.
    + exists "", (sep ++ join sep (s :: l0)). reflexivity.
  - destruct (IH (k + 1) Hin) as (i & Hi & p & q & E).
    exists i. split; [lia|].
    destruct (mapi_from (k + 1) f l) as [|s l0] eqn:El.
    + destruct l; [destruct Hin | discriminate].
    + exists (f y k ++ sep ++ p), q. rewrite E. now rewrite !append_assoc.
Qed.

Lemma cat_app (l1 l2 : list string) : cat (l1 ++ l2) = cat l1 ++ cat l2.
Proof.
  induction l1 as [|s l IH]; [reflexivity|].
  cbn [app cat]. now rewrite IH, append_assoc.
Qed.

(** A run of pieces, the first one behind an indentation, occurs in the
    template. *)
Lemma infix_cat_mid (pre : list string) (ind first : string)
    (mid post : list string) :
  infix (cat (first :: mid)) (cat (pre ++ (ind ++ first) :: mid ++ post)).
Proof.
  exists (cat pre ++ ind), (cat post).
  rewrite cat_app. cbn [cat]. rewrite cat_app.
  now rewrite !append_assoc.
Qed.

Lemma infix_join_nth {A : Type} (sep : string) (f : A -> Z -> string)
    (l : list A) (k : Z) (n : nat) (x : A) :
  nth_error l n = Some x ->
  infix (f x (k + Z.of_nat n)) (join sep (mapi_from k f l)).
Proof.
  revert k n. induction l as [|y l IH]; intros k n; [now destruct n|].
  cbn [mapi_from]. rewrite join_cons. destruct n as [|n]; cbn [nth_error].
  - intros [= ->]. replace (k + Z.of_nat 0) with k by lia.
    destruct (mapi_from (k + 1) f l).
    + apply infix_refl.
    + exists "", (sep ++ join sep (s :: l0)). reflexivity.
  - intros Hn. specialize (IH (k + 1) n Hn).
    replace (k + Z.of_nat (S n)) with (k + 1 + Z.of_nat n) by lia.
    destruct IH as (p & q & E).
    destruct (mapi_from (k + 1) f l) as [|s l0] eqn:El.
    + destruct l; [now destruct n | discriminate].
    + exists (f y k ++ sep ++ p), q. rewrite E. now rewrite !append_assoc.
Qed.

(** Count a template piece by piece; only the attribute that holds a
    text is opened. *)
Ltac count_pieces :=
  cbv zeta; rewrite ?count_cat; unfold list_sum in *; cbn [map fold_right];
  rewrite ?(count_attr _ "aria-label").

End CountFacts.

(** ** Escaping in [scripts/github-cards.mjs] *)

Module GithubEscape.
Import JsString JsValue JsNumber JsHost Github EscapeSpec GithubSpec StringFacts CountFacts.

Lemma escapeXml_escaped (v : jsval) :
  escapeXml v = escaped (ToString (nullish v (VStr ""))).
Proof. apply fiveReplacements_escaped. Qed.

Lemma embedded_cons (c : ascii) (t : jsval) (l : list jsval) :
  embedded c (t :: l) = (count c (escapeXml t) + embedded c l)%nat.
Proof. reflexivity. Qed.

Lemma embedded_nil (c : ascii) : embedded c [] = O.
Proof. reflexivity. Qed.

Lemma embedded_app (c : ascii) (l1 l2 : list jsval) :
  embedded c (l1 ++ l2) = (embedded c l1 + embedded c l2)%nat.
Proof. unfold embedded. now rewrite map_app, list_sum_app. Qed.

Lemma embedded_flat_map {A : Type} (c : ascii) (t : A -> list jsval)
    (l : list A) :
  embedded c (flat_map t l) = list_sum (map (fun x => embedded c (t x)) l).
Proof.
  induction l as [|x l IH]; [reflexivity|].
  cbn [flat_map map]. now rewrite embedded_app, IH.
Qed.

Lemma embedded_markup (c : ascii) (texts : list jsval) :
  markup c = true -> embedded c texts = O.
Proof.
  intros Hc. induction texts as [|t l IH]; [reflexivity|].
  now rewrite embedded_cons, escapeXml_escaped, count_escaped_markup, IH.
Qed.

Lemma embedded_amp (texts : list jsval) :
  embedded "&" texts = reservedIn texts.
Proof.
  induction texts as [|t l IH]; [reflexivity|].
  rewrite embedded_cons, escapeXml_escaped, count_escaped_amp, IH.
  reflexivity.
Qed.

Section Documents.
Context `{Host}.
Variable th : Theme.t.
Variable c : ascii.

Lemma barsRow_texts (wd pd hh rh nx bx bw bh : Z) (r1 r2 : MetricRow) (i : Z) :
  samePercent r1 r2 ->
  (count c (barsRow th wd pd hh rh nx bx bw bh r1 i) + embedded c (rowTexts r2)
   = count c (barsRow th wd pd hh rh nx bx bw bh r2 i)
     + embedded c (rowTexts r1))%nat.
Proof.
  unfold samePercent, barsRow, fillWidth, rowTexts. intros ->.
  rewrite !embedded_cons, !embedded_nil. count_pieces. lia.
Qed.

Lemma renderBarsCard_texts (t1 s1 o1 p1 t2 s2 o2 p2 : jsval)
    (rows1 rows2 : list MetricRow) :
  Forall2 samePercent rows1 rows2 ->
  (count c (renderBarsCard th t1 s1 o1 p1 rows1)
   + embedded c (barsTexts t2 s2 o2 p2 rows2)
   = count c (renderBarsCard th t2 s2 o2 p2 rows2)
     + embedded c (barsTexts t1 s1 o1 p1 rows1))%nat.
Proof.
  intros HR. unfold renderBarsCard, barsTexts, mapi.
  rewrite !embedded_app, !embedded_flat_map, (Forall2_length HR).
  pose proof (count_join_mapi c nl
                (barsRow th 900 28 124 34 (28 + 46) 380 (900 - 380 - 28 - 82) 10)
                samePercent (fun r => embedded c (rowTexts r))
                (barsRow_texts _ _ _ _ _ _ _ _) rows1 rows2 0 HR) as Hrows.
  rewrite !embedded_cons, !embedded_nil. count_pieces. lia.
Qed.

Lemma gridBox_texts (pd hh cols gap bh bw : Z) (it1 it2 : GridItem) (i : Z) :
  (count c (gridBox th pd hh cols gap bh bw it1 i) + embedded c (itemTexts it2)
   = count c (gridBox th pd hh cols gap bh bw it2 i)
     + embedded c (itemTexts it1))%nat.
Proof.
  unfold gridBox, itemTexts.
  rewrite !embedded_cons, !embedded_nil. count_pieces. lia.
Qed.

Lemma ringSvg_texts (cx cy r sw p : Z) (color : string) (l1 l2 : jsval) :
  (count c (ringSvg th cx cy r sw p color l1) + count c (escapeXml l2)
   = count c (ringSvg th cx cy r sw p color l2) + count c (escapeXml l1))%nat.
Proof. unfold ringSvg. count_pieces. lia. Qed.

Lemma renderGridStatsCard_texts (t1 s1 o1 p1 t2 s2 o2 p2 : jsval)
    (items1 items2 : list GridItem) (g1 g2 : Grade) :
  List.length items1 = List.length items2 ->
  sameRing th g1 g2 ->
  (count c (renderGridStatsCard th t1 s1 o1 p1 items1 g1)
   + embedded c (gridTexts t2 s2 o2 p2 items2 g2)
   = count c (renderGridStatsCard th t2 s2 o2 p2 items2 g2)
     + embedded c (gridTexts t1 s1 o1 p1 items1 g1))%nat.
Proof.
  intros Hlen [Hpct Hcol]. unfold renderGridStatsCard, gridTexts, mapi.
  rewrite !embedded_app, !embedded_flat_map, Hlen, Hpct, Hcol.
  assert (HR : Forall2 (fun _ _ : GridItem => True) items1 items2).
  { clear -Hlen. revert items2 Hlen.
    induction items1 as [|a l IH]; intros [|b m] Hl; try discriminate;
      constructor; [exact I|]. apply IH. now injection Hl. }
  pose proof (count_join_mapi c nl
                (gridBox th 28 124 3 14 74 ((900 - 28 * 2 - 14 * (3 - 1)) / 3))
                (fun _ _ => True) (fun it => embedded c (itemTexts it))
                (fun x y i _ => gridBox_texts _ _ _ _ _ _ x y i)
                items1 items2 0 HR) as Hrows.
  pose proof (ringSvg_texts (900 - 28 - 46) 58 26 7 (pct g2)
                (ringColorOf th (letter g2))
                (VStr (letter g1)) (VStr (letter g2))) as Hring.
  rewrite !embedded_cons, !embedded_nil. count_pieces. lia.
Qed.

End Documents.

End GithubEscape.

(** ** Escaping in [scripts/wakatime-cards.mjs] *)

Module WakatimeEscape.
Import JsString JsValue JsNumber JsHost Wakatime EscapeSpec WakatimeSpec StringFacts CountFacts.

Lemma time_escapeXml_escaped (v : jsval) : escapeXml v = escaped (ToString v).
Proof. apply fiveReplacements_escaped. Qed.

Lemma time_embedded_cons (c : ascii) (t : jsval) (l : list jsval) :
  embedded c (t :: l) = (count c (escapeXml t) + embedded c l)%nat.
Proof. reflexivity. Qed.

Lemma time_embedded_nil (c : ascii) : embedded c [] = O.
Proof. reflexivity. Qed.

Lemma time_embedded_app (c : ascii) (l1 l2 : list jsval) :
  embedded c (l1 ++ l2) = (embedded c l1 + embedded c l2)%nat.
Proof. unfold embedded. now rewrite map_app, list_sum_app. Qed.

Lemma time_embedded_flat_map {A : Type} (c : ascii) (t : A -> list jsval)
    (l : list A) :
  embedded c (flat_map t l) = list_sum (map (fun x => embedded c (t x)) l).
Proof.
  induction l as [|x l IH]; [reflexivity|].
  cbn [flat_map map]. now rewrite time_embedded_app, IH.
Qed.

Lemma time_embedded_markup (c : ascii) (texts : list jsval) :
  markup c = true -> embedded c texts = O.
Proof.
  intros Hc. induction texts as [|t l IH]; [reflexivity|].
  now rewrite time_embedded_cons, time_escapeXml_escaped, count_escaped_markup, IH.
Qed.

Lemma time_embedded_amp (texts : list jsval) :
  embedded "&" texts = reservedIn texts.
Proof.
  induction texts as [|t l IH]; [reflexivity|].
  rewrite time_embedded_cons, time_escapeXml_escaped, count_escaped_amp, IH.
  reflexivity.
Qed.

Section Documents.
Context `{Host}.
Variable th : Theme.t.
Variable c : ascii.

Lemma svgRow_texts (wd pd hh rh nx bx bw bh : Z) (r1 r2 : Row) (i : Z) :
  sameDrawing r1 r2 ->
  (count c (svgRow th wd pd hh rh nx bx bw bh r1 i) + embedded c (rowTexts r2)
   = count c (svgRow th wd pd hh rh nx bx bw bh r2 i)
     + embedded c (rowTexts r1))%nat.
Proof.
  unfold sameDrawing, svgRow, baseColorOf, fillWidth, rowTexts.
  intros [-> ->].
  rewrite !time_embedded_cons, !time_embedded_nil. count_pieces. lia.
Qed.

Lemma renderSvg_texts (i1 t1 o1 p1 i2 t2 o2 p2 : jsval)
    (rows1 rows2 : list Row) :
  Forall2 sameDrawing rows1 rows2 ->
  (count c (renderSvg th i1 t1 o1 p1 rows1)
   + embedded c (svgTexts i2 t2 o2 p2 rows2)
   = count c (renderSvg th i2 t2 o2 p2 rows2)
     + embedded c (svgTexts i1 t1 o1 p1 rows1))%nat.
Proof.
  intros HR. unfold renderSvg, svgTexts, mapi.
  rewrite !time_embedded_app, !time_embedded_flat_map, (Forall2_length HR).
  pose proof (count_join_mapi c nl
                (svgRow th 900 28 112 34 (28 + 46) 380 (900 - 380 - 28 - 82) 10)
                sameDrawing (fun r => embedded c (rowTexts r))
                (svgRow_texts _ _ _ _ _ _ _ _) rows1 rows2 0 HR) as Hrows.
  rewrite !time_embedded_cons, !time_embedded_nil. count_pieces. lia.
Qed.

End Documents.

End WakatimeEscape.

Module EmbedFacts.
Import JsString JsValue JsNumber JsHost EscapeSpec StringFacts CountFacts.

Ltac find_piece := repeat first [ left; reflexivity | right ].

Lemma github_name_embedded `{Host} (th : Github.Theme.t)
    (t s o p : jsval) (rows : list Github.MetricRow) (r : Github.MetricRow) :
  In r rows ->
  infix (Github.escapeXml (Github.name r))
        (Github.renderBarsCard th t s o p rows).
Proof.
  intros Hin. unfold Github.renderBarsCard, mapi. cbv zeta.
  destruct (infix_join nl
              (Github.barsRow th 900 28 124 34 (28 + 46) 380
                 (900 - 380 - 28 - 82) 10) r rows 0 Hin) as (i & _ & Hi).
  eapply infix_trans; [|eapply infix_trans; [exact Hi|]].
  - unfold Github.barsRow. cbv zeta. apply infix_cat. find_piece.
  - apply infix_cat. find_piece.
Qed.

Lemma wakatime_name_embedded `{Host} (th : Wakatime.Theme.t)
    (ic t o p : jsval) (rows : list Wakatime.Row) (r : Wakatime.Row) :
  In r rows ->
  infix (Wakatime.escapeXml (Wakatime.name r))
        (Wakatime.renderSvg th ic t o p rows).
Proof.
  intros Hin. unfold Wakatime.renderSvg, mapi. cbv zeta.
  destruct (infix_join nl
              (Wakatime.svgRow th 900 28 112 34 (28 + 46) 380
                 (900 - 380 - 28 - 82) 10) r rows 0 Hin) as (i & _ & Hi).
  eapply infix_trans; [|eapply infix_trans; [exact Hi|]].
  - unfold Wakatime.svgRow. cbv zeta. apply infix_cat. find_piece.
  - apply infix_cat. find_piece.
Qed.

End EmbedFacts.

(** ** Bars: width and colour *)

Module BarFacts.
Import JsString JsValue JsNumber JsHost EscapeSpec BarSpec StringFacts.

Lemma Qle_bool_true (a b : Q) : Qle_bool a b = true -> (a <= b)%Q.
Proof. apply Qle_bool_iff. Qed.

Lemma Qle_bool_false (a b : Q) : Qle_bool a b = false -> (b < a)%Q.
Proof.
  intros E. apply Qnot_le_lt. intros Hle.
  apply Qle_bool_iff in Hle. congruence.
Qed.

Lemma Qround_comp (a b : Q) : (a == b)%Q -> Qround a = Qround b.
Proof. intros E. unfold Qround. apply Qfloor_comp. now rewrite E. Qed.

Lemma Qround_Z (z : Z) : Qround (inject_Z z) = z.
Proof.
  unfold Qround.
  pose proof (Qfloor_le (inject_Z z + (1 # 2))) as Hl.
  pose proof (Qlt_floor (inject_Z z + (1 # 2))) as Hu.
  set (f := Qfloor (inject_Z z + (1 # 2))) in *. clearbody f.
  rewrite inject_Z_plus in Hu. change (inject_Z 1) with 1%Q in Hu.
  assert (H1 : (f < z + 1)%Z).
  { rewrite Zlt_Qlt, inject_Z_plus. change (inject_Z 1) with 1%Q. Lqa.lra. }
  assert (H2 : (z < f + 1)%Z).
  { rewrite Zlt_Qlt, inject_Z_plus. change (inject_Z 1) with 1%Q. Lqa.lra. }
  lia.
Qed.

Lemma Qround_mono (a b : Q) : (a <= b)%Q -> (Qround a <= Qround b)%Z.
Proof.
  intros Hab. unfold Qround. apply Qfloor_resp_le.
  now apply Qplus_le_l.
Qed.

Lemma Qclamp_range (x : Q) : (0 <= Qclamp x 0 1 <= 1)%Q.
Proof.
  unfold Qclamp, Qltb.
  destruct (Qle_bool 0 x) eqn:E0; cbn [negb].
  - apply Qle_bool_true in E0.
    destruct (Qle_bool x 1) eqn:E1; cbn [negb].
    + apply Qle_bool_true in E1. now split.
    + split; discriminate.
  - split; [apply Qle_refl | discriminate].
Qed.

(** The clamp of the code, a maximum of a minimum, is the clamp. *)
Lemma clamp_code (p : Q) :
  exists y, max (ofZ 0) (min (ofZ 1) (div (Fin p) (ofZ 100))) = Fin y
            /\ (y == Qclamp (p / 100) 0 1)%Q.
Proof.
  unfold div, ofZ. cbn [Qzero Qnum inject_Z Z.eqb]. unfold ofQ.
  assert (Hr : (Qred (p / inject_Z 100) == p / 100)%Q) by apply Qred_correct.
  set (x := Qred (p / inject_Z 100)) in *.
  unfold min, max, leb, Qclamp, Qltb.
  destruct (Qle_bool (inject_Z 1) x) eqn:E1.
  - exists (inject_Z 1). cbn. split; [reflexivity|].
    apply Qle_bool_true in E1. rewrite Hr in E1.
    destruct (Qle_bool 0 (p / 100)) eqn:E0; cbn [negb].
    + destruct (Qle_bool (p / 100) 1) eqn:E2; cbn [negb]; [|reflexivity].
      apply Qle_bool_true in E2. now apply Qle_antisym.
    + apply Qle_bool_false in E0.
      exfalso. apply (Qlt_irrefl 0).
      eapply Qlt_trans; [|exact E0].
      eapply Qlt_le_trans; [|exact E1]. reflexivity.
  - apply Qle_bool_false in E1. rewrite Hr in E1.
    destruct (Qle_bool (inject_Z 0) x) eqn:E0.
    + exists x. split; [reflexivity|].
      apply Qle_bool_true in E0. rewrite Hr in E0.
      apply Qle_bool_iff in E0. change (inject_Z 0) with 0%Q in E0.
      rewrite E0. cbn [negb].
      assert (E2 : Qle_bool (p / 100) 1 = true).
      { apply Qle_bool_iff. now apply Qlt_le_weak. }
      rewrite E2. exact Hr.
    + exists (inject_Z 0). split; [reflexivity|].
      apply Qle_bool_false in E0. rewrite Hr in E0.
      assert (E3 : Qle_bool 0 (p / 100) = false).
      { destruct (Qle_bool 0 (p / 100)) eqn:E; [|reflexivity].
        apply Qle_bool_true in E. exfalso.
        apply (Qlt_irrefl 0). eapply Qle_lt_trans; [exact E|exact E0]. }
      rewrite E3. reflexivity.
Qed.

Lemma round_mul (w : Z) (y : Q) :
  round (mul (ofZ w) (Fin y)) = ofZ (Qround (inject_Z w * y)).
Proof.
  unfold ofZ at 1. cbn [mul]. unfold ofQ. cbn [round].
  f_equal. apply Qround_comp, Qred_correct.
Qed.

(** What the code computes for the width of a filled bar. *)
Lemma fill_code (barW : Z) (p : number) :
  p <> NaN ->
  round (mul (ofZ barW) (max (ofZ 0) (min (ofZ 1) (div p (ofZ 100)))))
  = ofZ (clampedFill barW p).
Proof.
  intros Hp. destruct p as [| | |q]; [congruence| | |].
  - change (max (ofZ 0) (min (ofZ 1) (div PInf (ofZ 100)))) with (Fin 1).
    rewrite round_mul. cbn [clampedFill]. f_equal.
    rewrite <- (Qround_Z barW) at 2. apply Qround_comp, Qmult_1_r.
  - change (max (ofZ 0) (min (ofZ 1) (div NInf (ofZ 100)))) with (Fin 0).
    rewrite round_mul. cbn [clampedFill]. f_equal.
    rewrite <- (Qround_Z 0). apply Qround_comp, Qmult_0_r.
  - destruct (clamp_code q) as (y & -> & Hy).
    rewrite round_mul. cbn [clampedFill]. f_equal.
    apply Qround_comp. now rewrite Hy.
Qed.

Lemma clampedFill_range (barW : Z) (p : number) :
  0 <= barW -> 0 <= clampedFill barW p <= barW.
Proof.
  intros Hw. destruct p as [| | |q]; cbn [clampedFill]; try lia.
  destruct (Qclamp_range (q / 100)) as [H0 H1].
  assert (Hb : (0 <= inject_Z barW)%Q) by (now rewrite <- (Zle_Qle 0)).
  set (y := Qclamp (q / 100) 0 1) in *. clearbody y.
  split.
  - rewrite <- (Qround_Z 0). apply Qround_mono.
    change (inject_Z 0) with 0%Q. Lqa.nra.
  - rewrite <- (Qround_Z barW) at 2. apply Qround_mono. Lqa.nra.
Qed.

End BarFacts.

(** ** Where a row is drawn *)

Module DrawFacts.
Import JsString JsValue JsNumber JsHost EscapeSpec BarSpec StringFacts CountFacts.

(** The markup that starts behind the indentation of piece [a] of a
    template and ends before piece [b]. *)
Ltac run_of_pieces a b :=
  match goal with
  | |- infix _ (cat ?L) =>
      exact (infix_cat_mid (firstn a L) "        " _ _ (skipn b L))
  end.

Lemma accentAt_some (accents : list string) (i : Z) :
  accents <> [] -> 0 <= i -> exists color, accentAt accents i = Some color.
Proof.
  intros Hne Hi. unfold accentAt.
  destruct (nth_error accents
              (Z.to_nat (i mod Z.of_nat (List.length accents)))) as [c|] eqn:E.
  - now exists c.
  - exfalso. apply nth_error_None in E.
    assert (0 < Z.of_nat (List.length accents)).
    { destruct accents; [contradiction|cbn [List.length]; lia]. }
    pose proof (Z.mod_pos_bound i (Z.of_nat (List.length accents))). lia.
Qed.

(** The colour the code picks for row [i] is the accent at [i] modulo
    the number of accents. *)
Lemma github_barCycle (th : Github.Theme.t) (i : Z) (color : string) :
  accentAt (Github.Theme.bars th) i = Some color ->
  Github.barCycle th i = color.
Proof.
  unfold accentAt, Github.barCycle, Github.barAt.
  destruct (Github.Theme.bars th) as [|a l] eqn:E.
  - now destruct (Z.to_nat (i mod Z.of_nat (List.length (@nil string)))).
  - now intros ->.
Qed.

Lemma wakatime_barCycle (th : Wakatime.Theme.t) (i : Z) (color : string) :
  accentAt (Wakatime.Theme.bars th) i = Some color ->
  Wakatime.barCycle th i = color.
Proof.
  unfold accentAt, Wakatime.barCycle.
  destruct (Wakatime.Theme.bars th) as [|a l] eqn:E.
  - now destruct (Z.to_nat (i mod Z.of_nat (List.length (@nil string)))).
  - now intros ->.
Qed.

Section Rows.
Context `{Host}.

Lemma github_row_drawn (th : Github.Theme.t) (t s o p : jsval)
    (rows : list Github.MetricRow) (n : nat) (r : Github.MetricRow) :
  nth_error rows n = Some r ->
  let i := Z.of_nat n in
  let y := 124 + i * 34 in
  let color := Github.barCycle th i in
  let doc := Github.renderBarsCard th t s o p rows in
  infix (githubDot 56 (y - 6) color) doc
  /\ infix (githubFill 380 (y - 12) (Github.fillWidth 410 r) 10 color) doc.
Proof.
  intros Hn i y color doc.
  assert (Hrow : infix (Github.barsRow th 900 28 124 34 74 380 410 10 r i) doc).
  { unfold doc, Github.renderBarsCard, mapi. cbv zeta.
    eapply infix_trans; [exact (infix_join_nth nl _ rows 0 n r Hn)|].
    apply infix_cat; repeat first [left; reflexivity | right]. }
  split; (eapply infix_trans; [|exact Hrow]);
    unfold Github.barsRow; cbv zeta; fold i y color.
  - run_of_pieces 1%nat 12%nat.
  - run_of_pieces 87%nat 104%nat.
Qed.

Lemma wakatime_row_drawn (th : Wakatime.Theme.t) (ic t o p : jsval)
    (rows : list Wakatime.Row) (n : nat) (r : Wakatime.Row) :
  nth_error rows n = Some r ->
  let i := Z.of_nat n in
  let y := 112 + i * 34 in
  let color := Wakatime.baseColorOf th r i in
  let opacity :=
    if strictEq (Wakatime.name r) "Other" then ofQ (85 # 100) else ofZ 1 in
  let doc := Wakatime.renderSvg th ic t o p rows in
  infix (wakatimeDot 56 (y - 6) color opacity) doc
  /\ infix (wakatimeFill 380 (y - 12) (Wakatime.fillWidth 410 r) 10
              color opacity) doc.
Proof.
  intros Hn i y color opacity doc.
  assert (Hrow : infix (Wakatime.svgRow th 900 28 112 34 74 380 410 10 r i) doc).
  { unfold doc, Wakatime.renderSvg, mapi. cbv zeta.
    eapply infix_trans; [exact (infix_join_nth nl _ rows 0 n r Hn)|].
    apply infix_cat; repeat first [left; reflexivity | right]. }
  split; (eapply infix_trans; [|exact Hrow]);
    unfold Wakatime.svgRow; cbv zeta; fold i y color opacity.
  - run_of_pieces 1%nat 12%nat.
  - run_of_pieces 85%nat 105%nat.
Qed.

End Rows.

End DrawFacts.

(** ** Row derivation *)

Module DataFacts.
Import JsString JsValue JsNumber JsHost DataSpec.

Lemma In_firstn {A : Type} (n : nat) (l : list A) (x : A) :
  In x (firstn n l) -> In x l.
Proof.
  intros Hin. rewrite <- (firstn_skipn n l). apply in_or_app. now left.
Qed.

Lemma insertDesc_perm (e : string * Z) (l : list (string * Z)) :
  Permutation (e :: l) (Github.insertDesc e l).
Proof.
  induction l as [|h t IH]; cbn [Github.insertDesc]; [reflexivity|].
  destruct (snd e <? snd h); [|reflexivity].
  rewrite perm_swap. now apply perm_skip.
Qed.

Lemma sortDesc_perm (l : list (string * Z)) :
  Permutation l (Github.sortDesc l).
Proof.
  induction l as [|h t IH]; cbn [Github.sortDesc]; [reflexivity|].
  rewrite <- insertDesc_perm. now apply perm_skip.
Qed.

Lemma insertDesc_In (e x : string * Z) (l : list (string * Z)) :
  In x (Github.insertDesc e l) -> x = e \/ In x l.
Proof.
  intros Hin.
  apply (Permutation_in _ (Permutation_sym (insertDesc_perm e l))) in Hin.
  destruct Hin as [->|Hin]; auto.
Qed.

Lemma insertDesc_descending (e : string * Z) (l : list (string * Z)) :
  descending l -> descending (Github.insertDesc e l).
Proof.
  unfold descending. intros Hs.
  induction Hs as [|h t Ht IH Hh]; cbn [Github.insertDesc].
  - repeat constructor.
  - destruct (snd e <? snd h) eqn:E.
    + apply Z.ltb_lt in E. constructor; [exact IH|].
      apply Forall_forall. intros x Hx.
      apply insertDesc_In in Hx. destruct Hx as [->|Hx]; [lia|].
      rewrite Forall_forall in Hh. now apply Hh.
    + apply Z.ltb_ge in E. constructor; [now constructor|].
      constructor; [exact E|].
      rewrite Forall_forall in Hh |- *. intros x Hx.
      specialize (Hh x Hx). lia.
Qed.

Lemma sortDesc_descending (l : list (string * Z)) :
  descending (Github.sortDesc l).
Proof.
  induction l as [|h t IH]; cbn [Github.sortDesc]; [constructor|].
  now apply insertDesc_descending.
Qed.

Lemma firstn_descending (n : nat) (l : list (string * Z)) :
  descending l -> descending (firstn n l).
Proof.
  unfold descending. intros Hs. revert n.
  induction Hs as [|h t Ht IH Hh]; intros [|n]; cbn [firstn];
    try constructor; [apply IH|].
  rewrite Forall_forall in Hh |- *. intros x Hx.
  apply Hh. eapply In_firstn; eauto.
Qed.

Lemma langEntries_descending (langMap : list (string * Z)) :
  descending (Github.langEntries langMap).
Proof. apply firstn_descending, sortDesc_descending. Qed.

Lemma langEntries_length (langMap : list (string * Z)) :
  (List.length (Github.langEntries langMap) <= 10)%nat.
Proof. unfold Github.langEntries. rewrite length_firstn. lia. Qed.

Lemma langEntries_incl (langMap : list (string * Z)) (e : string * Z) :
  In e (Github.langEntries langMap) -> In e langMap.
Proof.
  unfold Github.langEntries. intros Hin.
  apply In_firstn in Hin.
  now apply (Permutation_in _ (Permutation_sym (sortDesc_perm langMap))).
Qed.

(** What [slice(0, 10)] drops is not larger than what it keeps. *)
Lemma firstn_largest (n : nat) (l : list (string * Z)) (e e' : string * Z) :
  descending l -> In e (firstn n l) -> In e' l -> ~ In e' (firstn n l) ->
  List.length (firstn n l) = n /\ snd e' <= snd e.
Proof.
  unfold descending. intros Hs. revert n.
  induction Hs as [|h t Ht IH Hh]; intros n He He' Hout.
  - destruct n; destruct He.
  - destruct n as [|n]; [destruct He|]. cbn [firstn] in *.
    destruct He' as [->|He']; [exfalso; apply Hout; now left|].
    assert (Hout' : ~ In e' (firstn n t)) by (intros Hc; apply Hout; now right).
    destruct He as [->|He].
    + rewrite Forall_forall in Hh. split; [|now apply Hh].
      cbn [List.length]. f_equal.
      destruct (Nat.le_gt_cases n (List.length t)) as [Hle|Hgt].
      * now apply firstn_length_le.
      * exfalso. apply Hout'. rewrite firstn_all2 by lia. exact He'.
    + destruct (IH n He He' Hout') as [Hl Hle].
      split; [cbn [List.length]; now f_equal|exact Hle].
Qed.

Lemma langEntries_largest (langMap : list (string * Z)) (e e' : string * Z) :
  In e (Github.langEntries langMap) -> In e' langMap ->
  ~ In e' (Github.langEntries langMap) ->
  List.length (Github.langEntries langMap) = 10%nat /\ snd e' <= snd e.
Proof.
  unfold Github.langEntries. intros He He' Hout.
  apply firstn_largest; try assumption.
  - apply sortDesc_descending.
  - now apply (Permutation_in _ (sortDesc_perm langMap)).
Qed.

Lemma fold_left_sum (l : list (string * Z)) (a : Z) :
  fold_left (fun acc e => acc + snd e) l a = a + sumSizes l.
Proof.
  revert a. induction l as [|h t IH]; intros a; cbn [fold_left sumSizes fold_right].
  - lia.
  - rewrite IH. unfold sumSizes. lia.
Qed.

Lemma langTotalSize_shown (entries : list (string * Z)) :
  Github.langTotalSize entries = shownTotal entries.
Proof.
  unfold Github.langTotalSize, shownTotal. cbv zeta.
  rewrite fold_left_sum. now rewrite Z.add_0_l.
Qed.

Lemma shownTotal_nonzero (entries : list (string * Z)) :
  shownTotal entries <> 0.
Proof.
  unfold shownTotal. destruct (sumSizes entries =? 0) eqn:E; [lia|].
  now apply Z.eqb_neq in E.
Qed.

(** [(weight / total) * 100] is [100 * weight / total] when the total is
    not zero. *)
Lemma percent_code (weight total : Z) :
  total <> 0 ->
  mul (div (ofZ weight) (ofZ total)) (ofZ 100) = share weight total.
Proof.
  intros Ht. unfold div, ofZ, Qzero. cbn [Qnum inject_Z].
  destruct (total =? 0) eqn:E; [apply Z.eqb_eq in E; contradiction|].
  unfold mul, ofQ, share, ofQ. f_equal. apply Qred_complete.
  rewrite Qred_correct.
  assert (Hq : ~ (inject_Z total == 0)%Q).
  { unfold Qeq. cbn. lia. }
  change (total # 1)%Q with (inject_Z total).
  change (weight # 1)%Q with (inject_Z weight).
  change (100 # 1)%Q with 100%Q.
  field. exact Hq.
Qed.

Lemma share_zero (total : Z) : total <> 0 -> share 0 total = Fin 0.
Proof.
  intros Ht. unfold share, ofQ. apply (f_equal Fin).
  transitivity (Qred 0); [|reflexivity]. apply Qred_complete.
  assert (Hq : ~ (inject_Z total == 0)%Q) by (unfold Qeq; cbn; lia).
  change (inject_Z 0) with 0%Q. field. exact Hq.
Qed.

Lemma sumSizes_zero (l : list (string * Z)) :
  Forall (fun e => 0 <= snd e) l -> sumSizes l = 0 ->
  Forall (fun e => snd e = 0) l.
Proof.
  induction 1 as [|h t Hh Ht IH]; intros Hs; [constructor|].
  cbn [sumSizes fold_right] in Hs.
  assert (Hn : 0 <= sumSizes t).
  { clear -Ht. induction Ht as [|h t Hh Ht IH]; cbn [sumSizes fold_right];
      [lia|]. unfold sumSizes in IH. lia. }
  unfold sumSizes in Hn.
  constructor; [lia|]. apply IH. unfold sumSizes. lia.
Qed.

Section Rows.
Context `{Host}.

(** The rows of the language card, entry by entry. *)
Lemma langRows_map (langMap : list (string * Z)) :
  Github.langRows langMap
  = map (fun e =>
           {| Github.name := VStr (fst e);
              Github.valueText := VStr (Github.humanBytes (snd e));
              Github.percent :=
                share (snd e) (shownTotal (Github.langEntries langMap)) |})
        (Github.langEntries langMap).
Proof.
  unfold Github.langRows. cbv zeta. apply map_ext. intros e.
  rewrite langTotalSize_shown, percent_code; [reflexivity|].
  apply shownTotal_nonzero.
Qed.

Lemma makeActivityRows_map (commits prs issues reviews contribTotal : Z) :
  let total := if contribTotal =? 0 then 1 else contribTotal in
  Github.makeActivityRows commits prs issues reviews contribTotal
  = map (fun r =>
           {| Github.name := VStr (fst r);
              Github.valueText := VStr (Github.fmtNumber (snd r));
              Github.percent := share (snd r) total |})
        [ ("Commits", commits); ("Pull Requests", prs);
          ("Issues", issues); ("Reviews", reviews) ].
Proof.
  intros total. unfold Github.makeActivityRows. cbv zeta. fold total.
  apply map_ext. intros r. rewrite percent_code; [reflexivity|].
  unfold total. destruct (contribTotal =? 0) eqn:E; [lia|].
  now apply Z.eqb_neq in E.
Qed.

Lemma toRows_length (l : list Wakatime.Entry.t) (limit : nat) :
  (List.length (Wakatime.toRows l limit) <= limit)%nat.
Proof. unfold Wakatime.toRows. rewrite length_map, length_firstn. lia. Qed.

Lemma toRows_percent (l : list Wakatime.Entry.t) (limit : nat) :
  map Wakatime.percent (Wakatime.toRows l limit)
  = map ownPercent (firstn limit l).
Proof.
  unfold Wakatime.toRows. rewrite map_map. apply map_ext.
  intros x. reflexivity.
Qed.

Lemma toRows_name (l : list Wakatime.Entry.t) (limit : nat) :
  map Wakatime.name (Wakatime.toRows l limit)
  = map Wakatime.Entry.name (firstn limit l).
Proof.
  unfold Wakatime.toRows. rewrite map_map. apply map_ext.
  intros x. reflexivity.
Qed.

(** Every row the program derives has a number for percentage. *)
Lemma langRows_number (langMap : list (string * Z)) (r : Github.MetricRow) :
  In r (Github.langRows langMap) -> Github.percent r <> NaN.
Proof.
  rewrite langRows_map. intros Hin. apply in_map_iff in Hin.
  destruct Hin as (e & <- & _). discriminate.
Qed.

Lemma makeActivityRows_number (commits prs issues reviews contribTotal : Z)
    (r : Github.MetricRow) :
  In r (Github.makeActivityRows commits prs issues reviews contribTotal) ->
  Github.percent r <> NaN.
Proof.
  rewrite makeActivityRows_map. cbv zeta. intros Hin.
  apply in_map_iff in Hin. destruct Hin as (e & <- & _). discriminate.
Qed.

Lemma toRows_number (l : list Wakatime.Entry.t) (limit : nat)
    (r : Wakatime.Row) :
  In r (Wakatime.toRows l limit) -> Wakatime.percent r <> NaN.
Proof.
  unfold Wakatime.toRows. intros Hin. apply in_map_iff in Hin.
  destruct Hin as (x & <- & _). cbn [Wakatime.percent]. unfold orNum.
  destruct (Wakatime.Entry.percent x) as [[| | |q]|]; cbn; try discriminate.
  destruct (negb (Qzero q)); discriminate.
Qed.

End Rows.

End DataFacts.

(** ** Calendar years and the windows of the contribution query *)

Module DateFacts.
Import JsDate.

Ltac floor_lia := unfold TimeFromYear, DayFromYear, msPerDay in *;
                  Z.div_mod_to_equations; lia.

Lemma TimeFromYear_1970 : TimeFromYear 1970 = 0.
Proof. reflexivity. Qed.

(** A year lasts 365 or 366 days. *)
Lemma year_length (y : Z) :
  365 * msPerDay <= TimeFromYear (y + 1) - TimeFromYear y <= 366 * msPerDay.
Proof. floor_lia. Qed.

Lemma TimeFromYear_lt (y : Z) : TimeFromYear y < TimeFromYear (y + 1).
Proof. pose proof (year_length y). unfold msPerDay in *. lia. Qed.

Lemma TimeFromYear_mono (y1 y2 : Z) :
  y1 <= y2 -> TimeFromYear y1 <= TimeFromYear y2.
Proof.
  intros Hle. replace y2 with (y1 + Z.of_nat (Z.to_nat (y2 - y1))) by lia.
  induction (Z.to_nat (y2 - y1)) as [|n IH]; [rewrite Z.add_0_r; lia|].
  pose proof (TimeFromYear_lt (y1 + Z.of_nat n)).
  replace (y1 + Z.of_nat (S n)) with (y1 + Z.of_nat n + 1) by lia. lia.
Qed.

Lemma TimeFromYear_lt_inv (y1 y2 : Z) :
  TimeFromYear y1 < TimeFromYear y2 -> y1 < y2.
Proof.
  intros Hlt. destruct (Z_lt_le_dec y1 y2) as [|Hge]; [assumption|].
  pose proof (TimeFromYear_mono y2 y1 Hge). lia.
Qed.

Lemma climb_spec (fuel : nat) (y t : Z) :
  TimeFromYear y <= t ->
  t < TimeFromYear (y + Z.of_nat fuel + 1) ->
  TimeFromYear (climb fuel y t) <= t < TimeFromYear (climb fuel y t + 1).
Proof.
  revert y. induction fuel as [|f IH]; intros y Hlo Hhi; cbn [climb].
  - replace (y + Z.of_nat 0 + 1) with (y + 1) in Hhi by lia. lia.
  - destruct (TimeFromYear (y + 1) <=? t) eqn:E.
    + apply Z.leb_le in E. apply IH; [exact E|].
      replace (y + 1 + Z.of_nat f + 1) with (y + Z.of_nat (S f) + 1) by lia.
      exact Hhi.
    + apply Z.leb_gt in E. lia.
Qed.

Lemma early_year (k : Z) : k < 0 -> DayFromYear (1970 + k) <= 365 * k.
Proof. intros Hk. unfold DayFromYear. Z.div_mod_to_equations. lia. Qed.

Lemma late_year (n : Z) : 0 <= n -> 365 * n <= DayFromYear (1970 + n).
Proof. intros Hn. unfold DayFromYear. Z.div_mod_to_equations. lia. Qed.

(** [getUTCFullYear] returns the year in which the instant falls. *)
Lemma getUTCFullYear_spec (t : Z) :
  TimeFromYear (getUTCFullYear t) <= t < TimeFromYear (getUTCFullYear t + 1).
Proof.
  unfold getUTCFullYear. cbv zeta.
  set (k := t / (365 * msPerDay)).
  assert (Hk : 365 * msPerDay * k <= t < 365 * msPerDay * (k + 1)).
  { unfold k, msPerDay. Z.div_mod_to_equations. lia. }
  apply climb_spec.
  - destruct (Z_lt_le_dec k 0) as [Hneg|Hpos].
    + rewrite Z.min_r by lia. pose proof (early_year k Hneg).
      unfold TimeFromYear, msPerDay in *. lia.
    + rewrite Z.min_l by lia. rewrite Z.add_0_r, TimeFromYear_1970.
      unfold msPerDay in *. lia.
  - destruct (Z_lt_le_dec k 0) as [Hneg|Hpos].
    + rewrite Z.min_r by lia.
      replace (1970 + k + Z.of_nat (Z.to_nat (Z.abs k) + 1) + 1) with 1972 by lia.
      change (TimeFromYear 1972) with 63072000000.
      unfold msPerDay in *. lia.
    + rewrite Z.min_l by lia.
      replace (1970 + 0 + Z.of_nat (Z.to_nat (Z.abs k) + 1) + 1)
        with (1970 + (k + 2)) by lia.
      pose proof (late_year (k + 2) ltac:(lia)).
      unfold TimeFromYear, msPerDay in *. lia.
Qed.

(** It is the only such year. *)
Lemma getUTCFullYear_unique (t y : Z) :
  TimeFromYear y <= t < TimeFromYear (y + 1) -> getUTCFullYear t = y.
Proof.
  intros Hy. pose proof (getUTCFullYear_spec t) as Hg.
  assert (getUTCFullYear t < y + 1) by (apply TimeFromYear_lt_inv; lia).
  assert (y < getUTCFullYear t + 1) by (apply TimeFromYear_lt_inv; lia).
  lia.
Qed.

End DateFacts.

Module WindowFacts.
Import JsDate Github WindowSpec DateFacts.

Lemma window_inner (now endYear y : Z) :
  y <> endYear ->
  window now endYear y = (TimeFromYear y, TimeFromYear (y + 1)).
Proof.
  intros Hne. unfold window. cbv zeta.
  now replace (y =? endYear) with false by (symmetry; apply Z.eqb_neq; lia).
Qed.

Lemma windows_tile (now endYear : Z) (n : nat) (y : Z) :
  endYear = y + Z.of_nat n ->
  TimeFromYear endYear <= now ->
  tiles (TimeFromYear y) now (map (window now endYear) (yearsFrom y (S n))).
Proof.
  revert y. induction n as [|n IH]; intros y He Hnow.
  - cbn [Z.of_nat] in He. rewrite Z.add_0_r in He. subst endYear.
    cbn [yearsFrom map tiles]. unfold window. cbv zeta. cbn [fst snd].
    rewrite Z.eqb_refl. auto.
  - change (yearsFrom y (S (S n))) with (y :: yearsFrom (y + 1) (S n)).
    cbn [map]. specialize (IH (y + 1) ltac:(lia) Hnow).
    change (yearsFrom (y + 1) (S n))
      with (y + 1 :: yearsFrom (y + 1 + 1) n) in *.
    cbn [map] in *. cbn [tiles].
    rewrite (window_inner now endYear y) by lia. cbn [fst snd].
    split; [reflexivity|]. split; [apply TimeFromYear_lt|exact IH].
Qed.

Lemma windows_yearly (now endYear : Z) (n : nat) (y : Z) :
  endYear = y + Z.of_nat n ->
  now < TimeFromYear (endYear + 1) ->
  yearly y endYear now (map (window now endYear) (yearsFrom y (S n))).
Proof.
  revert y. induction n as [|n IH]; intros y He Hnow.
  - cbn [Z.of_nat] in He. rewrite Z.add_0_r in He. subst endYear.
    cbn [yearsFrom map yearly]. unfold window. cbv zeta.
    rewrite Z.eqb_refl. auto.
  - change (yearsFrom y (S (S n))) with (y :: yearsFrom (y + 1) (S n)).
    cbn [map]. specialize (IH (y + 1) ltac:(lia) Hnow).
    change (yearsFrom (y + 1) (S n))
      with (y + 1 :: yearsFrom (y + 1 + 1) n) in *.
    cbn [map] in *. cbn [yearly].
    rewrite (window_inner now endYear y) by lia.
    split; [reflexivity|exact IH].
Qed.

(** Windows that tile a span are within it, in order and without
    overlap, and leave no instant of it out. *)
Lemma tiles_bounds (a b : Z) (ws : list (Z * Z)) :
  tiles a b ws -> a <= b /\ Forall (fun w => a <= fst w /\ fst w <= snd w <= b) ws.
Proof.
  revert a. induction ws as [|w rest IH]; intros a; [intros []|].
  destruct rest as [|w' rest].
  - cbn [tiles]. intros (Hf & Hle & Ht). split; [lia|].
    constructor; [lia|constructor].
  - change (tiles a b (w :: w' :: rest))
      with (fst w = a /\ a < snd w /\ tiles (snd w) b (w' :: rest)).
    intros (Hf & Hlt & Hrest). destruct (IH _ Hrest) as [Hab Hall].
    split; [lia|]. constructor; [lia|].
    eapply Forall_impl; [|exact Hall]. cbn beta. intros x Hx. lia.
Qed.

Lemma tiles_cover (a b : Z) (ws : list (Z * Z)) (t : Z) :
  tiles a b ws -> a <= t <= b -> exists w, In w ws /\ within t w.
Proof.
  revert a. induction ws as [|w rest IH]; intros a; [intros []|].
  destruct rest as [|w' rest].
  - cbn [tiles]. intros (Hf & Hle & Ht) Hin.
    exists w. split; [now left|unfold within; lia].
  - change (tiles a b (w :: w' :: rest))
      with (fst w = a /\ a < snd w /\ tiles (snd w) b (w' :: rest)).
    intros (Hf & Hlt & Hrest) Hin.
    destruct (Z_le_gt_dec t (snd w)) as [Hle|Hgt].
    + exists w. split; [now left|unfold within; lia].
    + destruct (IH _ Hrest ltac:(lia)) as (x & Hx & Hw).
      exists x. split; [now right|exact Hw].
Qed.

Lemma tiles_apart (a b : Z) (ws : list (Z * Z)) :
  tiles a b ws ->
  forall (pre : list (Z * Z)) w1 mid w2 post,
    ws = (pre ++ w1 :: mid ++ w2 :: post)%list -> snd w1 <= fst w2.
Proof.
  revert a. induction ws as [|w rest IH]; intros a; [intros []|].
  intros Ht pre w1 mid w2 post E.
  destruct rest as [|w' rest].
  { destruct pre as [|? [|? ?]]; cbn in E; injection E; intros;
      destruct mid; discriminate. }
  change (tiles a b (w :: w' :: rest))
    with (fst w = a /\ a < snd w /\ tiles (snd w) b (w' :: rest)) in Ht.
  destruct Ht as (Hf & Hlt & Hrest).
  destruct pre as [|p pre]; cbn [app] in E.
  - injection E as -> Er.
    destruct (tiles_bounds _ _ _ Hrest) as [_ Hall].
    rewrite Er in Hall. rewrite Forall_forall in Hall.
    assert (Hin : In w2 (mid ++ w2 :: post)%list) by (apply in_or_app; right; now left).
    specialize (Hall w2 Hin). lia.
  - injection E as -> Er. eapply IH; eauto.
Qed.

Lemma loopYears_some (endYear : Z) :
  FROM_YEAR <= endYear ->
  loopYears endYear
  = yearsFrom FROM_YEAR (S (Z.to_nat (endYear - FROM_YEAR))).
Proof.
  intros Hle. unfold loopYears. f_equal. unfold FROM_YEAR in *. lia.
Qed.

Lemma loopYears_none (endYear : Z) :
  endYear < FROM_YEAR -> loopYears endYear = [].
Proof.
  intros Hlt. unfold loopYears.
  replace (Z.to_nat (endYear - FROM_YEAR + 1)) with O by lia. reflexivity.
Qed.

(** The clock is past the start of the range exactly when the loop runs. *)
Lemma endYear_from (now : Z) :
  TimeFromYear FROM_YEAR <= now <-> FROM_YEAR <= getUTCFullYear now.
Proof.
  pose proof (getUTCFullYear_spec now) as Hg. split; intros Hle.
  - assert (FROM_YEAR < getUTCFullYear now + 1)
      by (apply TimeFromYear_lt_inv; lia). lia.
  - pose proof (TimeFromYear_mono _ _ Hle). lia.
Qed.

Section Sums.
Variable ghGraphQL : Z -> Z -> Contrib.collection.

Lemma fold_addWindow (ws : list (Z * Z)) (acc : Contrib.totals) :
  let r := fold_left (addWindow ghGraphQL) ws acc in
  Contrib.commits r
  = Contrib.commits acc
    + sumOver (fun w => countOr0 (Contrib.totalCommitContributions (answer ghGraphQL w))) ws
  /\ Contrib.prs r
     = Contrib.prs acc
       + sumOver (fun w => countOr0 (Contrib.totalPullRequestContributions (answer ghGraphQL w))) ws
  /\ Contrib.issues r
     = Contrib.issues acc
       + sumOver (fun w => countOr0 (Contrib.totalIssueContributions (answer ghGraphQL w))) ws
  /\ Contrib.reviews r
     = Contrib.reviews acc
       + sumOver (fun w => countOr0 (Contrib.totalPullRequestReviewContributions (answer ghGraphQL w))) ws.
Proof.
  revert acc. induction ws as [|w ws IH]; intros acc; cbv zeta.
  - cbn. lia.
  - cbn [fold_left]. specialize (IH (addWindow ghGraphQL acc w)).
    cbv zeta in IH. destruct IH as (Hc & Hp & Hi & Hr).
    rewrite Hc, Hp, Hi, Hr. unfold sumOver. cbn [fold_right].
    unfold addWindow, answer. cbn. lia.
Qed.
End Sums.

End WindowFacts.

(** ** The grade *)

Module GradeFacts.
Import Github GradeSpec.
Local Open Scope R_scope.

Lemma L_count (x : R) : 0 <= x -> L x = ln (1 + x).
Proof. intros Hx. unfold L. now rewrite Rmax_right. Qed.

Lemma L_target (t : R) : 0 < t -> L t <> 0.
Proof.
  intros Ht. rewrite L_count by lra. apply ln_neq_0; lra.
Qed.

(** For a count and a target the code computes [norm]: its guard on the
    logarithm of the target is the guard on the target. *)
Lemma norm_code (x t : R) : 0 <= x -> 0 <= t -> norm x t = normOf x t.
Proof.
  intros Hx Ht. unfold norm, normOf. cbv zeta.
  destruct (Req_dec_T t 0) as [->|Hne].
  - destruct (Req_dec_T (L 0) 0) as [_|E]; [reflexivity|].
    exfalso. apply E. rewrite L_count by lra. now rewrite Rplus_0_r, ln_1.
  - destruct (Req_dec_T (L t) 0) as [E|_]; [apply L_target in E; [easy|lra]|].
    now rewrite !L_count by lra.
Qed.

Lemma norm_range (x t : R) : 0 <= x -> 0 < t -> 0 <= norm x t <= 1.
Proof.
  intros Hx Ht. unfold norm. cbv zeta.
  destruct (Req_dec_T (L t) 0) as [E|_]; [lra|].
  split; [|apply Rmin_l].
  apply Rmin_glb; [lra|].
  rewrite !L_count by lra.
  assert (H1 : 0 <= ln (1 + x)).
  { destruct (Req_dec x 0) as [->|Hne].
    - rewrite Rplus_0_r, ln_1. lra.
    - rewrite <- ln_1. left. apply ln_increasing; lra. }
  assert (H2 : 0 < ln (1 + t)).
  { rewrite <- ln_1. apply ln_increasing; lra. }
  apply Rmult_le_pos; [exact H1|]. left. now apply Rinv_0_lt_compat.
Qed.

Lemma Math_round_rounds (x : R) : rounds x (Math_round x).
Proof.
  unfold rounds, Math_round.
  pose proof (Zfloor_bound (x + / 2)). lra.
Qed.

Lemma rounds_unique (x : R) (z1 z2 : Z) : rounds x z1 -> rounds x z2 -> z1 = z2.
Proof.
  unfold rounds. intros H1 H2.
  assert (Ha : (z1 < z2 + 1)%Z) by (apply lt_IZR; rewrite plus_IZR; lra).
  assert (Hb : (z2 < z1 + 1)%Z) by (apply lt_IZR; rewrite plus_IZR; lra).
  lia.
Qed.

Lemma letterOf_step (pct : Z) : stepLetter pct (letterOf pct).
Proof.
  unfold stepLetter, letterOf.
  destruct (Z.leb_spec 85 pct); [repeat split; intros; (reflexivity || lia)|].
  destruct (Z.leb_spec 70 pct); [repeat split; intros; (reflexivity || lia)|].
  destruct (Z.leb_spec 55 pct); [repeat split; intros; (reflexivity || lia)|].
  destruct (Z.leb_spec 40 pct); repeat split; intros; (reflexivity || lia).
Qed.

Lemma letterOf_mono (p1 p2 : Z) :
  (p1 <= p2)%Z -> (letterRank (letterOf p1) <= letterRank (letterOf p2))%nat.
Proof.
  intros Hle. unfold letterOf.
  destruct (Z.leb_spec 85 p1), (Z.leb_spec 85 p2),
           (Z.leb_spec 70 p1), (Z.leb_spec 70 p2),
           (Z.leb_spec 55 p1), (Z.leb_spec 55 p2),
           (Z.leb_spec 40 p1), (Z.leb_spec 40 p2);
    cbn; lia.
Qed.

Lemma score_code (commits prs issues reviews stars repos : R) :
  0 <= commits -> 0 <= prs -> 0 <= issues -> 0 <= reviews ->
  0 <= stars -> 0 <= repos ->
  score (computeGrade commits prs issues reviews stars repos)
  = scoreOf commits prs issues reviews stars repos.
Proof.
  intros. unfold computeGrade, scoreOf. cbv zeta. cbn [score].
  unfold w, targets, constOrZero. cbn.
  rewrite !norm_code by lra. reflexivity.
Qed.

Lemma score_range (commits prs issues reviews stars repos : R) :
  0 <= commits -> 0 <= prs -> 0 <= issues -> 0 <= reviews ->
  0 <= stars -> 0 <= repos ->
  0 <= score (computeGrade commits prs issues reviews stars repos) <= 1.
Proof.
  intros. unfold computeGrade. cbv zeta. cbn [score].
  unfold w, targets, constOrZero. cbn.
  pose proof (norm_range commits 4000 ltac:(lra) ltac:(lra)).
  pose proof (norm_range prs 200 ltac:(lra) ltac:(lra)).
  pose proof (norm_range issues 200 ltac:(lra) ltac:(lra)).
  pose proof (norm_range reviews 250 ltac:(lra) ltac:(lra)).
  pose proof (norm_range stars 300 ltac:(lra) ltac:(lra)).
  pose proof (norm_range repos 60 ltac:(lra) ltac:(lra)).
  lra.
Qed.

Lemma normOf_full (t : R) : 0 < t -> normOf t t = 1.
Proof.
  intros Ht. unfold normOf.
  destruct (Req_dec_T t 0) as [E|_]; [lra|].
  unfold Rdiv. rewrite Rinv_r; [apply Rmin_left; lra|].
  apply ln_neq_0; lra.
Qed.

Lemma normOf_none (t : R) : normOf 0 t = 0.
Proof.
  unfold normOf. destruct (Req_dec_T t 0) as [E|_]; [reflexivity|].
  rewrite Rplus_0_r, ln_1. unfold Rdiv. rewrite Rmult_0_l.
  apply Rmin_right. lra.
Qed.

End GradeFacts.

(** ** Missing texts *)

Module MissingFacts.
Import JsString JsValue JsNumber JsHost Github MissingSpec.

Lemma escapeXml_missing (v : jsval) :
  escapeXml v = escapeXml (emptyIfMissing v).
Proof. now destruct v. Qed.

Lemma mapi_from_map {A B : Type} (f : A -> Z -> B) (g : A -> A)
    (l : list A) (i : Z) :
  (forall x k, f (g x) k = f x k) ->
  mapi_from i f (map g l) = mapi_from i f l.
Proof.
  intros Hf. revert i. induction l as [|x l IH]; intros i; [reflexivity|].
  cbn [map mapi_from]. now rewrite Hf, IH.
Qed.

Section Documents.
Context `{Host}.
Variable th : Theme.t.

Lemma barsRow_missing (wd pd hh rh nx bx bw bh : Z) (r : MetricRow) (i : Z) :
  barsRow th wd pd hh rh nx bx bw bh (rowEmptyIfMissing r) i
  = barsRow th wd pd hh rh nx bx bw bh r i.
Proof.
  unfold barsRow, fillWidth, rowEmptyIfMissing.
  cbn [name valueText percent].
  now rewrite <- !escapeXml_missing.
Qed.

Lemma gridBox_missing (pd hh cols gap bh bw : Z) (it : GridItem) (i : Z) :
  gridBox th pd hh cols gap bh bw (itemEmptyIfMissing it) i
  = gridBox th pd hh cols gap bh bw it i.
Proof.
  unfold gridBox, itemEmptyIfMissing. cbn [label value].
  now rewrite <- !escapeXml_missing.
Qed.

Lemma renderBarsCard_missing (t s o p : jsval) (rows : list MetricRow) :
  renderBarsCard th t s o p rows
  = renderBarsCard th (emptyIfMissing t) (emptyIfMissing s)
      (emptyIfMissing o) (emptyIfMissing p) (map rowEmptyIfMissing rows).
Proof.
  unfold renderBarsCard, mapi.
  rewrite length_map, mapi_from_map by apply barsRow_missing.
  now rewrite <- !escapeXml_missing.
Qed.

Lemma renderGridStatsCard_missing (t s o p : jsval) (items : list GridItem)
    (grade : Grade) :
  renderGridStatsCard th t s o p items grade
  = renderGridStatsCard th (emptyIfMissing t) (emptyIfMissing s)
      (emptyIfMissing o) (emptyIfMissing p) (map itemEmptyIfMissing items)
      grade.
Proof.
  unfold renderGridStatsCard, mapi.
  rewrite length_map, mapi_from_map by apply gridBox_missing.
  now rewrite <- !escapeXml_missing.
Qed.

End Documents.

End MissingFacts.

(** ** The grade: range, growth and caps *)

Module GradeMore.
Import Github GradeSpec GradeFacts.
Local Open Scope R_scope.

Lemma L_nonneg (x : R) : 0 <= L x.
Proof.
  unfold L. destruct (Rmax_l 0 x) as [Hlt|<-].
  - rewrite <- ln_1 at 1. left. apply ln_increasing; lra.
  - rewrite Rplus_0_r, ln_1. lra.
Qed.

Lemma L_mono (x y : R) : x <= y -> L x <= L y.
Proof.
  intros Hle. unfold L.
  assert (Hm : Rmax 0 x <= Rmax 0 y) by (apply Rle_max_compat_l; exact Hle).
  pose proof (Rmax_l 0 x) as Hx.
  destruct Hm as [Hlt|Heq]; [|rewrite Heq; lra].
  left. apply ln_increasing; lra.
Qed.

Lemma L_positive (t : R) : 0 < t -> 0 < L t.
Proof.
  intros Ht. pose proof (L_nonneg t). pose proof (L_target t Ht). lra.
Qed.

(** Whatever the count, negative ones included. *)
Lemma norm_between (x t : R) : 0 < t -> 0 <= norm x t <= 1.
Proof.
  intros Ht. unfold norm. cbv zeta.
  destruct (Req_dec_T (L t) 0) as [E|_]; [lra|].
  split; [|apply Rmin_l].
  apply Rmin_glb; [lra|].
  apply Rmult_le_pos; [apply L_nonneg|].
  left. apply Rinv_0_lt_compat. now apply L_positive.
Qed.

Lemma norm_mono (x y t : R) : 0 < t -> x <= y -> norm x t <= norm y t.
Proof.
  intros Ht Hle. unfold norm. cbv zeta.
  destruct (Req_dec_T (L t) 0) as [E|_]; [lra|].
  apply Rle_min_compat_l. unfold Rdiv.
  apply Rmult_le_compat_r; [|now apply L_mono].
  left. apply Rinv_0_lt_compat. now apply L_positive.
Qed.

(** A count at its target or beyond counts as the target. *)
Lemma norm_cap (x t : R) : 0 < t -> t <= x -> norm x t = 1.
Proof.
  intros Ht Hle. unfold norm. cbv zeta.
  destruct (Req_dec_T (L t) 0) as [E|_]; [now apply L_target in E|].
  apply Rmin_left.
  pose proof (L_positive t Ht) as Hp. pose proof (L_mono t x Hle) as Hm.
  apply Rmult_le_reg_r with (r := L t); [exact Hp|].
  unfold Rdiv. rewrite Rmult_assoc, Rinv_l by lra. lra.
Qed.

Lemma norm_floor (x t : R) : x <= 0 -> norm x t = 0.
Proof.
  intros Hx. unfold norm. cbv zeta.
  destruct (Req_dec_T (L t) 0) as [E|Hne]; [reflexivity|].
  assert (E0 : L x = 0).
  { unfold L. rewrite Rmax_left by exact Hx. now rewrite Rplus_0_r, ln_1. }
  rewrite E0. unfold Rdiv. rewrite Rmult_0_l.
  apply Rmin_right. lra.
Qed.

Lemma Math_round_mono (x y : R) : x <= y -> (Math_round x <= Math_round y)%Z.
Proof. intros Hle. unfold Math_round. apply Zfloor_le. lra. Qed.

Lemma Math_round_Z (z : Z) : Math_round (IZR z) = z.
Proof. unfold Math_round. apply Zfloor_eq. lra. Qed.

Lemma letterOf_known (pct : Z) : In (letterOf pct) ["S"; "A"; "B"; "C"; "D"]%string.
Proof.
  unfold letterOf.
  destruct (85 <=? pct)%Z; [cbn; tauto|].
  destruct (70 <=? pct)%Z; [cbn; tauto|].
  destruct (55 <=? pct)%Z; [cbn; tauto|].
  destruct (40 <=? pct)%Z; cbn; tauto.
Qed.

(** The score as the sum the code writes. *)
Lemma score_sum (c p i r s o : R) :
  score (computeGrade c p i r s o)
  = 0.35 * norm c 4000 + 0.20 * norm p 200 + 0.10 * norm i 200
    + 0.10 * norm r 250 + 0.15 * norm s 300 + 0.10 * norm o 60.
Proof. reflexivity. Qed.

Lemma pct_round (c p i r s o : R) :
  pct (computeGrade c p i r s o)
  = Math_round (score (computeGrade c p i r s o) * 100).
Proof. reflexivity. Qed.

Lemma letter_step (c p i r s o : R) :
  letter (computeGrade c p i r s o) = letterOf (pct (computeGrade c p i r s o)).
Proof. reflexivity. Qed.

End GradeMore.

(** ** Repositories: the map of languages and the pages *)

Module RepoFacts.
Import Github RepoSpec.

Lemma mapGet_mapSet_same (m : list (string * Z)) (k : string) (v : Z) :
  mapGet (mapSet m k v) k = Some v.
Proof.
  induction m as [|[k' v'] m IH]; cbn [mapSet mapGet].
  - now rewrite String.eqb_refl.
  - destruct (String.eqb k' k) eqn:E; cbn [mapGet].
    + now rewrite String.eqb_refl.
    + now rewrite E.
Qed.

Lemma mapGet_mapSet_other (m : list (string * Z)) (k k' : string) (v : Z) :
  k <> k' -> mapGet (mapSet m k v) k' = mapGet m k'.
Proof.
  intros Hne. induction m as [|[k0 v0] m IH]; cbn [mapSet mapGet].
  - destruct (String.eqb k k') eqn:E; [apply String.eqb_eq in E; contradiction|].
    reflexivity.
  - destruct (String.eqb k0 k) eqn:E; cbn [mapGet].
    + apply String.eqb_eq in E. subst k0.
      destruct (String.eqb k k') eqn:E'; [apply String.eqb_eq in E'; contradiction|].
      reflexivity.
    + now rewrite IH.
Qed.

Lemma mapGet_keys (m : list (string * Z)) (k : string) :
  existsb (String.eqb k) (map fst m) = match mapGet m k with Some _ => true | None => false end.
Proof.
  induction m as [|[k' v'] m IH]; [reflexivity|].
  cbn [map fst existsb mapGet]. rewrite (String.eqb_sym k k').
  destruct (String.eqb k' k); [reflexivity|exact IH].
Qed.

(** Setting a key keeps the keys in place; a new key goes last. *)
Lemma mapSet_keys (m : list (string * Z)) (k : string) (v : Z) :
  map fst (mapSet m k v)
  = if existsb (String.eqb k) (map fst m) then map fst m
    else (map fst m ++ [k])%list.
Proof.
  induction m as [|[k' v'] m IH]; [reflexivity|].
  cbn [mapSet map fst existsb]. rewrite (String.eqb_sym k k').
  destruct (String.eqb k' k) eqn:E; cbn [map fst orb].
  - apply String.eqb_eq in E. now subst.
  - rewrite IH. now destruct (existsb (String.eqb k) (map fst m)).
Qed.

Lemma existsb_eqb_In (k : string) (l : list string) :
  existsb (String.eqb k) l = true <-> In k l.
Proof.
  rewrite existsb_exists. split.
  - intros (x & Hx & E). apply String.eqb_eq in E. now subst.
  - intros Hin. exists k. split; [exact Hin|apply String.eqb_refl].
Qed.

Lemma mapSet_NoDup (m : list (string * Z)) (k : string) (v : Z) :
  NoDup (map fst m) -> NoDup (map fst (mapSet m k v)).
Proof.
  intros Hnd. rewrite mapSet_keys.
  destruct (existsb (String.eqb k) (map fst m)) eqn:E; [exact Hnd|].
  apply NoDup_app; [exact Hnd|repeat constructor; intros []|].
  intros x Hx [<-|[]].
  apply existsb_eqb_In in Hx. congruence.
Qed.

Lemma addEdge_named (m : list (string * Z)) (e : Repo.edge) :
  addEdge m e
  = match named e with
    | Some n => mapSet m n (countOr0 (mapGet m n) + countOr0 (Repo.size e))
    | None => m
    end.
Proof.
  unfold addEdge, named. cbv zeta.
  destruct (Repo.name e) as [n|]; [|reflexivity].
  now destruct (String.eqb n "").
Qed.

Lemma named_nonempty (e : Repo.edge) (n : string) : named e = Some n -> n <> ""%string.
Proof.
  unfold named. destruct (Repo.name e) as [n'|]; [|discriminate].
  destruct (String.eqb n' "") eqn:E; [discriminate|].
  intros [= <-]. now apply String.eqb_neq in E.
Qed.

Lemma sizeOf_cons (name : string) (e : Repo.edge) (es : list Repo.edge) :
  sizeOf name (e :: es)
  = (if isNamed name e then countOr0 (Repo.size e) else 0) + sizeOf name es.
Proof. reflexivity. Qed.

Lemma mentions_cons (name : string) (e : Repo.edge) (es : list Repo.edge) :
  mentions name (e :: es) = (isNamed name e || mentions name es)%bool.
Proof. reflexivity. Qed.

Lemma sizeOf_unmentioned (name : string) (es : list Repo.edge) :
  mentions name es = false -> sizeOf name es = 0.
Proof.
  induction es as [|e es IH]; [reflexivity|].
  rewrite mentions_cons, sizeOf_cons. intros Hm.
  apply orb_false_elim in Hm. destruct Hm as [-> Hm].
  now rewrite IH.
Qed.

(** What the loop over language entries leaves in the map for a name. *)
Lemma fold_addEdge_get (es : list Repo.edge) (m : list (string * Z))
    (name : string) :
  mapGet (fold_left addEdge es m) name
  = if mentions name es
    then Some (countOr0 (mapGet m name) + sizeOf name es)
    else mapGet m name.
Proof.
  revert m. induction es as [|e es IH]; intros m; [reflexivity|].
  cbn [fold_left]. rewrite IH, mentions_cons, sizeOf_cons, addEdge_named.
  unfold isNamed.
  destruct (named e) as [n|] eqn:En.
  - destruct (String.eqb n name) eqn:E; cbn [orb].
    + apply String.eqb_eq in E. subst n.
      rewrite mapGet_mapSet_same. cbn [countOr0].
      destruct (mentions name es) eqn:Em; [f_equal; lia|].
      rewrite (sizeOf_unmentioned _ _ Em). f_equal. lia.
    + apply String.eqb_neq in E.
      rewrite mapGet_mapSet_other by exact E.
      destruct (mentions name es); [f_equal; lia|reflexivity].
  - cbn [orb]. destruct (mentions name es); [f_equal; lia|reflexivity].
Qed.

Lemma fold_addEdge_keys (es : list Repo.edge) (m : list (string * Z)) :
  map fst (fold_left addEdge es m) = fold_left seeName es (map fst m).
Proof.
  revert m. induction es as [|e es IH]; intros m; [reflexivity|].
  cbn [fold_left]. rewrite IH. f_equal.
  rewrite addEdge_named. unfold seeName.
  destruct (named e) as [n|]; [|reflexivity].
  apply mapSet_keys.
Qed.

Lemma fold_addEdge_NoDup (es : list Repo.edge) (m : list (string * Z)) :
  NoDup (map fst m) -> NoDup (map fst (fold_left addEdge es m)).
Proof.
  revert m. induction es as [|e es IH]; intros m Hnd; [exact Hnd|].
  cbn [fold_left]. apply IH. rewrite addEdge_named.
  destruct (named e); [now apply mapSet_NoDup|exact Hnd].
Qed.

(** The loop over repositories, as one loop over the entries of the
    repositories that are not forks. *)
Lemma fold_addNode (rs : list Repo.node) (acc : Z * list (string * Z)) :
  let own := filter (fun r => negb (Repo.isFork r)) rs in
  fold_left addNode rs acc
  = (fst acc + starsOf own,
     fold_left addEdge (flat_map edgesOf own) (snd acc)).
Proof.
  revert acc. induction rs as [|r rs IH]; intros [stars m]; cbv zeta.
  - cbn. f_equal. lia.
  - cbn [fold_left filter]. rewrite IH. cbv zeta.
    unfold addNode. destruct (Repo.isFork r); cbn [negb fst snd].
    + reflexivity.
    + cbn [starsOf fold_right flat_map]. rewrite fold_left_app.
      f_equal. unfold starsOf. lia.
Qed.

Lemma fold_addNode_app (rs1 rs2 : list Repo.node) (acc : Z * list (string * Z)) :
  fold_left addNode (rs1 ++ rs2) acc
  = fold_left addNode rs2 (fold_left addNode rs1 acc).
Proof. apply fold_left_app. Qed.

Section Pages.
Variable reposPage : option string -> Repo.page.

(** The loop ends exactly when it has fetched the last page. *)
Lemma pagesLoop_serves (c : option string) (ps : list Repo.page) :
  serves reposPage c ps ->
  forall fuel acc,
    pagesLoop reposPage fuel c acc
    = if (List.length ps <=? fuel)%nat
      then Some (fold_left addNode (flat_map nodesOf ps) acc)
      else None.
Proof.
  induction 1 as [c Hlast|c ps Hnext Hs IH]; intros fuel acc.
  - destruct fuel as [|f]; [reflexivity|].
    cbn [pagesLoop List.length Nat.leb flat_map]. rewrite Hlast. cbn [negb].
    rewrite app_nil_r. reflexivity.
  - destruct fuel as [|f]; [reflexivity|].
    cbn [pagesLoop List.length Nat.leb flat_map]. rewrite Hnext. cbn [negb].
    rewrite IH, fold_addNode_app. reflexivity.
Qed.

Lemma pagesLoop_endless (fuel : nat) (c : option string)
    (acc : Z * list (string * Z)) :
  (forall c', Repo.hasNextPage (reposPage c') = true) ->
  pagesLoop reposPage fuel c acc = None.
Proof.
  intros Hmore. revert c acc.
  induction fuel as [|f IH]; intros c acc; [reflexivity|].
  cbn [pagesLoop]. rewrite Hmore. cbn [negb]. apply IH.
Qed.

Lemma serves_some (c : option string) (ps : list Repo.page) :
  serves reposPage c ps -> ps <> [].
Proof. now destruct 1. Qed.
(** What the loop returns once the pages have ended. *)
Lemma fetchRepos_served (ps : list Repo.page) (fuel : nat) :
  serves reposPage None ps ->
  (List.length ps <= fuel)%nat ->
  fetchRepos reposPage fuel
  = Some (starsOf (ownNodes ps),
          fold_left addEdge (flat_map edgesOf (ownNodes ps)) []).
Proof.
  intros Hs Hfuel. unfold fetchRepos.
  rewrite (pagesLoop_serves None ps Hs).
  apply Nat.leb_le in Hfuel. rewrite Hfuel.
  rewrite fold_addNode. cbv zeta. reflexivity.
Qed.
End Pages.

End RepoFacts.

(* ------------------------------------------------------------------ *)
(** ** Escaping loses nothing *)
(* ------------------------------------------------------------------ *)

Module EscapeMore.
Import JsString JsValue EscapeSpec StringFacts.

Ltac entity_cases a :=
  unfold entity;
  let E1 := fresh "E" in let E2 := fresh "E" in let E3 := fresh "E" in
  let E4 := fresh "E" in let E5 := fresh "E" in
  destruct (Ascii.eqb a "&") eqn:E1; [|
  destruct (Ascii.eqb a "<") eqn:E2; [|
  destruct (Ascii.eqb a ">") eqn:E3; [|
  destruct (Ascii.eqb a dquote) eqn:E4; [|
  destruct (Ascii.eqb a squote) eqn:E5]]]].

(** The entities form a prefix code: a text is read back from its
    escaped form in one way only. *)
Lemma escaped_inj (s t : string) : escaped s = escaped t -> s = t.
Proof.
  revert t. induction s as [|a s IH]; intros [|b t] Heq.
  - reflexivity.
  - exfalso. cbn [escaped] in Heq. revert Heq.
    entity_cases b; cbn; discriminate.
  - exfalso. cbn [escaped] in Heq. revert Heq.
    entity_cases a; cbn; discriminate.
  - cbn [escaped] in Heq. revert Heq.
    entity_cases a; entity_cases b; cbn; intros Heq;
      repeat match goal with
             | E : Ascii.eqb _ _ = true |- _ => apply Ascii.eqb_eq in E
             end;
      subst;
      try discriminate;
      try (injection Heq as Heq; f_equal; now apply IH);
      try (injection Heq as Hc Heq; subst;
           repeat match goal with
             | E : Ascii.eqb ?x ?x = false |- _ =>
                 rewrite Ascii.eqb_refl in E; discriminate E
             end).
    f_equal. now apply IH.
Qed.

(** Number of characters an entity has more than the character it
    stands for. *)
Lemma length_entity (a : ascii) :
  String.length (entity a)
  = (1 + 4 * count "&" (String a EmptyString)
       + 3 * count "<" (String a EmptyString)
       + 3 * count ">" (String a EmptyString)
       + 5 * count dquote (String a EmptyString)
       + 5 * count squote (String a EmptyString))%nat.
Proof.
  entity_cases a;
    repeat match goal with
           | E : Ascii.eqb _ _ = true |- _ => apply Ascii.eqb_eq in E
           end; subst; try reflexivity.
  cbn [count]. rewrite E, E0, E1, E2, E3. reflexivity.
Qed.

Lemma length_app (s t : string) :
  String.length (s ++ t) = (String.length s + String.length t)%nat.
Proof. induction s as [|a s IH]; cbn; [reflexivity|now rewrite IH]. Qed.

Lemma length_escaped (s : string) :
  String.length (escaped s)
  = (String.length s + 4 * count "&" s + 3 * count "<" s + 3 * count ">" s
       + 5 * count dquote s + 5 * count squote s)%nat.
Proof.
  induction s as [|a s IH]; [reflexivity|].
  cbn [escaped]. rewrite length_app, length_entity, IH.
  change (String a s) with (String a EmptyString ++ s).
  rewrite !count_app. cbn [String.length append]. lia.
Qed.

Lemma reservedCount_length (s : string) :
  (reservedCount s
   = count "&" s + count "<" s + count ">" s + count dquote s + count squote s)%nat.
Proof.
  induction s as [|a s IH]; [reflexivity|].
  cbn [reservedCount count]. rewrite IH. unfold reserved.
  destruct (Ascii.eqb a "&") eqn:E1.
  { apply Ascii.eqb_eq in E1. subst a. cbn. lia. }
  destruct (Ascii.eqb a "<") eqn:E2.
  { apply Ascii.eqb_eq in E2. subst a. cbn. lia. }
  destruct (Ascii.eqb a ">") eqn:E3.
  { apply Ascii.eqb_eq in E3. subst a. cbn. lia. }
  destruct (Ascii.eqb a dquote) eqn:E4.
  { apply Ascii.eqb_eq in E4. subst a. cbn. lia. }
  destruct (Ascii.eqb a squote) eqn:E5.
  { apply Ascii.eqb_eq in E5. subst a. cbn. lia. }
  cbn. lia.
Qed.

Lemma escaped_plain (s : string) : reservedCount s = O -> escaped s = s.
Proof.
  induction s as [|a s IH]; [reflexivity|].
  cbn [reservedCount escaped]. intros Hc.
  destruct (reserved a) eqn:Hr; [discriminate|].
  rewrite IH by exact Hc. unfold reserved in Hr.
  repeat (apply orb_false_elim in Hr; destruct Hr as [Hr ?]).
  unfold entity.
  repeat match goal with E : Ascii.eqb _ _ = false |- _ => rewrite E; clear E end.
  reflexivity.
Qed.

Lemma escaped_fixed (s : string) : escaped s = s <-> reservedCount s = O.
Proof.
  split; [|apply escaped_plain].
  intros Heq. apply (f_equal String.length) in Heq.
  rewrite length_escaped in Heq. rewrite reservedCount_length. lia.
Qed.

End EscapeMore.

(* ------------------------------------------------------------------ *)
(** ** The first entry after sorting *)
(* ------------------------------------------------------------------ *)

Module TopFacts.
Import Github.

(** The sort puts first the earliest of the entries with the largest
    value. *)
Lemma sortDesc_first (l : list (string * Z)) :
  l <> [] ->
  exists k e rest,
    sortDesc l = e :: rest
    /\ nth_error l k = Some e
    /\ (forall j x, nth_error l j = Some x -> snd x <= snd e)
    /\ (forall j x, (j < k)%nat -> nth_error l j = Some x -> snd x < snd e).
Proof.
  induction l as [|h t IH]; [congruence|]. intros _.
  destruct t as [|h' t'].
  - exists O, h, []. cbn. repeat split.
    + intros [|[|j]] x Hx; cbn in Hx; try discriminate.
      injection Hx as <-. lia.
    + intros j x Hj. lia.
  - destruct IH as (k & e & rest & Hs & Hk & Hall & Hbefore); [discriminate|].
    cbn [sortDesc] in *. rewrite Hs. cbn [insertDesc].
    destruct (Z.ltb_spec (snd h) (snd e)) as [Hlt|Hge].
    + exists (S k), e, (insertDesc h rest). repeat split.
      * exact Hk.
      * intros [|j] x Hx; cbn in Hx.
        -- injection Hx as <-. lia.
        -- now apply (Hall j).
      * intros [|j] x Hj Hx; cbn in Hx.
        -- injection Hx as <-. exact Hlt.
        -- apply (Hbefore j); [lia|exact Hx].
    + exists O, h, (e :: rest). repeat split.
      * intros [|j] x Hx; cbn in Hx.
        -- injection Hx as <-. lia.
        -- pose proof (Hall j x Hx). lia.
      * intros j x Hj. lia.
Qed.

End TopFacts.

(* ------------------------------------------------------------------ *)
(** ** Durations *)
(* ------------------------------------------------------------------ *)

Module TimeFacts.
Import JsString JsValue JsNumber JsHost Wakatime BarFacts.

Lemma Qred_inject_Z (z : Z) : Qred (inject_Z z) = inject_Z z.
Proof.
  unfold inject_Z, Qred.
  pose proof (Z.ggcd_gcd z 1) as Hg.
  pose proof (Z.ggcd_correct_divisors z 1) as Hd.
  destruct (Z.ggcd z 1) as [g [r1 r2]]. cbn [fst snd] in *.
  rewrite Z.gcd_1_r in Hg. subst g. destruct Hd as [H1 H2].
  rewrite Z.mul_1_l in H1, H2. subst. reflexivity.
Qed.

(** A rational that is an integer is that integer as a number. *)
Lemma ofQ_Z (q : Q) (z : Z) : (q == inject_Z z)%Q -> ofQ q = ofZ z.
Proof.
  intros E. unfold ofQ, ofZ. f_equal.
  rewrite <- (Qred_inject_Z z). now apply Qred_complete.
Qed.

Lemma div_Z (n d : Z) :
  d <> 0 -> div (ofZ n) (ofZ d) = ofQ (inject_Z n / inject_Z d).
Proof.
  intros Hd. unfold div, ofZ, Qzero. cbn [Qnum inject_Z].
  now destruct (Z.eqb_spec d 0) as [|_].
Qed.

Lemma floor_div_Z (n d : Z) :
  d <> 0 -> floor (div (ofZ n) (ofZ d)) = ofZ (n / d).
Proof.
  intros Hd. rewrite div_Z by exact Hd.
  unfold ofQ. cbn [floor]. f_equal.
  rewrite (Qfloor_comp _ _ (Qred_correct _)). symmetry. apply Zdiv_Qdiv.
Qed.

Lemma Qtrunc_div (n d : Z) :
  0 < d -> Qtrunc (inject_Z n / inject_Z d) = Z.quot n d.
Proof.
  intros Hd. unfold Qtrunc.
  assert (Hq : forall k, Qfloor (inject_Z k / inject_Z d) = k / d)
    by (intros k; symmetry; apply Zdiv_Qdiv).
  assert (Hs : Qle_bool 0 (inject_Z n / inject_Z d) = (0 <=? n)).
  { destruct d as [|p|p]; try lia. unfold Qle_bool, Qdiv, Qinv, Qmult, inject_Z.
    cbn [Qnum Qden]. rewrite !Z.mul_1_r. reflexivity. }
  rewrite Hs.
  destruct (Z.leb_spec 0 n) as [Hpos|Hn].
  - rewrite Hq. symmetry. apply Z.quot_div_nonneg; lia.
  - 
    unfold Qceiling.
    assert (Ho : (- (inject_Z n / inject_Z d) == inject_Z (- n) / inject_Z d)%Q).
    { rewrite inject_Z_opp. field. intros Hz.
      assert (inject_Z 0 < inject_Z d)%Q by now rewrite <- Zlt_Qlt.
      change (inject_Z 0) with 0%Q in *. Lqa.lra. }
    rewrite (Qfloor_comp _ _ Ho), Hq.
    rewrite <- (Z.opp_involutive n) at 2. rewrite Z.quot_opp_l by lia.
    f_equal. symmetry. apply Z.quot_div_nonneg; lia.
Qed.

Lemma rem_Z (n d : Z) : 0 < d -> rem (ofZ n) (ofZ d) = ofZ (Z.rem n d).
Proof.
  intros Hd.
  transitivity (ofQ (inject_Z n - inject_Z d * inject_Z (Qtrunc (inject_Z n / inject_Z d)))).
  { unfold rem, ofZ, Qzero. cbn [Qnum inject_Z].
    now destruct (Z.eqb_spec d 0) as [|_]; [lia|]. }
  apply ofQ_Z.
  rewrite Qtrunc_div by exact Hd.
  rewrite <- inject_Z_mult. unfold Qminus. rewrite <- inject_Z_opp, <- inject_Z_plus.
  apply inject_Z_injective.
  pose proof (Z.quot_rem' n d). lia.
Qed.

Lemma leb_Z (a b : Z) : leb (ofZ a) (ofZ b) = (a <=? b).
Proof.
  unfold leb, ofZ. destruct (Z.leb_spec a b) as [Hle|Hgt].
  - apply Qle_bool_iff. now rewrite <- Zle_Qle.
  - destruct (Qle_bool (inject_Z a) (inject_Z b)) eqn:E; [|reflexivity].
    apply Qle_bool_iff in E. rewrite <- Zle_Qle in E. lia.
Qed.

Lemma eqb_Z (a b : Z) : eqb (ofZ a) (ofZ b) = (a =? b).
Proof.
  unfold eqb, ofZ. destruct (Z.eqb_spec a b) as [->|Hne].
  - apply Qeq_bool_refl.
  - destruct (Qeq_bool (inject_Z a) (inject_Z b)) eqn:E; [|reflexivity].
    apply Qeq_bool_eq in E. rewrite inject_Z_injective in E. contradiction.
Qed.

(** Rounding seconds to minutes. *)
Lemma round_div_Z (s d : Z) :
  0 < d -> round (div (ofZ s) (ofZ d)) = ofZ ((2 * s + d) / (2 * d)).
Proof.
  intros Hd. rewrite div_Z by lia.
  unfold ofQ. cbn [round]. f_equal. unfold Qround.
  rewrite Zdiv_Qdiv. apply Qfloor_comp. rewrite Qred_correct.
  rewrite inject_Z_plus, !inject_Z_mult. field.
  intros Hz. assert (inject_Z 0 < inject_Z d)%Q by now rewrite <- Zlt_Qlt.
  change (inject_Z 0) with 0%Q in *. Lqa.lra.
Qed.

Section Minutes.
Context `{Host}.

(** [fmtMinutes] on a whole number of minutes. *)
Lemma fmtMinutes_Z (n : Z) :
  fmtMinutes (ofZ n)
  = if n <? 60 then str (Z.rem n 60) ++ "m"
    else if n mod 60 =? 0 then str (n / 60) ++ "h"
    else str (n / 60) ++ "h " ++ str (n mod 60) ++ "m".
Proof.
  unfold fmtMinutes. cbv zeta.
  rewrite floor_div_Z by lia. rewrite rem_Z by lia.
  rewrite leb_Z, eqb_Z. fold (str (Z.rem n 60)) (str (n / 60)).
  destruct (Z.ltb_spec n 60) as [Hlt|Hge].
  - replace (n / 60 <=? 0) with true; [reflexivity|].
    symmetry. apply Z.leb_le. Z.div_mod_to_equations. lia.
  - replace (n / 60 <=? 0) with false
      by (symmetry; apply Z.leb_gt; Z.div_mod_to_equations; lia).
    rewrite Z.rem_mod_nonneg by lia. reflexivity.
Qed.

End Minutes.

End TimeFacts.

(* ------------------------------------------------------------------ *)
(** ** Rows and totals of the time-tracking cards *)
(* ------------------------------------------------------------------ *)

Module RowFacts.
Import JsString JsValue JsNumber JsHost Wakatime CardSpec TimeFacts.

Lemma orNum_Z (s : Z) : orNum (Some (ofZ s)) (ofZ 0) = ofZ s.
Proof.
  unfold orNum, toBoolean, ofZ, Qzero. cbn [Qnum inject_Z].
  destruct (Z.eqb_spec s 0) as [->|_]; reflexivity.
Qed.

Lemma add_Z (a b : Z) : add (ofZ a) (ofZ b) = ofZ (a + b).
Proof.
  unfold add, ofZ at 1 2. apply ofQ_Z. now rewrite inject_Z_plus.
Qed.

Lemma ltb_Z (a b : Z) : ltb (ofZ a) (ofZ b) = (a <? b).
Proof.
  pose proof (leb_Z b a) as Hl. unfold leb, ofZ in Hl.
  unfold ltb, ofZ, Qltb. rewrite Hl. now rewrite Z.ltb_antisym.
Qed.

Lemma minutes_Z (s : Z) :
  round (div (ofZ s) (ofZ 60)) = ofZ ((s + 30) / 60).
Proof.
  rewrite round_div_Z by lia. f_equal.
  replace (2 * s + 60) with (2 * (s + 30)) by lia.
  replace (2 * 60) with (2 * 60) by reflexivity.
  apply Z.div_mul_cancel_l; lia.
Qed.

Lemma sumSeconds_from (l : list Entry.t) (ss : list Z) (a : Z) :
  wholeSeconds l ss ->
  fold_left (fun acc x => add acc (orNum (Entry.total_seconds x) (ofZ 0)))
    l (ofZ a)
  = ofZ (a + sumZ ss).
Proof.
  unfold wholeSeconds. revert ss a.
  induction l as [|x l IH]; intros [|s ss] a Hm; try discriminate.
  - cbn. now rewrite Z.add_0_r.
  - cbn [map] in Hm. injection Hm as Hx Hm.
    cbn [fold_left sumZ fold_right]. rewrite Hx, orNum_Z, add_Z.
    rewrite (IH ss) by exact Hm. f_equal. unfold sumZ. lia.
Qed.

Lemma sumSeconds_Z (l : list Entry.t) (ss : list Z) :
  wholeSeconds l ss -> sumSeconds l = ofZ (sumZ ss).
Proof.
  intros Hw. unfold sumSeconds. now rewrite (sumSeconds_from l ss 0 Hw).
Qed.

Section Documents.
Context `{Host}.
Variable th : Theme.t.

Lemma time_escapeXml_spelled (v : jsval) : escapeXml (spelled v) = escapeXml v.
Proof. reflexivity. Qed.

Lemma strictEq_spelled (v : jsval) :
  strictEq (spelled v) "Other" = strictEq v "Other".
Proof. now destruct v. Qed.

Lemma svgRow_spelled (width padding headerH rowH nameX barX barW barH : Z)
    (r : Row) (i : Z) :
  svgRow th width padding headerH rowH nameX barX barW barH (rowSpelled r) i
  = svgRow th width padding headerH rowH nameX barX barW barH r i.
Proof.
  unfold svgRow, baseColorOf, fillWidth.
  cbn [rowSpelled name time percent seconds].
  now rewrite strictEq_spelled, !time_escapeXml_spelled.
Qed.

Lemma renderSvg_spelled (icon title total top : jsval) (rows : list Row) :
  renderSvg th icon title total top rows
  = renderSvg th (spelled icon) (spelled title) (spelled total) top
      (map rowSpelled rows).
Proof.
  unfold renderSvg, mapi.
  rewrite length_map, MissingFacts.mapi_from_map by apply svgRow_spelled.
  reflexivity.
Qed.
End Documents.

End RowFacts.

(* ------------------------------------------------------------------ *)
(** ** Shares of a total *)
(* ------------------------------------------------------------------ *)

Module ShareFacts.
Import JsString JsValue JsNumber JsHost DataSpec CardSpec DataFacts.

Lemma valueQ_share (weight total : Z) :
  (valueQ (share weight total) == 100 * inject_Z weight / inject_Z total)%Q.
Proof. unfold share, ofQ. cbn [valueQ]. apply Qred_correct. Qed.

Lemma inject_Z_nonzero (z : Z) : z <> 0 -> ~ (inject_Z z == 0)%Q.
Proof. intros Hz. unfold Qeq. cbn. lia. Qed.

(** The shares of the entries of a list add up to the share of their
    sum. *)
Lemma percentSum_shares (l : list (string * Z)) (total : Z) :
  total <> 0 ->
  (percentSum (map (fun e => share (snd e) total) l)
   == 100 * inject_Z (sumSizes l) / inject_Z total)%Q.
Proof.
  intros Ht. pose proof (inject_Z_nonzero total Ht) as Hq.
  induction l as [|e l IH].
  - cbn. change (inject_Z 0) with 0%Q. field. exact Hq.
  - cbn [map percentSum fold_right sumSizes].
    fold (percentSum (map (fun e => share (snd e) total) l)).
    fold (sumSizes l). rewrite IH, valueQ_share, inject_Z_plus.
    field. exact Hq.
Qed.

Lemma percentSum_whole (l : list (string * Z)) (total : Z) :
  total = (if sumSizes l =? 0 then 1 else sumSizes l) ->
  (percentSum (map (fun e => share (snd e) total) l)
   == if sumSizes l =? 0 then 0 else 100)%Q.
Proof.
  intros Ht.
  assert (Hnz : total <> 0).
  { subst total. destruct (Z.eqb_spec (sumSizes l) 0); lia. }
  rewrite (percentSum_shares l total Hnz). subst total.
  destruct (Z.eqb_spec (sumSizes l) 0) as [E|E].
  - rewrite E. change (inject_Z 0) with 0%Q. change (inject_Z 1) with 1%Q.
    field.
  - field. now apply inject_Z_nonzero.
Qed.

(** A share of a non-negative part of a positive total. *)
Lemma share_range (weight total : Z) :
  0 <= weight <= total -> 0 < total ->
  (0 <= valueQ (share weight total) <= 100)%Q.
Proof.
  intros [Hw Hle] Ht. rewrite valueQ_share.
  assert (Hp : (0 < inject_Z total)%Q) by now rewrite <- (Zlt_Qlt 0).
  assert (H0 : (0 <= inject_Z weight)%Q) by now rewrite <- (Zle_Qle 0).
  assert (H1 : (inject_Z weight <= inject_Z total)%Q) by now rewrite <- Zle_Qle.
  split.
  - apply Qle_shift_div_l; [exact Hp|]. Lqa.lra.
  - apply Qle_shift_div_r; [exact Hp|]. Lqa.lra.
Qed.

Lemma sumSizes_bound (l : list (string * Z)) (e : string * Z) :
  Forall (fun x => 0 <= snd x) l -> In e l ->
  0 <= snd e <= sumSizes l.
Proof.
  induction 1 as [|h t Hh Ht IH]; intros Hin; [contradiction|].
  assert (Hn : 0 <= sumSizes t).
  { clear -Ht. induction Ht as [|x t Hx Ht IH]; cbn [sumSizes fold_right];
      [lia|]. unfold sumSizes in IH. lia. }
  cbn [sumSizes fold_right]. fold (sumSizes t).
  destruct Hin as [<-|Hin]; [lia|]. specialize (IH Hin). lia.
Qed.

Lemma sortDesc_length (l : list (string * Z)) :
  List.length (Github.sortDesc l) = List.length l.
Proof. symmetry. apply Permutation_length, sortDesc_perm. Qed.

Lemma langEntries_count (langMap : list (string * Z)) :
  Z.of_nat (List.length (Github.langEntries langMap))
  = Z.min 10 (Z.of_nat (List.length langMap)).
Proof.
  unfold Github.langEntries. rewrite length_firstn, sortDesc_length. lia.
Qed.

End ShareFacts.

(* ------------------------------------------------------------------ *)
(** ** Where the cards draw *)
(* ------------------------------------------------------------------ *)

Module LayoutFacts.
Import JsString JsValue JsNumber JsHost CardSpec StringFacts CountFacts DrawFacts.

Section Documents.
Context `{Host}.

Lemma grid_canvas (th : Github.Theme.t) (t s o p : jsval)
    (items : list Github.GridItem) (grade : Github.Grade) :
  let height := 124 + ((Z.of_nat (List.length items) + 3 - 1) / 3) * (74 + 14) + 30 in
  infix (canvas 900 height)
        (Github.renderGridStatsCard th t s o p items grade).
Proof.
  intros height. unfold Github.renderGridStatsCard. cbv zeta. fold height.
  match goal with
  | |- infix _ (cat ?L) =>
      exact (infix_cat_mid (firstn 6 L) "" _ _ (skipn 12 L))
  end.
Qed.

Lemma grid_tile (th : Github.Theme.t) (t s o p : jsval)
    (items : list Github.GridItem) (grade : Github.Grade)
    (n : nat) (it : Github.GridItem) :
  nth_error items n = Some it ->
  infix (gridTile (tileX n) (tileY n) 272 74)
        (Github.renderGridStatsCard th t s o p items grade).
Proof.
  intros Hn.
  assert (Hbox : infix (Github.gridBox th 28 124 3 14 74 272 it (Z.of_nat n))
                   (Github.renderGridStatsCard th t s o p items grade)).
  { unfold Github.renderGridStatsCard, mapi. cbv zeta.
    eapply infix_trans; [exact (infix_join_nth nl _ items 0 n it Hn)|].
    apply infix_cat; repeat first [left; reflexivity | right]. }
  eapply infix_trans; [|exact Hbox].
  unfold Github.gridBox, tileX, tileY. cbv zeta.
  run_of_pieces 1%nat 13%nat.
Qed.





(** The arc and the percentage of the ring, in the grid card. *)
Lemma ring_drawn (th : Github.Theme.t) (t s o p : jsval)
    (items : list Github.GridItem) (grade : Github.Grade) :
  let clamped := Z.max 0 (Z.min 100 (Github.pct grade)) in
  let C := mul (mul (ofZ 2) (Fin PI)) (ofZ 26) in
  let dash := div (mul C (ofZ clamped)) (ofZ 100) in
  let gap := sub C dash in
  let doc := Github.renderGridStatsCard th t s o p items grade in
  infix (ringArc dash gap) doc /\ infix (ringPercent clamped) doc.
Proof.
  intros clamped C dash gap doc.
  assert (Hring : infix (Github.ringSvg th (900 - 28 - 46) 58 26 7
                           (Github.pct grade)
                           (Github.ringColorOf th (Github.letter grade))
                           (VStr (Github.letter grade))) doc).
  { unfold doc, Github.renderGridStatsCard. cbv zeta.
    apply infix_cat; repeat first [left; reflexivity | right]. }
  split; (eapply infix_trans; [|exact Hring]);
    unfold Github.ringSvg; cbv zeta; fold clamped C dash gap.
  - apply infix_cat; repeat first [left; reflexivity | right].
  - match goal with
    | |- infix _ (cat ?L) =>
        exact (infix_cat_mid (firstn 81 L) "" _ _ (skipn 84 L))
    end.
Qed.

End Documents.

(** The arc is the clamped share of the circumference, the gap is the
    rest of it. *)
Lemma ring_numbers (r clamped : Z) :
  0 <= r -> 0 <= clamped <= 100 ->
  let C := mul (mul (ofZ 2) (Fin PI)) (ofZ r) in
  let dash := div (mul C (ofZ clamped)) (ofZ 100) in
  let gap := sub C dash in
  let around := (2 * PI * inject_Z r)%Q in
  exists d g : Q,
    dash = Fin d /\ gap = Fin g
    /\ (d == around * inject_Z clamped / 100)%Q
    /\ (d + g == around)%Q
    /\ (0 <= d <= around)%Q /\ (0 <= g)%Q.
Proof.
  intros Hr Hc C dash gap around.
  assert (HC : C = Fin (Qred (Qred (inject_Z 2 * PI) * inject_Z r))) by reflexivity.
  set (c := Qred (Qred (inject_Z 2 * PI) * inject_Z r)) in *.
  assert (Hcq : (c == around)%Q).
  { unfold c, around. rewrite !Qred_correct. reflexivity. }
  assert (Hd : dash = Fin (Qred (Qred (c * inject_Z clamped) / inject_Z 100))).
  { unfold dash. rewrite HC. reflexivity. }
  set (d := Qred (Qred (c * inject_Z clamped) / inject_Z 100)) in *.
  assert (Hdq : (d == around * inject_Z clamped / 100)%Q).
  { unfold d. rewrite !Qred_correct, Hcq. reflexivity. }
  assert (Hg : gap = Fin (Qred (c - d))).
  { unfold gap. rewrite HC, Hd. reflexivity. }
  assert (Har : (0 <= around)%Q).
  { unfold around. assert (0 <= inject_Z r)%Q by now rewrite <- (Zle_Qle 0).
    assert (0 < PI)%Q by reflexivity. Lqa.nra. }
  assert (Hcl : (0 <= inject_Z clamped <= 100)%Q).
  { split; [now rewrite <- (Zle_Qle 0)|].
    change 100%Q with (inject_Z 100). now rewrite <- Zle_Qle. }
  assert (Hdr : (0 <= d <= around)%Q).
  { rewrite Hdq. split.
    - apply Qle_shift_div_l; [reflexivity|]. Lqa.nra.
    - apply Qle_shift_div_r; [reflexivity|]. Lqa.nra. }
  exists d, (Qred (c - d)). repeat split; try assumption; try apply Hdr.
  - rewrite Qred_correct, Hcq. Lqa.lra.
  - rewrite Qred_correct, Hcq. Lqa.lra.
Qed.

(** Tiles of the grid: inside the canvas, and apart from each other. *)
Lemma tile_inside (n len : nat) :
  (n < len)%nat ->
  let height := 124 + ((Z.of_nat len + 3 - 1) / 3) * (74 + 14) + 30 in
  28 <= tileX n /\ tileX n + 272 <= 900 - 28
  /\ 124 <= tileY n /\ tileY n + 74 <= height - 30.
Proof.
  intros Hn height. unfold height, tileX, tileY.
  Z.div_mod_to_equations. lia.
Qed.

Lemma tiles_apart_grid (n m : nat) :
  n <> m -> apart 272 74 (tileX n) (tileY n) (tileX m) (tileY m).
Proof.
  intros Hne. unfold apart, tileX, tileY.
  assert (Hz : Z.of_nat n <> Z.of_nat m) by lia.
  Z.div_mod_to_equations. lia.
Qed.

End LayoutFacts.

(* ------------------------------------------------------------------ *)
(** ** Where the texts are drawn *)
(* ------------------------------------------------------------------ *)

Module PlaceFacts.
Import JsString JsValue JsNumber JsHost EscapeSpec TextSpec.
Import StringFacts CountFacts.

(** The element content made of the pieces [n], [n + 1] and [n + 2] of a
    template. *)
Ltac content_at n :=
  match goal with
  | |- infix _ (cat ?L) =>
      exact (infix_cat_mid (firstn n L) "" _ _ (skipn (3 + n) L))
  end.

Ltac piece_of := apply infix_cat; repeat first [ left; reflexivity | right ].

Lemma githubShown_code (v : jsval) : Github.escapeXml v = githubShown v.
Proof. apply GithubEscape.escapeXml_escaped. Qed.

Lemma wakatimeShown_code (v : jsval) : Wakatime.escapeXml v = wakatimeShown v.
Proof. apply WakatimeEscape.time_escapeXml_escaped. Qed.

Lemma Forall_flat_map {A B : Type} (P : B -> Prop) (f : A -> list B)
    (l : list A) :
  (forall x, In x l -> Forall P (f x)) -> Forall P (flat_map f l).
Proof.
  induction l as [|x l IH]; intros Hall; cbn [flat_map]; [constructor|].
  apply Forall_app. split; [apply Hall; now left|].
  apply IH. intros y Hy. apply Hall. now right.
Qed.

Section Documents.
Context `{Host}.

Lemma bars_row_in (th : Github.Theme.t) (t s o p : jsval)
    (rows : list Github.MetricRow) (r : Github.MetricRow) :
  In r rows ->
  exists i,
    infix (Github.barsRow th 900 28 124 34 (28 + 46) 380
             (900 - 380 - 28 - 82) 10 r i)
          (Github.renderBarsCard th t s o p rows).
Proof.
  intros Hin. unfold Github.renderBarsCard, mapi. cbv zeta.
  destruct (infix_join nl
              (Github.barsRow th 900 28 124 34 (28 + 46) 380
                 (900 - 380 - 28 - 82) 10) r rows 0 Hin) as (i & _ & Hi).
  exists i. eapply infix_trans; [exact Hi|]. piece_of.
Qed.

Lemma bars_elements (th : Github.Theme.t) (t s o p : jsval)
    (rows : list Github.MetricRow) :
  let doc := Github.renderBarsCard th t s o p rows in
  infix (labelled (githubShown t)) doc
  /\ Forall (fun v => infix (textElement (githubShown v)) doc)
            (barsElements t s o p rows).
Proof.
  intros doc. split.
  { rewrite <- githubShown_code. unfold doc, Github.renderBarsCard.
    cbv zeta. piece_of. }
  unfold barsElements. apply Forall_app. split.
  - unfold doc, Github.renderBarsCard. cbv zeta.
    repeat constructor; rewrite <- githubShown_code.
    + content_at 41%nat.
    + content_at 59%nat.
    + content_at 79%nat.
    + content_at 99%nat.
  - apply Forall_flat_map. intros r Hin.
    destruct (bars_row_in th t s o p rows r Hin) as (i & Hrow).
    unfold GithubSpec.rowTexts.
    repeat constructor; rewrite <- githubShown_code;
      (eapply infix_trans; [|exact Hrow]);
      unfold Github.barsRow; cbv zeta.
    + content_at 44%nat.
    + content_at 64%nat.
Qed.

Lemma grid_box_in (th : Github.Theme.t) (t s o p : jsval)
    (items : list Github.GridItem) (grade : Github.Grade)
    (it : Github.GridItem) :
  In it items ->
  exists i,
    infix (Github.gridBox th 28 124 3 14 74
             ((900 - 28 * 2 - 14 * (3 - 1)) / 3) it i)
          (Github.renderGridStatsCard th t s o p items grade).
Proof.
  intros Hin. unfold Github.renderGridStatsCard, mapi. cbv zeta.
  destruct (infix_join nl
              (Github.gridBox th 28 124 3 14 74
                 ((900 - 28 * 2 - 14 * (3 - 1)) / 3)) it items 0 Hin)
    as (i & _ & Hi).
  exists i. eapply infix_trans; [exact Hi|]. piece_of.
Qed.

Lemma grid_elements (th : Github.Theme.t) (t s o p : jsval)
    (items : list Github.GridItem) (grade : Github.Grade) :
  let doc := Github.renderGridStatsCard th t s o p items grade in
  infix (labelled (githubShown t)) doc
  /\ Forall (fun v => infix (textElement (githubShown v)) doc)
            (gridElements t s o p items grade).
Proof.
  intros doc. split.
  { rewrite <- githubShown_code. unfold doc, Github.renderGridStatsCard.
    cbv zeta. piece_of. }
  unfold gridElements. apply Forall_app. split.
  - repeat constructor; rewrite <- githubShown_code.
    1-4: unfold doc, Github.renderGridStatsCard; cbv zeta.
    + content_at 41%nat.
    + content_at 59%nat.
    + content_at 77%nat.
    + content_at 97%nat.
    + eapply infix_trans with
        (Github.ringSvg th (900 - 28 - 46) 58 26 7 (Github.pct grade)
           (Github.ringColorOf th (Github.letter grade))
           (VStr (Github.letter grade))).
      * unfold Github.ringSvg. cbv zeta. content_at 61%nat.
      * unfold doc, Github.renderGridStatsCard. cbv zeta. piece_of.
  - apply Forall_flat_map. intros it Hin.
    destruct (grid_box_in th t s o p items grade it Hin) as (i & Hbox).
    unfold GithubSpec.itemTexts.
    repeat constructor; rewrite <- githubShown_code;
      (eapply infix_trans; [|exact Hbox]);
      unfold Github.gridBox; cbv zeta.
    + content_at 53%nat.
    + content_at 71%nat.
Qed.

Lemma time_row_in (th : Wakatime.Theme.t) (ic t o p : jsval)
    (rows : list Wakatime.Row) (r : Wakatime.Row) :
  In r rows ->
  exists i,
    infix (Wakatime.svgRow th 900 28 112 34 (28 + 46) 380
             (900 - 380 - 28 - 82) 10 r i)
          (Wakatime.renderSvg th ic t o p rows).
Proof.
  intros Hin. unfold Wakatime.renderSvg, mapi. cbv zeta.
  destruct (infix_join nl
              (Wakatime.svgRow th 900 28 112 34 (28 + 46) 380
                 (900 - 380 - 28 - 82) 10) r rows 0 Hin) as (i & _ & Hi).
  exists i. eapply infix_trans; [exact Hi|]. piece_of.
Qed.

Lemma time_elements (th : Wakatime.Theme.t) (ic t o p : jsval)
    (rows : list Wakatime.Row) :
  let doc := Wakatime.renderSvg th ic t o p rows in
  infix (labelled (wakatimeShown t)) doc
  /\ Forall (fun v => infix (textElement (wakatimeShown v)) doc)
            (svgElements ic t o p rows).
Proof.
  intros doc. split.
  { rewrite <- wakatimeShown_code. unfold doc, Wakatime.renderSvg.
    cbv zeta. piece_of. }
  unfold svgElements. apply Forall_app. split.
  - unfold doc, Wakatime.renderSvg. cbv zeta.
    repeat constructor; rewrite <- wakatimeShown_code.
    + content_at 149%nat.
    + content_at 185%nat.
    + content_at 205%nat.
  - apply Forall_flat_map. intros r Hin.
    destruct (time_row_in th ic t o p rows r Hin) as (i & Hrow).
    unfold WakatimeSpec.rowTexts.
    repeat constructor; rewrite <- wakatimeShown_code;
      (eapply infix_trans; [|exact Hrow]);
      unfold Wakatime.svgRow; cbv zeta.
    + content_at 45%nat.
    + content_at 63%nat.
Qed.

(** The percentage of row [n] of a bar card, as its element holds it. *)
Lemma bars_percent_drawn (th : Github.Theme.t) (t s o p : jsval)
    (rows : list Github.MetricRow) (n : nat) (r : Github.MetricRow) :
  nth_error rows n = Some r ->
  infix (percentText (toFixed (Github.percent r) 2))
        (Github.renderBarsCard th t s o p rows).
Proof.
  intros Hn.
  assert (Hrow : infix (Github.barsRow th 900 28 124 34 74 380 410 10 r
                          (Z.of_nat n))
                   (Github.renderBarsCard th t s o p rows)).
  { unfold Github.renderBarsCard, mapi. cbv zeta.
    eapply infix_trans; [exact (infix_join_nth nl _ rows 0 n r Hn)|].
    piece_of. }
  eapply infix_trans; [|exact Hrow].
  unfold Github.barsRow. cbv zeta. content_at 121%nat.
Qed.

End Documents.

End PlaceFacts.

(* ------------------------------------------------------------------ *)
(** ** What the slice keeps and what it drops *)
(* ------------------------------------------------------------------ *)

Module SliceFacts.
Import JsString JsValue JsNumber JsHost DataSpec YearSpec DataFacts.

Lemma descending_app (l1 l2 : list (string * Z)) :
  descending (l1 ++ l2) ->
  Forall (fun e' => Forall (fun e => snd e' <= snd e) l1) l2.
Proof.
  unfold descending. induction l1 as [|h t IH]; cbn [app]; intros Hs.
  - apply Forall_forall. intros e' _. constructor.
  - inversion Hs as [|a l Ht Hh]; subst.
    specialize (IH Ht). rewrite Forall_forall in IH, Hh |- *.
    intros e' He'. constructor.
    + apply Hh. apply in_or_app. now right.
    + now apply IH.
Qed.

(** The entries shown and the entries dropped are the entries of the
    mapping, each as often as it is there, and no dropped one is larger
    than a shown one. *)
Lemma langEntries_split (langMap : list (string * Z)) :
  exists dropped,
    Permutation langMap (Github.langEntries langMap ++ dropped)
    /\ Forall (fun e' => Forall (fun e => snd e' <= snd e)
                           (Github.langEntries langMap)) dropped.
Proof.
  exists (skipn 10 (Github.sortDesc langMap)). unfold Github.langEntries.
  split.
  - rewrite firstn_skipn. apply sortDesc_perm.
  - apply descending_app. rewrite firstn_skipn. apply sortDesc_descending.
Qed.

Lemma langEntries_min (langMap : list (string * Z)) :
  List.length (Github.langEntries langMap)
  = Nat.min 10 (List.length langMap).
Proof.
  unfold Github.langEntries. rewrite length_firstn. f_equal.
  symmetry. apply Permutation_length, sortDesc_perm.
Qed.

Lemma langRows_min `{Host} (langMap : list (string * Z)) :
  List.length (Github.langRows langMap) = Nat.min 10 (List.length langMap).
Proof.
  unfold Github.langRows. cbv zeta. rewrite length_map.
  apply langEntries_min.
Qed.

Lemma toRows_min `{Host} (l : list Wakatime.Entry.t) (limit : nat) :
  List.length (Wakatime.toRows l limit) = Nat.min limit (List.length l).
Proof. unfold Wakatime.toRows. now rewrite length_map, length_firstn. Qed.

(** The loop variable takes the years one by one. *)
Lemma yearsFrom_seq (y : Z) (n : nat) :
  Github.yearsFrom y n = map (fun k => y + Z.of_nat k) (seq 0 n).
Proof.
  revert y. induction n as [|n IH]; intros y; [reflexivity|].
  cbn [Github.yearsFrom seq map]. rewrite Z.add_0_r. f_equal.
  rewrite IH, <- seq_shift, map_map. apply map_ext. intros k. lia.
Qed.

Lemma loopYears_between (endYear : Z) :
  Github.loopYears endYear = yearsBetween 2021 endYear.
Proof. unfold Github.loopYears, yearsBetween. apply yearsFrom_seq. Qed.

Lemma yearsBetween_In (a b y : Z) : In y (yearsBetween a b) <-> a <= y <= b.
Proof.
  unfold yearsBetween. rewrite in_map_iff. split.
  - intros (k & <- & Hk). apply in_seq in Hk. lia.
  - intros Hy. exists (Z.to_nat (y - a)). split; [lia|].
    apply in_seq. lia.
Qed.

Lemma yearsBetween_length (a b : Z) :
  List.length (yearsBetween a b) = Z.to_nat (b - a + 1).
Proof. unfold yearsBetween. now rewrite length_map, length_seq. Qed.

End SliceFacts.

(* ================================================================== *)
(** * Part III: the properties of the specification *)
(* ================================================================== *)

Import JsString JsValue JsNumber JsHost JsDate.
Import EscapeSpec BarSpec DataSpec WindowSpec GradeSpec MissingSpec Samples.
Import TextSpec.

(** C1. For raw, non-negative counts [computeGrade] returns the score
    [0.35*norm(commits) + 0.20*norm(prs) + 0.10*norm(issues)
     + 0.10*norm(reviews) + 0.15*norm(stars) + 0.10*norm(repos)]
    with [norm(x) = min(1, log(1+x)/log(1+t))] over the targets
    4000, 200, 200, 250, 300 and 60, the [norm] of the code being that
    one for every target, and 0 for the target 0; [pct]
    is that score times 100, rounded to the nearest integer; [letter] is
    the step function of [pct] with the thresholds 85, 70, 55 and 40, exact
    at the boundaries; and between any two grades the letter does not
    decrease when [pct] does not. *)
Theorem C1_computeGrade (commits prs issues reviews stars repos : R) :
  (0 <= commits)%R -> (0 <= prs)%R -> (0 <= issues)%R ->
  (0 <= reviews)%R -> (0 <= stars)%R -> (0 <= repos)%R ->
  let g := Github.computeGrade commits prs issues reviews stars repos in
  Github.score g = scoreOf commits prs issues reviews stars repos
  /\ (forall x t : R, (0 <= x)%R -> (0 <= t)%R -> Github.norm x t = normOf x t)
  /\ rounds (Github.score g * 100) (Github.pct g)
  /\ stepLetter (Github.pct g) (Github.letter g)
  /\ (forall c' p' i' r' s' o' : R,
        let g' := Github.computeGrade c' p' i' r' s' o' in
        Github.pct g <= Github.pct g' ->
        (letterRank (Github.letter g) <= letterRank (Github.letter g'))%nat).
Proof.
  intros Hc Hp Hi Hr Hs Ho g.
  split; [now apply GradeFacts.score_code|].
  split; [exact GradeFacts.norm_code|].
  split; [apply GradeFacts.Math_round_rounds|].
  split; [apply GradeFacts.letterOf_step|].
  intros c' p' i' r' s' o' g' Hle.
  now apply GradeFacts.letterOf_mono.
Qed.

(** Scenario A of the specification: 4000 commits and 200 pull requests
    alone give the score 0.55, 55 percent and the letter B. *)
Lemma C1_computeGrade_witness :
  let g := Github.computeGrade 4000 200 0 0 0 0 in
  Github.score g = 0.55%R /\ Github.pct g = 55 /\ Github.letter g = "B".
Proof.
  intros g.
  destruct (C1_computeGrade 4000 200 0 0 0 0
              ltac:(lra) ltac:(lra) ltac:(lra) ltac:(lra) ltac:(lra) ltac:(lra))
    as (Hs & _ & Hr & Hl & _).
  fold g in Hs, Hr, Hl.
  assert (Hscore : Github.score g = 0.55%R).
  { rewrite Hs. unfold scoreOf.
    rewrite !GradeFacts.normOf_full by lra. rewrite !GradeFacts.normOf_none. lra. }
  assert (Hpct : Github.pct g = 55).
  { apply (GradeFacts.rounds_unique (Github.score g * 100)); [exact Hr|].
    rewrite Hscore. unfold rounds. lra. }
  split; [exact Hscore|]. split; [exact Hpct|].
  rewrite Hpct in Hl. now apply Hl.
Defined.

(** C2. Every text a card embeds goes through [escapeXml], which replaces
    each [&], [<], [>], double quote and apostrophe by its entity.  So two
    cards that differ in their texts only have as many raw [<], [>],
    double quotes and apostrophes, and they differ in their number of [&]
    by the number of reserved characters of their texts, each of which
    gave one entity.  And every text is in the document in its escaped
    form, at its place: the title in the label attribute of each card, and
    the title, the subtitle, the total, the top label, the letter of the
    grade and the name and value, or time, of every row and tile as the
    content of a text element. *)
Theorem C2_texts_escaped `{Host}
    (gth : Github.Theme.t) (wth : Wakatime.Theme.t)
    (t1 s1 o1 p1 i1 t2 s2 o2 p2 i2 : jsval)
    (rows1 rows2 : list Github.MetricRow)
    (items1 items2 : list Github.GridItem) (g1 g2 : Github.Grade)
    (times1 times2 : list Wakatime.Row) :
  Forall2 GithubSpec.samePercent rows1 rows2 ->
  List.length items1 = List.length items2 ->
  GithubSpec.sameRing gth g1 g2 ->
  Forall2 WakatimeSpec.sameDrawing times1 times2 ->
  let bars1 := Github.renderBarsCard gth t1 s1 o1 p1 rows1 in
  let bars2 := Github.renderBarsCard gth t2 s2 o2 p2 rows2 in
  let grid1 := Github.renderGridStatsCard gth t1 s1 o1 p1 items1 g1 in
  let grid2 := Github.renderGridStatsCard gth t2 s2 o2 p2 items2 g2 in
  let svg1 := Wakatime.renderSvg wth i1 t1 o1 p1 times1 in
  let svg2 := Wakatime.renderSvg wth i2 t2 o2 p2 times2 in
  (forall v, Github.escapeXml v = escaped (ToString (nullish v (VStr ""))))
  /\ (forall v, Wakatime.escapeXml v = escaped (ToString v))
  /\ (forall s c, markup c = true -> count c (escaped s) = O)
  /\ (forall s, count "&" (escaped s) = reservedCount s)
  /\ sameMarkup bars1 bars2
  /\ sameMarkup grid1 grid2
  /\ sameMarkup svg1 svg2
  /\ (count "&" bars1 + GithubSpec.reservedIn (GithubSpec.barsTexts t2 s2 o2 p2 rows2)
      = count "&" bars2 + GithubSpec.reservedIn (GithubSpec.barsTexts t1 s1 o1 p1 rows1))%nat
  /\ (count "&" grid1 + GithubSpec.reservedIn (GithubSpec.gridTexts t2 s2 o2 p2 items2 g2)
      = count "&" grid2 + GithubSpec.reservedIn (GithubSpec.gridTexts t1 s1 o1 p1 items1 g1))%nat
  /\ (count "&" svg1 + WakatimeSpec.reservedIn (WakatimeSpec.svgTexts i2 t2 o2 p2 times2)
      = count "&" svg2 + WakatimeSpec.reservedIn (WakatimeSpec.svgTexts i1 t1 o1 p1 times1))%nat
  /\ (forall r, In r rows1 -> infix (Github.escapeXml (Github.name r)) bars1)
  /\ (forall r, In r times1 -> infix (Wakatime.escapeXml (Wakatime.name r)) svg1)
  /\ infix (labelled (githubShown t1)) bars1
  /\ Forall (fun v => infix (textElement (githubShown v)) bars1)
            (barsElements t1 s1 o1 p1 rows1)
  /\ infix (labelled (githubShown t1)) grid1
  /\ Forall (fun v => infix (textElement (githubShown v)) grid1)
            (gridElements t1 s1 o1 p1 items1 g1)
  /\ infix (labelled (wakatimeShown t1)) svg1
  /\ Forall (fun v => infix (textElement (wakatimeShown v)) svg1)
            (svgElements i1 t1 o1 p1 times1).
Proof.
  intros Hrows Hitems Hring Htimes bars1 bars2 grid1 grid2 svg1 svg2.
  split; [exact GithubEscape.escapeXml_escaped|].
  split; [exact WakatimeEscape.time_escapeXml_escaped|].
  split; [intros s c Hc; now apply StringFacts.count_escaped_markup|].
  split; [exact StringFacts.count_escaped_amp|].
  split.
  { intros c Hc.
    pose proof (GithubEscape.renderBarsCard_texts gth c t1 s1 o1 p1 t2 s2 o2 p2
                  rows1 rows2 Hrows) as E.
    rewrite !GithubEscape.embedded_markup in E by exact Hc.
    unfold bars1, bars2. lia. }
  split.
  { intros c Hc.
    pose proof (GithubEscape.renderGridStatsCard_texts gth c t1 s1 o1 p1
                  t2 s2 o2 p2 items1 items2 g1 g2 Hitems Hring) as E.
    rewrite !GithubEscape.embedded_markup in E by exact Hc.
    unfold grid1, grid2. lia. }
  split.
  { intros c Hc.
    pose proof (WakatimeEscape.renderSvg_texts wth c i1 t1 o1 p1 i2 t2 o2 p2
                  times1 times2 Htimes) as E.
    rewrite !WakatimeEscape.time_embedded_markup in E by exact Hc.
    unfold svg1, svg2. lia. }
  split.
  { rewrite <- !GithubEscape.embedded_amp.
    apply GithubEscape.renderBarsCard_texts, Hrows. }
  split.
  { rewrite <- !GithubEscape.embedded_amp.
    now apply GithubEscape.renderGridStatsCard_texts. }
  split.
  { rewrite <- !WakatimeEscape.time_embedded_amp.
    apply WakatimeEscape.renderSvg_texts, Htimes. }
  split; [intros r Hr; now apply EmbedFacts.github_name_embedded|].
  split; [intros r Hr; now apply EmbedFacts.wakatime_name_embedded|].
  destruct (PlaceFacts.bars_elements gth t1 s1 o1 p1 rows1) as [Hbl Hbe].
  destruct (PlaceFacts.grid_elements gth t1 s1 o1 p1 items1 g1) as [Hgl Hge].
  destruct (PlaceFacts.time_elements wth i1 t1 o1 p1 times1) as [Hsl Hse].
  repeat split; assumption.
Qed.

(** A row and a tile named by the script text: the bar card has the raw
    markup of the card without texts, and each card holds the text, its
    five characters as entities, as the content of a text element. *)
Lemma C2_texts_escaped_witness :
  let doc :=
    Github.renderBarsCard (H := refHost) Github.theme
      (VStr "Languages") (VStr "Updated hourly") (VStr "Total: 1 langs")
      (VStr "Top: x") [scriptRow] in
  let bare :=
    Github.renderBarsCard (H := refHost) Github.theme
      (VStr "") (VStr "") (VStr "") (VStr "") [plainRow] in
  let grid :=
    Github.renderGridStatsCard (H := refHost) Github.theme
      (VStr "Languages") (VStr "Updated hourly") (VStr "Total: 1 langs")
      (VStr "Top: x") [scriptItem] gradeB in
  let svg :=
    Wakatime.renderSvg (H := refHost) Wakatime.theme
      (VStr "i") (VStr "Languages") (VStr "Total: 1 langs") (VStr "Top: x")
      [scriptTime] in
  sameMarkup doc bare
  /\ infix "&lt;script&gt;&amp;&quot;&apos;" doc
  /\ infix (textElement "&lt;script&gt;&amp;&quot;&apos;") doc
  /\ infix (textElement "&lt;script&gt;&amp;&quot;&apos;") grid
  /\ infix (textElement "&lt;script&gt;&amp;&quot;&apos;") svg.
Proof.
  intros doc bare grid svg.
  destruct (C2_texts_escaped (H := refHost) Github.theme Wakatime.theme
              (VStr "Languages") (VStr "Updated hourly") (VStr "Total: 1 langs")
              (VStr "Top: x") (VStr "i")
              (VStr "") (VStr "") (VStr "") (VStr "") (VStr "")
              [scriptRow] [plainRow] [scriptItem] [plainItem] gradeB gradeB
              [scriptTime] [plainTime])
    as (_ & _ & _ & _ & Hbars & _ & _ & _ & _ & _ & Hname & _
        & _ & Hbe & _ & Hge & _ & Hse).
  - constructor; [reflexivity|constructor].
  - reflexivity.
  - split; reflexivity.
  - constructor; [split; reflexivity|constructor].
  - split; [exact Hbars|].
    split; [exact (Hname scriptRow (or_introl eq_refl))|].
    rewrite Forall_forall in Hbe, Hge, Hse.
    split; [exact (Hbe (Github.name scriptRow) ltac:(cbn; tauto))|].
    split; [exact (Hge (Github.label scriptItem) ltac:(cbn; tauto))|].
    exact (Hse (Wakatime.name scriptTime) ltac:(cbn; tauto)).
Defined.

(** C4, as amended.  In the language card the percentage of a row is
    [100 * weight / totalWeight] where [totalWeight] is the sum of the
    weights of the rows that are shown, the ten largest (and one when
    that sum is zero): not the sum over the full set of languages.  The
    time-tracking rows do not divide at all: [toRows] reports the
    percentage the service gave for the entry, and zero when there is
    none. *)
Theorem C4_percent_denominators `{Host}
    (langMap : list (string * Z))
    (entries : list Wakatime.Entry.t) (limit : nat) :
  let shown := firstn 10 (Github.sortDesc langMap) in
  Github.langRows langMap
  = map (fun e =>
           {| Github.name := VStr (fst e);
              Github.valueText := VStr (Github.humanBytes (snd e));
              Github.percent := share (snd e) (shownTotal shown) |})
        shown
  /\ map Wakatime.percent (Wakatime.toRows entries limit)
     = map ownPercent (firstn limit entries).
Proof.
  intros shown. split.
  - apply DataFacts.langRows_map.
  - apply DataFacts.toRows_percent.
Qed.

(** Eleven languages of one byte each: every row shows 10 percent, a
    tenth of the ten rows shown, where the full set would give
    100/11.  Two time-tracking entries of 60 and 120 seconds that the
    service rates 25 and 50 percent: the rows say 25 and 50, where the
    sum over the list would give 100/3 and 200/3. *)
Lemma C4_counterexample :
  map Github.percent (Github.langRows (H := refHost) elevenLanguages)
  <> map (fun e => share (snd e) (sumSizes elevenLanguages))
         (Github.langEntries elevenLanguages)
  /\ map Wakatime.percent (Wakatime.toRows (H := refHost) ascendingEntries 10)
     <> [share 60 (60 + 120); share 120 (60 + 120)].
Proof. split; vm_compute; discriminate. Qed.

(** C5, as amended.  Row derivation never returns more than ten rows.
    The rows of the language card are the ten largest categories of the
    mapping in descending order of weight: as many rows as categories, up
    to ten, one for each category shown; the categories shown and the
    categories dropped are those of the mapping, each once, and no dropped
    one is larger than a shown one.  The rows of a time-tracking card are
    the first ten entries of the list in the order of the list: [toRows]
    does not sort. *)
Theorem C5_rows_limited `{Host}
    (langMap : list (string * Z)) (entries : list Wakatime.Entry.t) :
  let shown := Github.langEntries langMap in
  (List.length (Github.langRows langMap) <= 10)%nat
  /\ map Github.name (Github.langRows langMap) = map (fun e => VStr (fst e)) shown
  /\ descending shown
  /\ (forall e, In e shown -> In e langMap)
  /\ (forall e e', In e shown -> In e' langMap -> ~ In e' shown ->
        List.length shown = 10%nat /\ snd e' <= snd e)
  /\ (List.length (Wakatime.toRows entries 10) <= 10)%nat
  /\ map Wakatime.name (Wakatime.toRows entries 10)
     = map Wakatime.Entry.name (firstn 10 entries)
  /\ List.length (Github.langRows langMap) = Nat.min 10 (List.length langMap)
  /\ List.length shown = Nat.min 10 (List.length langMap)
  /\ (exists dropped,
        Permutation langMap (shown ++ dropped)
        /\ Forall (fun e' => Forall (fun e => snd e' <= snd e) shown) dropped)
  /\ List.length (Wakatime.toRows entries 10)
     = Nat.min 10 (List.length entries)
  /\ map Wakatime.seconds (Wakatime.toRows entries 10)
     = map (fun x => orNum (Wakatime.Entry.total_seconds x) (ofZ 0))
           (firstn 10 entries).
Proof.
  intros shown.
  split.
  { unfold Github.langRows. cbv zeta. rewrite length_map.
    apply DataFacts.langEntries_length. }
  split; [rewrite DataFacts.langRows_map, map_map; reflexivity|].
  split; [apply DataFacts.langEntries_descending|].
  split; [apply DataFacts.langEntries_incl|].
  split; [intros e e' He He' Hout; now apply DataFacts.langEntries_largest|].
  split; [apply DataFacts.toRows_length|].
  split; [apply DataFacts.toRows_name|].
  split; [apply SliceFacts.langRows_min|].
  split; [apply SliceFacts.langEntries_min|].
  split; [apply SliceFacts.langEntries_split|].
  split; [apply SliceFacts.toRows_min|].
  unfold Wakatime.toRows. rewrite map_map. reflexivity.
Qed.

(** Two entries, the smaller one first: the rows keep that order. *)
Lemma C5_counterexample :
  ~ descendingNumbers
      (map Wakatime.seconds (Wakatime.toRows (H := refHost) ascendingEntries 10)).
Proof.
  vm_compute. intros Hs. inversion Hs as [|a l _ Hall]; subst.
  inversion Hall as [|b m Hb _]; subst. discriminate Hb.
Qed.

(** Scenario C of the specification: the mapping A: 300, B: 100, C: 0
    gives the rows A at 75, B at 25 and C at 0 percent. *)
Example scenario_C :
  map (fun r => (Github.name r, Github.percent r))
      (Github.langRows (H := refHost) [("A", 300); ("B", 100); ("C", 0)])
  = [(VStr "A", ofZ 75); (VStr "B", ofZ 25); (VStr "C", ofZ 0)].
Proof. reflexivity. Qed.

(** C6. When the total weight is zero, the weights being counts or sizes
    and so not negative, row derivation divides by one instead and returns
    its rows as ever: a row for each language shown, at 0 bytes, and the
    four rows of the activity card, every one with the percentage 0, a
    number and not [NaN], and a filled bar of width 0.  The card drawn
    from these rows holds for each row a filled bar of width 0 at the
    place of the row, and the percentage 0 printed to two decimals. *)
Theorem C6_zero_total `{Host}
    (langMap : list (string * Z)) (commits prs issues reviews : Z) :
  Forall (fun e => 0 <= snd e) langMap ->
  sumSizes (Github.langEntries langMap) = 0 ->
  0 <= commits -> 0 <= prs -> 0 <= issues -> 0 <= reviews ->
  commits + prs + issues + reviews = 0 ->
  let contribTotal := commits + prs + issues + reviews in
  let langs := Github.langRows langMap in
  let activity := Github.makeActivityRows commits prs issues reviews contribTotal in
  Forall (fun r => Github.percent r = Fin 0 /\ Github.fillWidth 410 r = Fin 0)
         langs
  /\ Forall (fun r => Github.percent r = Fin 0 /\ Github.fillWidth 410 r = Fin 0)
            activity
  /\ langs = map (fun e => zeroRow (fst e) (str 0 ++ " B"))
                 (Github.langEntries langMap)
  /\ List.length langs = Nat.min 10 (List.length langMap)
  /\ activity
     = [ zeroRow "Commits" (Github.fmtNumber 0);
         zeroRow "Pull Requests" (Github.fmtNumber 0);
         zeroRow "Issues" (Github.fmtNumber 0);
         zeroRow "Reviews" (Github.fmtNumber 0) ]
  /\ (forall th title subtitleLeft totalText topText rows n r,
        rows = langs \/ rows = activity ->
        nth_error rows n = Some r ->
        let doc :=
          Github.renderBarsCard th title subtitleLeft totalText topText rows in
        let y := 124 + Z.of_nat n * 34 in
        infix (githubFill 380 (y - 12) (Fin 0) 10
                 (Github.barCycle th (Z.of_nat n))) doc
        /\ infix (percentText (toFixed (Fin 0) 2)) doc).
Proof.
  intros Hpos Hsum Hc Hp Hi Hr Htot contribTotal langs activity.
  assert (Hbar : forall r, Github.percent r = Fin 0 ->
                   Github.percent r = Fin 0 /\ Github.fillWidth 410 r = Fin 0).
  { intros r Hr0. split; [exact Hr0|].
    unfold Github.fillWidth. cbv zeta. rewrite Hr0. reflexivity. }
  assert (Hz : Forall (fun e => snd e = 0) (Github.langEntries langMap)).
  { apply DataFacts.sumSizes_zero; [|exact Hsum].
    apply Forall_forall. intros x Hx.
    rewrite Forall_forall in Hpos. apply Hpos.
    now apply DataFacts.langEntries_incl. }
  assert (Hlangs : langs = map (fun e => zeroRow (fst e) (str 0 ++ " B"))
                             (Github.langEntries langMap)).
  { unfold langs. rewrite DataFacts.langRows_map. apply map_ext_in.
    intros e He. rewrite Forall_forall in Hz. rewrite (Hz e He).
    unfold zeroRow.
    now rewrite DataFacts.share_zero by apply DataFacts.shownTotal_nonzero. }
  assert (Hact : activity
                 = [ zeroRow "Commits" (Github.fmtNumber 0);
                     zeroRow "Pull Requests" (Github.fmtNumber 0);
                     zeroRow "Issues" (Github.fmtNumber 0);
                     zeroRow "Reviews" (Github.fmtNumber 0) ]).
  { unfold activity, contribTotal.
    rewrite DataFacts.makeActivityRows_map. cbv zeta.
    assert (commits = 0 /\ prs = 0 /\ issues = 0 /\ reviews = 0)
      as (-> & -> & -> & ->) by lia.
    cbn [map fst snd Z.add Z.eqb]. unfold zeroRow.
    now rewrite (DataFacts.share_zero 1) by lia. }
  assert (Hl0 : Forall (fun r => Github.percent r = Fin 0) langs).
  { rewrite Hlangs. apply Forall_forall. intros r Hin.
    apply in_map_iff in Hin. now destruct Hin as (e & <- & _). }
  assert (Ha0 : Forall (fun r => Github.percent r = Fin 0) activity).
  { rewrite Hact. repeat constructor. }
  split.
  { eapply Forall_impl; [|exact Hl0]. exact Hbar. }
  split.
  { eapply Forall_impl; [|exact Ha0]. exact Hbar. }
  split; [exact Hlangs|].
  split; [apply SliceFacts.langRows_min|].
  split; [exact Hact|].
  intros th title subtitleLeft totalText topText rows n r Hrows Hn doc y.
  assert (Hr0 : Github.percent r = Fin 0).
  { apply nth_error_In in Hn.
    destruct Hrows as [->| ->];
      [rewrite Forall_forall in Hl0; now apply Hl0
      |rewrite Forall_forall in Ha0; now apply Ha0]. }
  destruct (Hbar r Hr0) as [_ Hfill].
  destruct (DrawFacts.github_row_drawn th title subtitleLeft totalText topText
              rows n r Hn) as [_ Hdrawn].
  cbv zeta in Hdrawn. rewrite Hfill in Hdrawn.
  split; [exact Hdrawn|].
  rewrite <- Hr0.
  now apply (PlaceFacts.bars_percent_drawn th title subtitleLeft totalText
               topText rows n r).
Qed.

(** Two languages without a byte, and no contribution at all: two rows
    and four rows, and in the card of the languages the second bar has
    the width 0 and its label says 0.00 percent. *)
Lemma C6_zero_total_witness :
  let langs := Github.langRows (H := refHost) emptyLanguages in
  let activity := Github.makeActivityRows (H := refHost) 0 0 0 0 (0 + 0 + 0 + 0) in
  let doc :=
    Github.renderBarsCard (H := refHost) Github.theme
      (VStr "Languages") VNull VNull VNull langs in
  Forall (fun r => Github.percent r = Fin 0 /\ Github.fillWidth 410 r = Fin 0)
         langs
  /\ List.length langs = 2%nat
  /\ map Github.name activity
     = [VStr "Commits"; VStr "Pull Requests"; VStr "Issues"; VStr "Reviews"]
  /\ infix (githubFill (H := refHost) 380 146 (Fin 0) 10 "#22C55E") doc
  /\ infix (percentText "0.00") doc.
Proof.
  intros langs activity doc.
  destruct (C6_zero_total (H := refHost) emptyLanguages 0 0 0 0)
    as (Hl & _ & _ & Hlen & Hact & Hdoc).
  - repeat constructor; cbn; lia.
  - reflexivity.
  - lia.
  - lia.
  - lia.
  - lia.
  - reflexivity.
  - split; [exact Hl|]. split; [exact Hlen|].
    split; [unfold activity; rewrite Hact; reflexivity|].
    destruct (Hdoc Github.theme (VStr "Languages") VNull VNull VNull langs
                1%nat (zeroRow "B" "0 B") (or_introl eq_refl) eq_refl)
      as [Hfill Hpct].
    split; [exact Hfill|exact Hpct].
Defined.

(** C7. For every row of a bar card whose percentage is a number, in the
    range or beyond it or infinite, the width of the filled bar is
    [round(totalBarWidth * clamp(percent/100, 0, 1))], which lies between
    0 and the width of the whole bar; the cards draw 410 wide bars, and
    the filled bar of each row has that width in the document.  Every row
    that row derivation returns has a number for percentage. *)
Theorem C7_fill_width `{Host} (totalBarWidth : Z)
    (r : Github.MetricRow) (wr : Wakatime.Row) :
  0 <= totalBarWidth ->
  Github.percent r <> NaN ->
  Wakatime.percent wr <> NaN ->
  let fillWidth := clampedFill totalBarWidth (Github.percent r) in
  let fillWidth' := clampedFill totalBarWidth (Wakatime.percent wr) in
  Github.fillWidth totalBarWidth r = ofZ fillWidth
  /\ 0 <= fillWidth <= totalBarWidth
  /\ Wakatime.fillWidth totalBarWidth wr = ofZ fillWidth'
  /\ 0 <= fillWidth' <= totalBarWidth
  /\ (forall th t s o p rows n,
        nth_error rows n = Some r ->
        let y := 124 + Z.of_nat n * 34 in
        infix (githubFill 380 (y - 12) (ofZ (clampedFill 410 (Github.percent r)))
                 10 (Github.barCycle th (Z.of_nat n)))
              (Github.renderBarsCard th t s o p rows))
  /\ (forall th ic t o p rows n,
        nth_error rows n = Some wr ->
        let y := 112 + Z.of_nat n * 34 in
        infix (wakatimeFill 380 (y - 12)
                 (ofZ (clampedFill 410 (Wakatime.percent wr))) 10
                 (Wakatime.baseColorOf th wr (Z.of_nat n))
                 (if strictEq (Wakatime.name wr) "Other"
                  then ofQ (85 # 100) else ofZ 1))
              (Wakatime.renderSvg th ic t o p rows))
  /\ (forall langMap x, In x (Github.langRows langMap) -> Github.percent x <> NaN)
  /\ (forall commits prs issues reviews contribTotal x,
        In x (Github.makeActivityRows commits prs issues reviews contribTotal) ->
        Github.percent x <> NaN)
  /\ (forall entries limit x,
        In x (Wakatime.toRows entries limit) -> Wakatime.percent x <> NaN).
Proof.
  intros Hw Hr Hwr fillWidth fillWidth'.
  split; [now apply BarFacts.fill_code|].
  split; [now apply BarFacts.clampedFill_range|].
  split; [now apply BarFacts.fill_code|].
  split; [now apply BarFacts.clampedFill_range|].
  split.
  { intros th t s o p rows n Hn y.
    rewrite <- (BarFacts.fill_code 410 _ Hr).
    apply (DrawFacts.github_row_drawn th t s o p rows n r Hn). }
  split.
  { intros th ic t o p rows n Hn y.
    rewrite <- (BarFacts.fill_code 410 _ Hwr).
    apply (DrawFacts.wakatime_row_drawn th ic t o p rows n wr Hn). }
  split; [exact DataFacts.langRows_number|].
  split; [exact DataFacts.makeActivityRows_number|].
  exact DataFacts.toRows_number.
Qed.

(** A row at 250 percent fills its bar, a row at -3 percent leaves it
    empty. *)
Lemma C7_fill_width_witness :
  Github.fillWidth 410 overfullRow = ofZ 410
  /\ Wakatime.fillWidth 410 overfullTime = ofZ 0.
Proof.
  destruct (C7_fill_width (H := refHost) 410 overfullRow overfullTime)
    as (Hg & _ & Hw & _).
  - lia.
  - discriminate.
  - discriminate.
  - split; [exact Hg|exact Hw].
Defined.

(** C8. Once the clock is past the start of 2021, the queries of
    [fetchContribSince2021] go over consecutive windows that tile the
    span from that start to the current instant: the first starts at
    2021-01-01T00:00:00Z, each next one starts at the instant the one
    before ends, each but the last is one calendar year, the last ends
    at the current instant, within its year.  No two of them overlap,
    every instant of the span is in one, none reaches outside the span;
    and each of the four signals is the sum of its counts over the
    windows. *)
Theorem C8_windows (ghGraphQL : Z -> Z -> Github.Contrib.collection) (now : Z) :
  TimeFromYear Github.FROM_YEAR <= now ->
  let start := TimeFromYear Github.FROM_YEAR in
  let ws := Github.contribWindows now in
  let total := Github.fetchContribSince2021 ghGraphQL now in
  let counted field := sumOver (fun w => Github.countOr0 (field (answer ghGraphQL w))) ws in
  tiles start now ws
  /\ yearly Github.FROM_YEAR (getUTCFullYear now) now ws
  /\ (forall w, In w ws -> start <= fst w /\ fst w <= snd w <= now)
  /\ (forall t, start <= t <= now -> exists w, In w ws /\ within t w)
  /\ (forall (pre : list (Z * Z)) w1 mid w2 post,
        ws = (pre ++ w1 :: mid ++ w2 :: post)%list -> snd w1 <= fst w2)
  /\ Github.Contrib.commits total
     = counted Github.Contrib.totalCommitContributions
  /\ Github.Contrib.prs total
     = counted Github.Contrib.totalPullRequestContributions
  /\ Github.Contrib.issues total
     = counted Github.Contrib.totalIssueContributions
  /\ Github.Contrib.reviews total
     = counted Github.Contrib.totalPullRequestReviewContributions.
Proof.
  intros Hnow start ws total counted.
  pose proof (DateFacts.getUTCFullYear_spec now) as [Hlo Hhi].
  assert (Hy : Github.FROM_YEAR <= getUTCFullYear now)
    by now apply WindowFacts.endYear_from.
  assert (Hws : ws = map (Github.window now (getUTCFullYear now))
                       (Github.yearsFrom Github.FROM_YEAR
                          (S (Z.to_nat (getUTCFullYear now - Github.FROM_YEAR))))).
  { unfold ws, Github.contribWindows. cbv zeta.
    now rewrite WindowFacts.loopYears_some. }
  assert (Ht : tiles start now ws).
  { rewrite Hws. apply WindowFacts.windows_tile; [lia|exact Hlo]. }
  split; [exact Ht|].
  split; [rewrite Hws; apply WindowFacts.windows_yearly; [lia|exact Hhi]|].
  split.
  { intros w Hin. destruct (WindowFacts.tiles_bounds _ _ _ Ht) as [_ Hall].
    rewrite Forall_forall in Hall. now apply Hall. }
  split; [intros t Hin; now apply (WindowFacts.tiles_cover start now)|].
  split; [exact (WindowFacts.tiles_apart _ _ _ Ht)|].
  pose proof (WindowFacts.fold_addWindow ghGraphQL ws
                {| Github.Contrib.commits := 0; Github.Contrib.prs := 0;
                   Github.Contrib.issues := 0; Github.Contrib.reviews := 0 |})
    as Hsum.
  cbv zeta in Hsum. cbn [Github.Contrib.commits Github.Contrib.prs
                          Github.Contrib.issues Github.Contrib.reviews] in Hsum.
  rewrite !Z.add_0_l in Hsum. exact Hsum.
Qed.

(** On 3 November 2026 at noon there are six windows, 2021 to 2026, and
    an API that reports one commit per day reports 2132 of them. *)
Lemma C8_windows_witness :
  List.length (Github.contribWindows someNow) = 6%nat
  /\ tiles (TimeFromYear 2021) someNow (Github.contribWindows someNow)
  /\ Github.Contrib.commits (Github.fetchContribSince2021 dailyCommit someNow)
     = 2132.
Proof.
  destruct (C8_windows dailyCommit someNow) as (Ht & _ & _ & _ & _ & Hc & _).
  - vm_compute. discriminate.
  - split; [reflexivity|]. split; [exact Ht|].
    rewrite Hc. reflexivity.
Defined.

(** C9, as amended.  In the bar card of the code-hosting pipeline the
    marker and the filled bar of the row at index [i] have the colour of
    the theme's accent list at position [i] modulo its length, whatever
    the row is named.  In the time-tracking card this holds for every row
    that is not named [Other]; a row named [Other] has the colour the
    theme keeps for it, at a lower opacity, whatever its index. *)
Theorem C9_row_colour `{Host}
    (gth : Github.Theme.t) (wth : Wakatime.Theme.t)
    (icon title subtitleLeft totalText topText : jsval)
    (rows : list Github.MetricRow) (times : list Wakatime.Row)
    (n : nat) (r : Github.MetricRow) (wr : Wakatime.Row) :
  Github.Theme.bars gth <> [] ->
  Wakatime.Theme.bars wth <> [] ->
  nth_error rows n = Some r ->
  nth_error times n = Some wr ->
  let i := Z.of_nat n in
  let bars := Github.renderBarsCard gth title subtitleLeft totalText topText rows in
  let svg := Wakatime.renderSvg wth icon title totalText topText times in
  exists color color',
    accentAt (Github.Theme.bars gth) i = Some color
    /\ accentAt (Wakatime.Theme.bars wth) i = Some color'
    /\ infix (githubDot 56 (124 + i * 34 - 6) color) bars
    /\ infix (githubFill 380 (124 + i * 34 - 12) (Github.fillWidth 410 r) 10 color)
             bars
    /\ (strictEq (Wakatime.name wr) "Other" = false ->
          infix (wakatimeDot 56 (112 + i * 34 - 6) color' (ofZ 1)) svg
          /\ infix (wakatimeFill 380 (112 + i * 34 - 12)
                      (Wakatime.fillWidth 410 wr) 10 color' (ofZ 1)) svg)
    /\ (strictEq (Wakatime.name wr) "Other" = true ->
          let other := Wakatime.Theme.otherColor wth in
          infix (wakatimeDot 56 (112 + i * 34 - 6) other (ofQ (85 # 100))) svg
          /\ infix (wakatimeFill 380 (112 + i * 34 - 12)
                      (Wakatime.fillWidth 410 wr) 10 other (ofQ (85 # 100))) svg).
Proof.
  intros Hg Hw Hr Hwr i bars svg.
  destruct (DrawFacts.accentAt_some _ i Hg ltac:(lia)) as (color & Hc).
  destruct (DrawFacts.accentAt_some _ i Hw ltac:(lia)) as (color' & Hc').
  exists color, color'.
  pose proof (DrawFacts.github_row_drawn gth title subtitleLeft totalText topText
                rows n r Hr) as Hgd.
  pose proof (DrawFacts.wakatime_row_drawn wth icon title totalText topText
                times n wr Hwr) as Hwd.
  cbv zeta in Hgd, Hwd. fold i in Hgd, Hwd.
  rewrite (DrawFacts.github_barCycle gth i color Hc) in Hgd.
  unfold Wakatime.baseColorOf in Hwd. cbv zeta in Hwd.
  split; [exact Hc|]. split; [exact Hc'|].
  split; [apply Hgd|]. split; [apply Hgd|].
  split; intros Hother; rewrite Hother in Hwd.
  - rewrite (DrawFacts.wakatime_barCycle wth i color' Hc') in Hwd. exact Hwd.
  - exact Hwd.
Qed.

(** The second row of a time-tracking card, named [Other]: not the second
    accent of the theme but the colour kept for it, which is the first. *)
Lemma C9_counterexample :
  nth_error [scriptTime; otherTime] 1 = Some otherTime
  /\ accentAt (Wakatime.Theme.bars Wakatime.theme) 1 = Some "#f1fa8c"
  /\ Wakatime.baseColorOf Wakatime.theme otherTime 1 = "#ff4d6d"
  /\ Some (Wakatime.baseColorOf Wakatime.theme otherTime 1)
     <> accentAt (Wakatime.Theme.bars Wakatime.theme) 1.
Proof. repeat split. vm_compute. discriminate. Qed.

(** In the cards of both scripts the second row, when it is not named
    [Other], has the second accent of its theme. *)
Lemma C9_row_colour_witness :
  infix (githubDot (H := refHost) 56 152 "#22C55E")
        (Github.renderBarsCard (H := refHost) Github.theme (VStr "T") (VStr "s")
           (VStr "o") (VStr "p") [scriptRow; overfullRow])
  /\ infix (wakatimeDot (H := refHost) 56 140 "#f1fa8c" (ofZ 1))
           (Wakatime.renderSvg (H := refHost) Wakatime.theme (VStr "i") (VStr "T")
              (VStr "o") (VStr "p") [scriptTime; overfullTime]).
Proof.
  destruct (C9_row_colour (H := refHost) Github.theme Wakatime.theme
              (VStr "i") (VStr "T") (VStr "s") (VStr "o") (VStr "p")
              [scriptRow; overfullRow] [scriptTime; overfullTime]
              1 overfullRow overfullTime)
    as (color & color' & Hc & Hc' & Hdot & _ & Hplain & _).
  - discriminate.
  - discriminate.
  - reflexivity.
  - reflexivity.
  - injection Hc as <-. injection Hc' as <-.
    split; [exact Hdot|]. exact (proj1 (Hplain eq_refl)).
Defined.

(** C10. [escapeXml] of the code-hosting pipeline returns the empty
    string for [null] and for [undefined], so a card shows a missing text
    as an empty one: the document is the one of the same card with every
    missing text replaced by the empty string, and neither word is
    written for a missing text. *)
Theorem C10_missing_text `{Host} (th : Github.Theme.t)
    (title subtitleLeft totalText topText : jsval)
    (rows : list Github.MetricRow) (items : list Github.GridItem)
    (grade : Github.Grade) :
  Github.escapeXml VNull = ""
  /\ Github.escapeXml VUndefined = ""
  /\ (forall v, Github.escapeXml v = Github.escapeXml (emptyIfMissing v))
  /\ Github.renderBarsCard th title subtitleLeft totalText topText rows
     = Github.renderBarsCard th (emptyIfMissing title)
         (emptyIfMissing subtitleLeft) (emptyIfMissing totalText)
         (emptyIfMissing topText) (map rowEmptyIfMissing rows)
  /\ Github.renderGridStatsCard th title subtitleLeft totalText topText items grade
     = Github.renderGridStatsCard th (emptyIfMissing title)
         (emptyIfMissing subtitleLeft) (emptyIfMissing totalText)
         (emptyIfMissing topText) (map itemEmptyIfMissing items) grade.
Proof.
  split; [reflexivity|]. split; [reflexivity|].
  split; [apply MissingFacts.escapeXml_missing|].
  split.
  - apply MissingFacts.renderBarsCard_missing.
  - apply MissingFacts.renderGridStatsCard_missing.
Qed.

(* ================================================================== *)
(** * Part IV: further properties of the code *)
(* ================================================================== *)

Import CardSpec YearSpec.

(** X1. Whatever numbers [computeGrade] is given, negative ones included,
    its score lies between 0 and 1, its percentage between 0 and 100, and
    its letter is one of S, A, B, C and D. *)
Theorem X1_grade_range (commits prs issues reviews stars repos : R) :
  let g := Github.computeGrade commits prs issues reviews stars repos in
  (0 <= Github.score g <= 1)%R
  /\ 0 <= Github.pct g <= 100
  /\ In (Github.letter g) ["S"; "A"; "B"; "C"; "D"].
Proof.
  intros g.
  assert (Hs : (0 <= Github.score g <= 1)%R).
  { unfold g. rewrite GradeMore.score_sum.
    pose proof (GradeMore.norm_between commits 4000 ltac:(lra)).
    pose proof (GradeMore.norm_between prs 200 ltac:(lra)).
    pose proof (GradeMore.norm_between issues 200 ltac:(lra)).
    pose proof (GradeMore.norm_between reviews 250 ltac:(lra)).
    pose proof (GradeMore.norm_between stars 300 ltac:(lra)).
    pose proof (GradeMore.norm_between repos 60 ltac:(lra)).
    lra. }
  split; [exact Hs|]. split.
  - unfold g. rewrite GradeMore.pct_round. fold g.
    rewrite <- (GradeMore.Math_round_Z 0) at 1.
    rewrite <- (GradeMore.Math_round_Z 100) at 3.
    split; apply GradeMore.Math_round_mono; lra.
  - unfold g. rewrite GradeMore.letter_step. apply GradeMore.letterOf_known.
Qed.

(** X2. The grade grows with the signals: when no signal is lower, the
    score is not lower, nor the percentage, nor the letter. *)
Theorem X2_grade_monotone
    (commits prs issues reviews stars repos : R)
    (commits' prs' issues' reviews' stars' repos' : R) :
  (commits <= commits')%R -> (prs <= prs')%R -> (issues <= issues')%R ->
  (reviews <= reviews')%R -> (stars <= stars')%R -> (repos <= repos')%R ->
  let g := Github.computeGrade commits prs issues reviews stars repos in
  let g' := Github.computeGrade commits' prs' issues' reviews' stars' repos' in
  (Github.score g <= Github.score g')%R
  /\ Github.pct g <= Github.pct g'
  /\ (letterRank (Github.letter g) <= letterRank (Github.letter g'))%nat.
Proof.
  intros Hc Hp Hi Hr Hs Ho g g'.
  assert (Hscore : (Github.score g <= Github.score g')%R).
  { unfold g, g'. rewrite !GradeMore.score_sum.
    pose proof (GradeMore.norm_mono commits commits' 4000 ltac:(lra) Hc).
    pose proof (GradeMore.norm_mono prs prs' 200 ltac:(lra) Hp).
    pose proof (GradeMore.norm_mono issues issues' 200 ltac:(lra) Hi).
    pose proof (GradeMore.norm_mono reviews reviews' 250 ltac:(lra) Hr).
    pose proof (GradeMore.norm_mono stars stars' 300 ltac:(lra) Hs).
    pose proof (GradeMore.norm_mono repos repos' 60 ltac:(lra) Ho).
    lra. }
  assert (Hpct : Github.pct g <= Github.pct g').
  { unfold g, g'. rewrite !GradeMore.pct_round.
    apply GradeMore.Math_round_mono. fold g g'. lra. }
  split; [exact Hscore|]. split; [exact Hpct|].
  unfold g, g'. rewrite !GradeMore.letter_step.
  now apply GradeFacts.letterOf_mono.
Qed.

(** A thousand commits more. *)
Lemma X2_grade_monotone_witness :
  (Github.score (Github.computeGrade 500 20 3 0 7 12)
   <= Github.score (Github.computeGrade 1500 20 3 0 7 12))%R
  /\ Github.pct (Github.computeGrade 500 20 3 0 7 12)
     <= Github.pct (Github.computeGrade 1500 20 3 0 7 12)
  /\ (letterRank (Github.letter (Github.computeGrade 500 20 3 0 7 12))
      <= letterRank (Github.letter (Github.computeGrade 1500 20 3 0 7 12)))%nat.
Proof.
  apply (X2_grade_monotone 500 20 3 0 7 12 1500 20 3 0 7 12); lra.
Defined.

(** X3. The targets are caps: when every signal is at its target or
    beyond, the score is 1, the percentage 100 and the letter S, however
    far beyond. *)
Theorem X3_grade_caps (commits prs issues reviews stars repos : R) :
  (4000 <= commits)%R -> (200 <= prs)%R -> (200 <= issues)%R ->
  (250 <= reviews)%R -> (300 <= stars)%R -> (60 <= repos)%R ->
  let g := Github.computeGrade commits prs issues reviews stars repos in
  Github.score g = 1%R /\ Github.pct g = 100 /\ Github.letter g = "S".
Proof.
  intros Hc Hp Hi Hr Hs Ho g.
  assert (Hscore : Github.score g = 1%R).
  { unfold g. rewrite GradeMore.score_sum.
    rewrite !GradeMore.norm_cap by lra. lra. }
  assert (Hpct : Github.pct g = 100).
  { unfold g. rewrite GradeMore.pct_round. fold g. rewrite Hscore.
    replace (1 * 100)%R with (IZR 100) by lra. apply GradeMore.Math_round_Z. }
  split; [exact Hscore|]. split; [exact Hpct|].
  unfold g. rewrite GradeMore.letter_step. fold g. rewrite Hpct. reflexivity.
Qed.

Lemma X3_grade_caps_witness :
  Github.score (Github.computeGrade 90000 200 1000 250 300 61) = 1%R
  /\ Github.pct (Github.computeGrade 90000 200 1000 250 300 61) = 100
  /\ Github.letter (Github.computeGrade 90000 200 1000 250 300 61) = "S".
Proof.
  apply (X3_grade_caps 90000 200 1000 250 300 61); lra.
Defined.

(** X4. An account without activity, every signal zero (or negative, which
    counts as zero), has the score 0, the percentage 0 and the letter D. *)
Theorem X4_grade_floor (commits prs issues reviews stars repos : R) :
  (commits <= 0)%R -> (prs <= 0)%R -> (issues <= 0)%R ->
  (reviews <= 0)%R -> (stars <= 0)%R -> (repos <= 0)%R ->
  let g := Github.computeGrade commits prs issues reviews stars repos in
  Github.score g = 0%R /\ Github.pct g = 0 /\ Github.letter g = "D".
Proof.
  intros Hc Hp Hi Hr Hs Ho g.
  assert (Hscore : Github.score g = 0%R).
  { unfold g. rewrite GradeMore.score_sum.
    rewrite !GradeMore.norm_floor by lra. lra. }
  assert (Hpct : Github.pct g = 0).
  { unfold g. rewrite GradeMore.pct_round. fold g. rewrite Hscore.
    replace (0 * 100)%R with (IZR 0) by lra. apply GradeMore.Math_round_Z. }
  split; [exact Hscore|]. split; [exact Hpct|].
  unfold g. rewrite GradeMore.letter_step. fold g. rewrite Hpct. reflexivity.
Qed.

Lemma X4_grade_floor_witness :
  Github.score (Github.computeGrade 0 0 0 0 0 0) = 0%R
  /\ Github.pct (Github.computeGrade 0 0 0 0 0 0) = 0
  /\ Github.letter (Github.computeGrade 0 0 0 0 0 0) = "D".
Proof.
  apply (X4_grade_floor 0 0 0 0 0 0); lra.
Defined.

(** X5. [fetchData] counts the stars of the repositories that are not
    forks, over every page the API serves: once the loop has fetched the
    last page, [starsTotal] is the sum of their star counts, a missing
    count being zero, and no star of a fork is in it. *)
Theorem X5_stars_skip_forks
    (reposPage : option string -> Github.Repo.page)
    (ps : list Github.Repo.page) (fuel : nat) :
  RepoSpec.serves reposPage None ps ->
  (List.length ps <= fuel)%nat ->
  exists langMap,
    Github.fetchRepos reposPage fuel
    = Some (RepoSpec.starsOf (RepoSpec.ownNodes ps), langMap).
Proof.
  intros Hs Hfuel.
  rewrite (RepoFacts.fetchRepos_served reposPage ps fuel Hs Hfuel).
  eexists. reflexivity.
Qed.

(** Scenario B of the specification: the fork's 100 stars are left out,
    the total is 50. *)
Lemma X5_stars_skip_forks_witness :
  exists langMap,
    Github.fetchRepos RepoSpec.twoPages 5 = Some (50, langMap).
Proof.
  apply (X5_stars_skip_forks RepoSpec.twoPages
           [RepoSpec.forkPage; RepoSpec.ownPage] 5).
  - apply (RepoSpec.serves_next RepoSpec.twoPages None [RepoSpec.ownPage]);
      [reflexivity|].
    apply (RepoSpec.serves_last RepoSpec.twoPages (Some "c1")). reflexivity.
  - cbn. lia.
Defined.

(** X6. The language map [fetchData] builds has each language once, in
    the order in which the languages are first met, and holds for each
    the sum of its sizes over the repositories that are not forks, a
    missing size being zero; an entry without a name, or with an empty
    one, adds nothing, and a language met in forks only is not in the
    map. *)
Theorem X6_languages_summed
    (reposPage : option string -> Github.Repo.page)
    (ps : list Github.Repo.page) (fuel : nat) :
  RepoSpec.serves reposPage None ps ->
  (List.length ps <= fuel)%nat ->
  let entries := flat_map RepoSpec.edgesOf (RepoSpec.ownNodes ps) in
  exists starsTotal langMap,
    Github.fetchRepos reposPage fuel = Some (starsTotal, langMap)
    /\ NoDup (map fst langMap)
    /\ map fst langMap = RepoSpec.firstSeen entries
    /\ (forall name,
          Github.mapGet langMap name
          = if RepoSpec.mentions name entries
            then Some (RepoSpec.sizeOf name entries)
            else None).
Proof.
  intros Hs Hfuel entries.
  rewrite (RepoFacts.fetchRepos_served reposPage ps fuel Hs Hfuel).
  fold entries.
  eexists. eexists. split; [reflexivity|].
  split; [apply RepoFacts.fold_addEdge_NoDup; constructor|].
  split; [apply (RepoFacts.fold_addEdge_keys entries [])|].
  intros name. rewrite RepoFacts.fold_addEdge_get. cbn [Github.mapGet Github.countOr0].
  now destruct (RepoSpec.mentions name entries).
Qed.

(** Rust twice, once without a size, and C; Go is met in the fork
    only. *)
Lemma X6_languages_summed_witness :
  exists starsTotal langMap,
    Github.fetchRepos RepoSpec.twoPages 2 = Some (starsTotal, langMap)
    /\ map fst langMap = ["Rust"; "C"]
    /\ Github.mapGet langMap "Rust" = Some 300
    /\ Github.mapGet langMap "Go" = None.
Proof.
  destruct (X6_languages_summed RepoSpec.twoPages
              [RepoSpec.forkPage; RepoSpec.ownPage] 2)
    as (stars & langMap & Hf & _ & Hk & Hg).
  - apply (RepoSpec.serves_next RepoSpec.twoPages None [RepoSpec.ownPage]);
      [reflexivity|].
    apply (RepoSpec.serves_last RepoSpec.twoPages (Some "c1")). reflexivity.
  - cbn. lia.
  - exists stars, langMap. split; [exact Hf|]. split; [exact Hk|].
    split; [exact (Hg "Rust")|exact (Hg "Go")].
Defined.

(** X7. The loop of [fetchData] follows the cursors and stops at the
    first page that reports no further page, whatever their number: when
    the API serves [k] pages, the loop is done after [k] requests and not
    before. *)
Theorem X7_pages_followed
    (reposPage : option string -> Github.Repo.page)
    (ps : list Github.Repo.page) (fuel : nat) :
  RepoSpec.serves reposPage None ps ->
  (Github.fetchRepos reposPage fuel = None <-> (fuel < List.length ps)%nat)
  /\ (forall more, (List.length ps <= fuel)%nat ->
        Github.fetchRepos reposPage (fuel + more) = Github.fetchRepos reposPage fuel).
Proof.
  intros Hs. unfold Github.fetchRepos.
  split.
  - rewrite (RepoFacts.pagesLoop_serves reposPage None ps Hs).
    destruct (Nat.leb_spec (List.length ps) fuel); split;
      intros; (lia || discriminate || reflexivity).
  - intros more Hle.
    rewrite !(RepoFacts.pagesLoop_serves reposPage None ps Hs).
    replace (List.length ps <=? fuel + more)%nat with true
      by (symmetry; apply Nat.leb_le; lia).
    replace (List.length ps <=? fuel)%nat with true
      by (symmetry; apply Nat.leb_le; lia).
    reflexivity.
Qed.

Lemma X7_pages_followed_witness :
  (Github.fetchRepos RepoSpec.twoPages 1 = None <-> (1 < 2)%nat)
  /\ (forall more, (2 <= 1)%nat ->
        Github.fetchRepos RepoSpec.twoPages (1 + more)
        = Github.fetchRepos RepoSpec.twoPages 1).
Proof.
  apply (X7_pages_followed RepoSpec.twoPages
           [RepoSpec.forkPage; RepoSpec.ownPage] 1).
  apply (RepoSpec.serves_next RepoSpec.twoPages None [RepoSpec.ownPage]);
    [reflexivity|].
  apply (RepoSpec.serves_last RepoSpec.twoPages (Some "c1")). reflexivity.
Defined.

(** X8. When the API reports a further page after every page, the loop
    of [fetchData] never ends: it has no bound on the number of pages. *)
Theorem X8_pages_unbounded
    (reposPage : option string -> Github.Repo.page) (fuel : nat) :
  (forall cursor, Github.Repo.hasNextPage (reposPage cursor) = true) ->
  Github.fetchRepos reposPage fuel = None.
Proof. intros Hmore. now apply RepoFacts.pagesLoop_endless. Qed.

Lemma X8_pages_unbounded_witness :
  Github.fetchRepos (fun _ => RepoSpec.forkPage) 1000 = None.
Proof.
  apply (X8_pages_unbounded (fun _ => RepoSpec.forkPage) 1000).
  intros cursor. reflexivity.
Defined.

(** X9. Both [escapeXml] functions lose nothing of a text: two texts have
    the same escaped form only when they are the same text. *)
Theorem X9_escapeXml_injective (s t : string) :
  (Github.escapeXml (VStr s) = Github.escapeXml (VStr t) <-> s = t)
  /\ (Wakatime.escapeXml (VStr s) = Wakatime.escapeXml (VStr t) <-> s = t).
Proof.
  rewrite !GithubEscape.escapeXml_escaped, !WakatimeEscape.time_escapeXml_escaped.
  cbn [nullish ToString].
  split; (split; [apply EscapeMore.escaped_inj|now intros ->]).
Qed.

(** X10. The escaped form of a text is longer than the text by four
    characters for each ampersand, three for each [<] and [>] and five
    for each double quote and apostrophe; [escapeXml] returns a text as
    it is exactly when the text has none of the five, so that it never
    leaves an escaped text with an entity in it as it is. *)
Theorem X10_escapeXml_length (s : string) :
  let grown :=
    (String.length s + 4 * count "&" s + 3 * count "<" s + 3 * count ">" s
     + 5 * count dquote s + 5 * count squote s)%nat in
  String.length (Github.escapeXml (VStr s)) = grown
  /\ String.length (Wakatime.escapeXml (VStr s)) = grown
  /\ (Github.escapeXml (VStr s) = s <-> reservedCount s = O)
  /\ (Wakatime.escapeXml (VStr s) = s <-> reservedCount s = O).
Proof.
  rewrite !GithubEscape.escapeXml_escaped, !WakatimeEscape.time_escapeXml_escaped.
  cbn [nullish ToString]. cbv zeta.
  repeat split; try apply EscapeMore.length_escaped;
    try apply EscapeMore.escaped_fixed; apply EscapeMore.escaped_fixed.
Qed.

(** X11. [pickTopActivity] names the largest of the four counts, with its
    value formatted by [fmtNumber]; when several counts are the largest it
    names the one that comes first in the order Commits, PRs, Issues,
    Reviews. *)
Theorem X11_pickTopActivity `{Host} (commits prs issues reviews : Z) :
  let arr := [ ("Commits", commits); ("PRs", prs);
               ("Issues", issues); ("Reviews", reviews) ] in
  exists k name value,
    nth_error arr k = Some (name, value)
    /\ Github.pickTopActivity commits prs issues reviews
       = name ++ ": " ++ Github.fmtNumber value
    /\ value = Z.max (Z.max commits prs) (Z.max issues reviews)
    /\ (forall j x, (j < k)%nat -> nth_error arr j = Some x -> snd x < value).
Proof.
  intros arr.
  destruct (TopFacts.sortDesc_first arr) as (k & [name value] & rest & Hs & Hk & Hall & Hb);
    [discriminate|].
  exists k, name, value. split; [exact Hk|]. split.
  - unfold Github.pickTopActivity. fold arr. rewrite Hs. reflexivity.
  - split; [|exact Hb].
    pose proof (Hall 0%nat _ eq_refl) as H0.
    pose proof (Hall 1%nat _ eq_refl) as H1.
    pose proof (Hall 2%nat _ eq_refl) as H2.
    pose proof (Hall 3%nat _ eq_refl) as H3.
    cbn [snd] in *.
    destruct k as [|[|[|[|k]]]]; cbn in Hk; try (injection Hk as _ <-; lia).
    destruct k; discriminate.
Qed.

(** X12. On a whole number of minutes [fmtMinutes] prints the minutes
    alone below one hour, the hours alone on a full hour, and hours and
    minutes otherwise, hours and minutes adding up to the number given; a
    negative number keeps its remainder only and loses its hours. *)
Theorem X12_fmtMinutes `{Host} (n : Z) :
  Wakatime.fmtMinutes (ofZ n)
  = (if n <? 60 then str (Z.rem n 60) ++ "m"
     else if n mod 60 =? 0 then str (n / 60) ++ "h"
     else str (n / 60) ++ "h " ++ str (n mod 60) ++ "m")
  /\ (0 <= n < 60 -> Z.rem n 60 = n)
  /\ 60 * (n / 60) + n mod 60 = n.
Proof.
  split; [apply TimeFacts.fmtMinutes_Z|]. split.
  - intros Hn. apply Z.rem_small. exact Hn.
  - pose proof (Z.div_mod n 60). lia.
Qed.


(** X14. When the languages report whole seconds, the total in the header
    of the three time-tracking cards is their sum, rounded to minutes,
    as soon as that sum is positive; the total of the service is read only
    when it is not. *)
Theorem X14_total_text `{Host} (languages : list Wakatime.Entry.t)
    (ss : list Z) (total_seconds : option number) :
  wholeSeconds languages ss ->
  Wakatime.totalText languages total_seconds
  = "Total: "
    ++ Wakatime.fmtMinutes
         (if 0 <? sumZ ss then ofZ ((sumZ ss + 30) / 60)
          else round (div (orNum total_seconds (ofZ 0)) (ofZ 60))).
Proof.
  intros Hw. unfold Wakatime.totalText. cbv zeta.
  rewrite (RowFacts.sumSeconds_Z languages ss Hw), RowFacts.ltb_Z.
  destruct (0 <? sumZ ss); [|reflexivity].
  now rewrite RowFacts.minutes_Z.
Qed.

(** 1830 and 5400 seconds are 7230 seconds, two hours and one minute
    after rounding. *)
Lemma X14_total_text_witness :
  @Wakatime.totalText refHost [namelessEntry; rustEntry] None = "Total: 2h 1m".
Proof.
  rewrite (@X14_total_text refHost [namelessEntry; rustEntry] [1830; 5400] None).
  - reflexivity.
  - reflexivity.
Defined.

(** X15. The time-tracking card spells a missing icon, title, total, name
    or time as the word [String] makes of it, [undefined] or [null],
    where the cards of the code-hosting service draw nothing; a missing
    top label alone draws nothing.  The top label spells a missing name
    the same way. *)
Theorem X15_missing_spelled `{Host} (th : Wakatime.Theme.t)
    (icon title totalText topText : jsval) (rows : list Wakatime.Row) :
  Wakatime.renderSvg th icon title totalText topText rows
  = Wakatime.renderSvg th (spelled icon) (spelled title) (spelled totalText)
      (orElse topText (VStr "")) (map rowSpelled rows)
  /\ Wakatime.pickTopLabel rows = Wakatime.pickTopLabel (map rowSpelled rows)
  /\ Wakatime.escapeXml VUndefined = "undefined"
  /\ Wakatime.escapeXml VNull = "null"
  /\ Github.escapeXml VUndefined = ""
  /\ Github.escapeXml VNull = "".
Proof.
  split; [|split; [|repeat split]].
  - rewrite (RowFacts.renderSvg_spelled th icon title totalText topText rows).
    unfold Wakatime.renderSvg. cbv zeta.
    assert (Ho : orElse (orElse topText (VStr "")) (VStr "") = orElse topText (VStr "")).
    { unfold orElse. destruct (truthy topText) eqn:E; [now rewrite E|reflexivity]. }
    now rewrite Ho.
  - destruct rows as [|r rows]; reflexivity.
Qed.

(** X16. The percentages of the rows of the language card add up to 100,
    the denominator being the sum over the rows that are shown; they add
    up to 0 when that sum is zero.  Exact rational arithmetic stands for
    doubles. *)
Theorem X16_language_shares `{Host} (langMap : list (string * Z)) :
  (percentSum (map Github.percent (Github.langRows langMap))
   == if sumSizes (Github.langEntries langMap) =? 0 then 0 else 100)%Q.
Proof.
  rewrite DataFacts.langRows_map, map_map. cbn [Github.percent].
  apply ShareFacts.percentSum_whole. reflexivity.
Qed.

(** X17. When no language has a negative size, every percentage of the
    language card is a finite number between 0 and 100: the clamp of the
    bar renderer is not what keeps these bars inside their track. *)
Theorem X17_language_percent_range `{Host} (langMap : list (string * Z)) :
  Forall (fun e => 0 <= snd e) langMap ->
  Forall (fun r => isFinite (Github.percent r) = true
                   /\ (0 <= valueQ (Github.percent r) <= 100)%Q)
         (Github.langRows langMap).
Proof.
  intros Hpos. rewrite DataFacts.langRows_map. apply Forall_forall.
  intros r Hin. apply in_map_iff in Hin. destruct Hin as (e & <- & Hin).
  cbn [Github.percent]. split; [reflexivity|].
  assert (Hshown : Forall (fun x => 0 <= snd x) (Github.langEntries langMap)).
  { apply Forall_forall. intros x Hx. rewrite Forall_forall in Hpos.
    now apply Hpos, DataFacts.langEntries_incl. }
  pose proof (ShareFacts.sumSizes_bound _ e Hshown Hin) as Hb.
  unfold shownTotal.
  destruct (Z.eqb_spec (sumSizes (Github.langEntries langMap)) 0) as [E|E];
    apply ShareFacts.share_range; lia.
Qed.

Lemma X17_language_percent_range_witness :
  Forall (fun r => isFinite (Github.percent r) = true
                   /\ (0 <= valueQ (Github.percent r) <= 100)%Q)
         (@Github.langRows refHost [("Rust", 300); ("C", 20); ("Nix", 0)]).
Proof.
  apply (@X17_language_percent_range refHost [("Rust", 300); ("C", 20); ("Nix", 0)]).
  repeat constructor; cbn; lia.
Defined.

(** X18. The top label of the language card in [main] is a dash when
    there is no language; otherwise it names the language of the first
    row, which is the language with the largest size, the one met first
    among equals, and prints the percentage of that row to two decimals.
    The total of the card counts the rows that are shown, ten at most,
    not the languages. *)
Theorem X18_language_header `{Host} (langMap : list (string * Z)) :
  (langMap = [] -> Github.topLang (Github.langRows langMap) = Github.emDash)
  /\ (langMap <> [] ->
      exists k name size top rest,
        nth_error langMap k = Some (name, size)
        /\ (forall j x, nth_error langMap j = Some x -> snd x <= size)
        /\ (forall j x, (j < k)%nat -> nth_error langMap j = Some x -> snd x < size)
        /\ Github.langRows langMap = top :: rest
        /\ Github.name top = VStr name
        /\ Github.topLang (Github.langRows langMap)
           = name ++ " (" ++ toFixed (Github.percent top) 2 ++ "%)")
  /\ Github.langsTotalText (Github.langRows langMap)
     = "Total: "
       ++ Github.fmtNumber (Z.min 10 (Z.of_nat (List.length langMap)))
       ++ " langs".
Proof.
  split; [|split].
  - intros ->. reflexivity.
  - intros Hne.
    destruct (TopFacts.sortDesc_first langMap Hne)
      as (k & [name size] & rest & Hs & Hk & Hall & Hb).
    assert (Hrows : exists top rows,
               Github.langRows langMap = top :: rows
               /\ Github.name top = VStr name).
    { unfold Github.langRows, Github.langEntries. cbv zeta. rewrite Hs.
      cbn [firstn map]. eexists. eexists. split; reflexivity. }
    destruct Hrows as (top & rows & Hrows & Hname).
    exists k, name, size, top, rows.
    repeat split; try assumption.
    rewrite Hrows. unfold Github.topLang. now rewrite Hname.
  - unfold Github.langsTotalText, Github.langRows. cbv zeta.
    now rewrite length_map, ShareFacts.langEntries_count.
Qed.



(** X20. [fetchContribSince2021] sends one query for each calendar year
    from 2021 to the year the clock is in, in that order, each starting
    at the start of its year: as many queries as years, and a start of a
    year is the start of a query exactly when the year is 2021 or later
    and not after the year of the clock. *)
Theorem X20_window_count (now year : Z) :
  TimeFromYear year <= now < TimeFromYear (year + 1) ->
  let ws := Github.contribWindows now in
  map fst ws = map TimeFromYear (yearsBetween 2021 year)
  /\ List.length ws = Z.to_nat (year - 2020)
  /\ (forall y, In (TimeFromYear y) (map fst ws) <-> 2021 <= y <= year).
Proof.
  intros Hyear ws.
  pose proof (DateFacts.getUTCFullYear_unique now year Hyear) as Hy.
  assert (Hstarts : map fst ws = map TimeFromYear (yearsBetween 2021 year)).
  { unfold ws, Github.contribWindows. cbv zeta. rewrite Hy.
    rewrite SliceFacts.loopYears_between, map_map.
    apply map_ext. intros y. reflexivity. }
  split; [exact Hstarts|]. split.
  - rewrite <- (length_map fst), Hstarts, length_map.
    rewrite SliceFacts.yearsBetween_length. f_equal. lia.
  - intros y. rewrite Hstarts, in_map_iff. split.
    + intros (y' & Heq & Hin). apply SliceFacts.yearsBetween_In in Hin.
      assert (y' = y); [|lia].
      destruct (Z.lt_trichotomy y' y) as [Hlt|[Heq'|Hgt]]; [|exact Heq'|].
      * pose proof (DateFacts.TimeFromYear_lt y').
        pose proof (DateFacts.TimeFromYear_mono (y' + 1) y ltac:(lia)). lia.
      * pose proof (DateFacts.TimeFromYear_lt y).
        pose proof (DateFacts.TimeFromYear_mono (y + 1) y' ltac:(lia)). lia.
    + intros Hin. exists y. split; [reflexivity|].
      now apply SliceFacts.yearsBetween_In.
Qed.

(** On 3 November 2026 the queries start with the years 2021 to 2026. *)
Lemma X20_window_count_witness :
  map fst (Github.contribWindows someNow)
  = map TimeFromYear [2021; 2022; 2023; 2024; 2025; 2026]
  /\ List.length (Github.contribWindows someNow) = 6%nat.
Proof.
  destruct (X20_window_count someNow 2026) as (Hs & Hl & _).
  - split; vm_compute; [discriminate|reflexivity].
  - split; [exact Hs|exact Hl].
Defined.

(** X21. With a clock before the start of 2021 the loop of
    [fetchContribSince2021] does not run: no query is sent and the four
    totals are zero, whatever the API would answer. *)
Theorem X21_clock_before_2021
    (ghGraphQL : Z -> Z -> Github.Contrib.collection) (now : Z) :
  now < TimeFromYear Github.FROM_YEAR ->
  Github.contribWindows now = []
  /\ Github.fetchContribSince2021 ghGraphQL now
     = {| Github.Contrib.commits := 0; Github.Contrib.prs := 0;
          Github.Contrib.issues := 0; Github.Contrib.reviews := 0 |}.
Proof.
  intros Hnow.
  assert (Hw : Github.contribWindows now = []).
  { unfold Github.contribWindows. cbv zeta.
    rewrite WindowFacts.loopYears_none; [reflexivity|].
    destruct (Z_lt_le_dec (getUTCFullYear now) Github.FROM_YEAR) as [Hlt|Hge];
      [exact Hlt|].
    apply WindowFacts.endYear_from in Hge. lia. }
  split; [exact Hw|].
  unfold Github.fetchContribSince2021. now rewrite Hw.
Qed.

(** At the start of 1970 an API that reports commits every day is not
    asked. *)
Lemma X21_clock_before_2021_witness :
  Github.contribWindows 0 = []
  /\ Github.Contrib.commits (Github.fetchContribSince2021 dailyCommit 0) = 0.
Proof.
  destruct (X21_clock_before_2021 dailyCommit 0) as [Hw Hf].
  - vm_compute. reflexivity.
  - split; [exact Hw|]. now rewrite Hf.
Defined.

(** X22. The grid card is as high as its rows of three tiles need, and
    draws the tile of item [n] in column [n mod 3] of row [n / 3]: every
    tile lies inside the canvas, between the paddings and under the
    header, and no two tiles share a point. *)
Theorem X22_grid_layout `{Host} (th : Github.Theme.t)
    (title subtitleLeft totalText topText : jsval)
    (items : list Github.GridItem) (grade : Github.Grade)
    (n : nat) (it : Github.GridItem) :
  nth_error items n = Some it ->
  let rows := (Z.of_nat (List.length items) + 2) / 3 in
  let height := 124 + rows * 88 + 30 in
  let doc :=
    Github.renderGridStatsCard th title subtitleLeft totalText topText items grade in
  infix (canvas 900 height) doc
  /\ infix (gridTile (tileX n) (tileY n) 272 74) doc
  /\ 28 <= tileX n /\ tileX n + 272 <= 900 - 28
  /\ 124 <= tileY n /\ tileY n + 74 <= height - 30
  /\ (forall m it', nth_error items m = Some it' -> m <> n ->
        infix (gridTile (tileX m) (tileY m) 272 74) doc
        /\ apart 272 74 (tileX n) (tileY n) (tileX m) (tileY m)).
Proof.
  intros Hn rows height doc.
  assert (Hlen : (n < List.length items)%nat)
    by (apply nth_error_Some; congruence).
  pose proof (LayoutFacts.tile_inside n (List.length items) Hlen) as Hin.
  cbv zeta in Hin.
  replace (124 + (Z.of_nat (List.length items) + 3 - 1) / 3 * (74 + 14) + 30)
    with height in Hin
    by (unfold height, rows; Z.div_mod_to_equations; lia).
  split.
  { pose proof (LayoutFacts.grid_canvas th title subtitleLeft totalText topText
                  items grade) as Hc. cbv zeta in Hc.
    replace (124 + (Z.of_nat (List.length items) + 3 - 1) / 3 * (74 + 14) + 30)
      with height in Hc
      by (unfold height, rows; Z.div_mod_to_equations; lia).
    exact Hc. }
  split; [now apply (LayoutFacts.grid_tile th _ _ _ _ items grade n it)|].
  destruct Hin as (H1 & H2 & H3 & H4).
  repeat split; try assumption.
  - now apply (LayoutFacts.grid_tile th _ _ _ _ items grade m it').
  - apply LayoutFacts.tiles_apart_grid. congruence.
Qed.

(** Six items, as [main] passes them: two rows of tiles, the fifth item
    in the middle of the second row. *)
Lemma X22_grid_layout_witness :
  let items := [plainItem; scriptItem; plainItem; plainItem; scriptItem; plainItem] in
  let doc :=
    @Github.renderGridStatsCard refHost Github.theme (VStr "Stats") VNull VNull VNull
      items gradeB in
  infix (@canvas refHost 900 330) doc
  /\ infix (@gridTile refHost 314 212 272 74) doc.
Proof.
  intros items doc.
  destruct (@X22_grid_layout refHost Github.theme (VStr "Stats") VNull VNull VNull
              items gradeB 4%nat scriptItem eq_refl) as (Hc & Ht & _).
  split; [exact Hc|exact Ht].
Defined.



(** X24. The ring of the grid card shows the percentage of the grade
    clamped to the range from 0 to 100, and its arc is that share of the
    circumference of a circle of radius 26, the gap being the rest; a
    percentage in the range, as [computeGrade] always gives, is shown as
    it is.  Exact rational arithmetic stands for doubles, and the double
    nearest to pi for pi. *)
Theorem X24_ring `{Host} (th : Github.Theme.t)
    (title subtitleLeft totalText topText : jsval)
    (items : list Github.GridItem) (grade : Github.Grade) :
  let clamped := Z.max 0 (Z.min 100 (Github.pct grade)) in
  let around := (2 * PI * 26)%Q in
  let doc :=
    Github.renderGridStatsCard th title subtitleLeft totalText topText items grade in
  exists dash gap : Q,
    infix (ringArc (Fin dash) (Fin gap)) doc
    /\ infix (ringPercent clamped) doc
    /\ (dash == around * inject_Z clamped / 100)%Q
    /\ (dash + gap == around)%Q
    /\ (0 <= dash <= around)%Q /\ (0 <= gap)%Q
    /\ (0 <= Github.pct grade <= 100 -> clamped = Github.pct grade).
Proof.
  intros clamped around doc.
  destruct (LayoutFacts.ring_drawn th title subtitleLeft totalText topText items grade)
    as [Harc Hpct].
  destruct (LayoutFacts.ring_numbers 26 clamped) as (d & g & Hd & Hg & Hq & Hs & Hr & Hg0);
    [lia|unfold clamped; lia|].
  cbv zeta in Hd, Hg. fold clamped in Harc, Hpct.
  rewrite Hg, Hd in Harc.
  exists d, g. split; [exact Harc|]. split; [exact Hpct|].
  split; [exact Hq|]. split; [exact Hs|]. split; [exact Hr|].
  split; [exact Hg0|]. unfold clamped. lia.
Qed.

(** X25. No query of [fetchContribSince2021] asks for more than one year
    of contributions, the limit of the API that its loop is written for:
    every window is at most 366 days long. *)
Theorem X25_window_length (now : Z) :
  Forall (fun w => 0 <= snd w - fst w <= 366 * msPerDay)
         (Github.contribWindows now).
Proof.
  apply Forall_forall. intros w Hin.
  unfold Github.contribWindows in Hin. cbv zeta in Hin.
  apply in_map_iff in Hin. destruct Hin as (y & <- & _).
  unfold Github.window. cbv zeta. cbn [fst snd].
  destruct (Z.eqb_spec y (getUTCFullYear now)) as [->|_].
  - pose proof (DateFacts.getUTCFullYear_spec now) as [Hlo Hhi].
    pose proof (DateFacts.year_length (getUTCFullYear now)). lia.
  - pose proof (DateFacts.year_length y). unfold msPerDay in *. lia.
Qed.
